(** * ATR: the decision-to-ledger pipeline

    A shallow embedding of [core/portfolio.py], [core/risk_manager.py],
    [core/order_manager.py] and [core/trading_engine.py].

    Conventions of the embedding:
    - Python [int] is [Z]; Python [float] is idealised as an exact
      rational [Q] (no rounding error, no NaN, no infinities);
    - [str] is [string], [str.lower] acts on the ASCII letters;
    - a [dict] keyed by strings is a [gmap string _], except where the
      iteration order of the dictionary is observable;
    - an exception is a value of [exn]; a method that mutates [self] is a
      function from the state to the new state and a [result];
    - [datetime.now()], [uuid.uuid4()] and the simulated quote are inputs. *)

From Stdlib Require Import ZArith QArith Qabs Qround Qminmax Lia Lqa.
From Stdlib Require Import String Ascii List Sorted Permutation.
From stdpp Require Import gmap strings.
Import ListNotations.

Local Open Scope Q_scope.

(** ** Python primitives *)

Inductive exn : Set :=
| ValueError
| ZeroDivisionError
| TypeError.

Inductive result (A : Type) : Type :=
| Ok (a : A)
| Raise (e : exn).

Arguments Ok {A} a.
Arguments Raise {A} e.

(** [x > y] on floats. *)
Definition Qgtb (x y : Q) : bool :=
  match x ?= y with Gt => true | _ => false end.

(** [x < y] on floats. *)
Definition Qltb (x y : Q) : bool := Qgtb y x.

(** [int(x)]: truncation towards zero. *)
Definition int (x : Q) : Z := Z.quot (Qnum x) (Zpos (Qden x)).

(** [abs(x)] on floats. *)
Definition abs (x : Q) : Q := Qabs x.

(** [round(x, 2)]: the nearest multiple of 0.01, ties to even. *)
Definition round2 (x : Q) : Q :=
  let y := x * 100 in
  let f := Qfloor y in
  let r := y - inject_Z f in
  let n := match r ?= 1 # 2 with
           | Lt => f
           | Gt => (f + 1)%Z
           | Eq => if Z.even f then f else (f + 1)%Z
           end in
  inject_Z n / 100.

Definition lower_ascii (c : ascii) : ascii :=
  let n := nat_of_ascii c in
  if (Nat.leb 65 n && Nat.leb n 90)%bool then ascii_of_nat (n + 32) else c.

(** [s.lower()]. *)
Fixpoint lower (s : string) : string :=
  match s with
  | EmptyString => EmptyString
  | String c r => String (lower_ascii c) (lower r)
  end.

(** The clock: seconds, local time; [date_of] is [datetime.date()]. *)
Definition datetime := Z.
Bind Scope Z_scope with datetime.
Definition date_of (t : datetime) : Z := (t / 86400)%Z.

(** ** core/portfolio.py *)

Module Portfolio.

Record Position : Type := mkPosition {
  pos_symbol : string;
  pos_quantity : Z;
  avg_cost : Q;
  current_price : Q;
  last_updated : datetime
}.

Definition market_value (p : Position) : Q :=
  inject_Z (pos_quantity p) * current_price p.

Definition unrealized_pnl (p : Position) : Q :=
  (current_price p - avg_cost p) * inject_Z (pos_quantity p).

(** [price] is declared [float]; the engine also passes [None] (an
    unfilled limit order), hence the option. *)
Record TradeRecord : Type := mkTradeRecord {
  tr_timestamp : datetime;
  tr_symbol : string;
  tr_action : string;
  tr_quantity : Z;
  tr_price : option Q;
  tr_commission : Q;
  tr_pnl : Q;
  tr_model_name : string;
  tr_reason : string
}.

Record t : Type := mk {
  initial_capital : Q;
  cash_balance : Q;
  positions : gmap string Position;
  trade_history : list TradeRecord;
  is_initialized : bool
}.

(** [Portfolio()] *)
Definition init : t :=
  {| initial_capital := 0; cash_balance := 0; positions := ∅;
     trade_history := []; is_initialized := false |}.

Definition initialize (capital : Q) (pf : t) : t :=
  {| initial_capital := capital; cash_balance := capital;
     positions := positions pf; trade_history := trade_history pf;
     is_initialized := true |}.

Definition set_cash (c : Q) (pf : t) : t :=
  {| initial_capital := initial_capital pf; cash_balance := c;
     positions := positions pf; trade_history := trade_history pf;
     is_initialized := is_initialized pf |}.

Definition set_positions (m : gmap string Position) (pf : t) : t :=
  {| initial_capital := initial_capital pf; cash_balance := cash_balance pf;
     positions := m; trade_history := trade_history pf;
     is_initialized := is_initialized pf |}.

Definition set_history (h : list TradeRecord) (pf : t) : t :=
  {| initial_capital := initial_capital pf; cash_balance := cash_balance pf;
     positions := positions pf; trade_history := h;
     is_initialized := is_initialized pf |}.

Definition set_pnl (x : Q) (r : TradeRecord) : TradeRecord :=
  {| tr_timestamp := tr_timestamp r; tr_symbol := tr_symbol r;
     tr_action := tr_action r; tr_quantity := tr_quantity r;
     tr_price := tr_price r; tr_commission := tr_commission r;
     tr_pnl := x; tr_model_name := tr_model_name r;
     tr_reason := tr_reason r |}.

(** [self.trade_history[-1].pnl = x], for a non-empty history. *)
Fixpoint set_last_pnl (x : Q) (h : list TradeRecord) : list TradeRecord :=
  match h with
  | [] => []
  | [r] => [set_pnl x r]
  | r :: rest => r :: set_last_pnl x rest
  end.

(** A method of the ledger: new state and outcome. *)
Definition M (A : Type) : Type := t -> t * result A.

Definition ret {A : Type} (a : A) : M A := fun pf => (pf, Ok a).

Definition raise {A : Type} (e : exn) : M A := fun pf => (pf, Raise e).

Definition bind {A B : Type} (m : M A) (k : A -> M B) : M B :=
  fun pf =>
    match m pf with
    | (pf', Ok a) => k a pf'
    | (pf', Raise e) => (pf', Raise e)
    end.

Notation "m ;;; k" := (bind m (fun _ => k))
  (at level 100, k at level 200, right associativity).

(** [max(quantity * 0.01, 1.0)] *)
Definition _calculate_commission (quantity : Z) (price : option Q) : Q :=
  Qmax (inject_Z quantity * (1 # 100)) 1.

Definition _buy_stock (now : datetime) (symbol : string) (quantity : Z)
    (price : option Q) (commission : Q) (model_name : string) : M unit :=
  fun pf =>
    match price with
    | None => (pf, Raise TypeError)
    | Some price =>
      let total_cost := inject_Z quantity * price + commission in
      if Qgtb total_cost (cash_balance pf) then (pf, Raise ValueError)
      else
        let pf := set_cash (cash_balance pf - total_cost) pf in
        match positions pf !! symbol with
        | Some existing_pos =>
          let total_quantity := (pos_quantity existing_pos + quantity)%Z in
          let total_cost_basis :=
            inject_Z (pos_quantity existing_pos) * avg_cost existing_pos
            + inject_Z quantity * price in
          if (total_quantity =? 0)%Z then (pf, Raise ZeroDivisionError)
          else
            let new_avg_cost := total_cost_basis / inject_Z total_quantity in
            (set_positions
               (<[symbol :=
                    {| pos_symbol := pos_symbol existing_pos;
                       pos_quantity := total_quantity;
                       avg_cost := new_avg_cost;
                       current_price := current_price existing_pos;
                       last_updated := last_updated existing_pos |}]>
                  (positions pf)) pf,
             Ok tt)
        | None =>
          (set_positions
             (<[symbol :=
                  {| pos_symbol := symbol; pos_quantity := quantity;
                     avg_cost := price; current_price := price;
                     last_updated := now |}]> (positions pf)) pf,
           Ok tt)
        end
    end.

Definition _sell_stock (symbol : string) (quantity : Z) (price : option Q)
    (commission : Q) (model_name : string) : M unit :=
  fun pf =>
    match positions pf !! symbol with
    | None => (pf, Raise ValueError)
    | Some position =>
      if (pos_quantity position <? quantity)%Z then (pf, Raise ValueError)
      else
        match price with
        | None => (pf, Raise TypeError)
        | Some price =>
          let realized_pnl :=
            (price - avg_cost position) * inject_Z quantity - commission in
          let proceeds := inject_Z quantity * price - commission in
          let pf := set_cash (cash_balance pf + proceeds) pf in
          let position :=
            {| pos_symbol := pos_symbol position;
               pos_quantity := (pos_quantity position - quantity)%Z;
               avg_cost := avg_cost position;
               current_price := current_price position;
               last_updated := last_updated position |} in
          let pf :=
            if (pos_quantity position =? 0)%Z
            then set_positions (delete symbol (positions pf)) pf
            else set_positions (<[symbol := position]> (positions pf)) pf in
          (set_history (set_last_pnl realized_pnl (trade_history pf)) pf,
           Ok tt)
        end
    end.

(** The f-string of the final [logger.info] formats [price] with
    [:.2f], which raises on [None]. *)
Definition log_update (price : option Q) : M unit :=
  match price with
  | Some _ => ret tt
  | None => raise TypeError
  end.

Definition update_position (now : datetime) (symbol action : string)
    (quantity : Z) (price : option Q) (model_name : string) : M unit :=
  let commission := _calculate_commission quantity price in
  (if String.eqb (lower action) "buy"
   then _buy_stock now symbol quantity price commission model_name
   else if String.eqb (lower action) "sell"
   then _sell_stock symbol quantity price commission model_name
   else ret tt) ;;;
  (fun pf =>
     let trade_record :=
       {| tr_timestamp := now; tr_symbol := symbol; tr_action := action;
          tr_quantity := quantity; tr_price := price;
          tr_commission := commission; tr_pnl := 0;
          tr_model_name := model_name; tr_reason := "" |} in
     (set_history (trade_history pf ++ [trade_record]) pf, Ok tt)) ;;;
  log_update price.

(** Sum of a float attribute over [self.positions.values()]. *)
Definition sum_positions (f : Position -> Q) (m : gmap string Position) : Q :=
  map_fold (fun _ p acc => acc + f p) 0 m.

Record Status : Type := mkStatus {
  st_cash_balance : Q;
  st_positions_value : Q;
  st_total_value : Q;
  st_total_return : Q;
  st_unrealized_pnl : Q;
  st_realized_pnl : Q;
  st_positions_count : nat;
  st_trades_count : nat
}.

(** [get_status]: the total return divides by [initial_capital]. *)
Definition get_status (pf : t) : result Status :=
  let positions_value := sum_positions market_value (positions pf) in
  let total_value := cash_balance pf + positions_value in
  if Qeq_bool (initial_capital pf) 0 then Raise ZeroDivisionError
  else
    let total_return :=
      (total_value - initial_capital pf) / initial_capital pf in
    let unrealized := sum_positions unrealized_pnl (positions pf) in
    let realized :=
      fold_left (fun acc tr => acc + tr_pnl tr) (trade_history pf) 0 in
    Ok {| st_cash_balance := cash_balance pf;
          st_positions_value := positions_value;
          st_total_value := total_value;
          st_total_return := total_return;
          st_unrealized_pnl := unrealized;
          st_realized_pnl := realized;
          st_positions_count := size (positions pf);
          st_trades_count := length (trade_history pf) |}.

Definition get_positions (pf : t) : gmap string Position := positions pf.

Definition get_position (symbol : string) (pf : t) : option Position :=
  positions pf !! symbol.

(** [trades[-limit:]] for [limit >= 0]; the slice [[-0:]] is the whole
    list. *)
Definition last_n {A : Type} (limit : nat) (l : list A) : list A :=
  match limit with
  | O => l
  | S _ => skipn (length l - limit) l
  end.

(** [get_trade_history(model_name, limit)]; an empty [model_name] does
    not filter. *)
Definition get_trade_history (model_name : string) (limit : nat) (pf : t)
  : list TradeRecord :=
  let trades :=
    if String.eqb model_name "" then trade_history pf
    else List.filter (fun tr => String.eqb (tr_model_name tr) model_name)
           (trade_history pf) in
  last_n limit trades.

(** [update_market_prices]: a quoted symbol takes the new price and the
    time of the update; the other positions are left as they are. *)
Definition update_market_prices (now : datetime) (price_data : gmap string Q)
    (pf : t) : t :=
  set_positions
    (map_imap
       (fun symbol position =>
          Some match price_data !! symbol with
               | Some quoted =>
                 {| pos_symbol := pos_symbol position;
                    pos_quantity := pos_quantity position;
                    avg_cost := avg_cost position;
                    current_price := quoted;
                    last_updated := now |}
               | None => position
               end)
       (positions pf))
    pf.

(** [sum(xs)] over floats. *)
Definition sum_floats (xs : list Q) : Q :=
  fold_left Qplus xs 0.

Definition _calculate_win_rate (pf : t) : Q :=
  let profitable_trades :=
    List.filter (fun tr => Qgtb (tr_pnl tr) 0) (trade_history pf) in
  let total_trades :=
    length (List.filter (fun tr => negb (Qeq_bool (tr_pnl tr) 0))
              (trade_history pf)) in
  if Nat.eqb total_trades 0 then 0
  else inject_Z (Z.of_nat (length profitable_trades))
       / inject_Z (Z.of_nat total_trades).

Definition _calculate_avg_win (pf : t) : Q :=
  let winning_trades :=
    map tr_pnl
      (List.filter (fun tr => Qgtb (tr_pnl tr) 0) (trade_history pf)) in
  match winning_trades with
  | [] => 0
  | _ => sum_floats winning_trades
         / inject_Z (Z.of_nat (length winning_trades))
  end.

Definition _calculate_avg_loss (pf : t) : Q :=
  let losing_trades :=
    map tr_pnl
      (List.filter (fun tr => Qltb (tr_pnl tr) 0) (trade_history pf)) in
  match losing_trades with
  | [] => 0
  | _ => sum_floats losing_trades
         / inject_Z (Z.of_nat (length losing_trades))
  end.

End Portfolio.

(** ** config/settings.py *)

Module Settings.

(** The attributes the pipeline reads; [RISK_MANAGEMENT] is the
    dictionary of risk limits. *)
Record t : Type := mk {
  INITIAL_CAPITAL : Q;
  MAX_POSITION_SIZE : Q;
  max_daily_loss : Q;
  correlation_threshold : option Q
}.

(** The values taken when the environment overrides nothing. *)
Definition default : t :=
  {| INITIAL_CAPITAL := 10000;
     MAX_POSITION_SIZE := 1 # 10;
     max_daily_loss := 5 # 100;
     correlation_threshold := Some (7 # 10) |}.

End Settings.

(** ** The decision handed to the engine (core/trading_engine.py) *)

Record TradingDecision : Type := mkDecision {
  d_symbol : string;
  d_action : string;
  d_quantity : Z;
  d_price : option Q;
  d_reason : string;
  d_confidence : Q;
  d_stop_loss : option Q;
  d_take_profit : option Q
}.

Definition set_quantity (q : Z) (d : TradingDecision) : TradingDecision :=
  {| d_symbol := d_symbol d; d_action := d_action d; d_quantity := q;
     d_price := d_price d; d_reason := d_reason d;
     d_confidence := d_confidence d; d_stop_loss := d_stop_loss d;
     d_take_profit := d_take_profit d |}.

(** [decision.price or 100.0]: [None] and [0.0] are both falsy. *)
Definition price_or_100 (price : option Q) : Q :=
  match price with
  | Some p => if Qeq_bool p 0 then 100 else p
  | None => 100
  end.

(** ** core/risk_manager.py *)

Module RiskManager.

(** The formatted warning and reason strings, by kind and arguments. *)
Inductive warning : Type :=
| WCashAdjusted (max_quantity : Z)
| WPositionOverLimit (weight limit : Q) (adjusted_quantity : Z)
| WNearDailyLoss (loss max_loss_amount : Q)
| WConcentrated
| WCorrelated (count : nat) (threshold : Q)
| WVolatile (symbol : string) (volatility : Q).

Inductive reason : Type :=
| NoReason
| InsufficientCash (total_cost cash : Q)
| DailyLossExceeded (loss max_loss_amount : Q)
| RiskCheckPassed.

Record RiskCheckResult : Type := mkResult {
  approved : bool;
  rc_reason : reason;
  adjusted_quantity : Z;
  risk_score : Q;
  warnings : list warning
}.

(** [RiskCheckResult(approved=b)] with the dataclass defaults. *)
Definition plain (b : bool) : RiskCheckResult :=
  {| approved := b; rc_reason := NoReason; adjusted_quantity := 0;
     risk_score := 0; warnings := [] |}.

Record t : Type := mk {
  settings : Settings.t;
  correlation_matrix : gmap string Q;
  volatility_data : gmap string Q
}.

Definition _get_correlation (rm : t) (symbol1 symbol2 : string) : Q :=
  default 0 (correlation_matrix rm !! (symbol1 +:+ "_" +:+ symbol2)).

Definition _get_volatility (rm : t) (symbol : string) : Q :=
  default (3 # 10) (volatility_data rm !! symbol).

Definition _check_cash_availability (decision : TradingDecision)
    (portfolio : Portfolio.t) : RiskCheckResult :=
  if negb (String.eqb (lower (d_action decision)) "buy")
  then {| approved := true; rc_reason := NoReason;
          adjusted_quantity := d_quantity decision;
          risk_score := 0; warnings := [] |}
  else
    let estimated_price := price_or_100 (d_price decision) in
    let total_cost :=
      inject_Z (d_quantity decision) * estimated_price * (101 # 100) in
    if Qgtb total_cost (Portfolio.cash_balance portfolio) then
      let max_quantity :=
        int (Portfolio.cash_balance portfolio
             / (estimated_price * (101 # 100))) in
      if (max_quantity =? 0)%Z then
        {| approved := false;
           rc_reason :=
             InsufficientCash total_cost (Portfolio.cash_balance portfolio);
           adjusted_quantity := 0; risk_score := 0; warnings := [] |}
      else
        {| approved := true; rc_reason := NoReason;
           adjusted_quantity := max_quantity; risk_score := 0;
           warnings := [WCashAdjusted max_quantity] |}
    else
      {| approved := true; rc_reason := NoReason;
         adjusted_quantity := d_quantity decision;
         risk_score := 0; warnings := [] |}.

Definition _check_position_limits (rm : t) (decision : TradingDecision)
    (portfolio : Portfolio.t) : result RiskCheckResult :=
  let current_quantity :=
    match Portfolio.get_position (d_symbol decision) portfolio with
    | Some p => Portfolio.pos_quantity p
    | None => 0%Z
    end in
  let is_buy := String.eqb (lower (d_action decision)) "buy" in
  let new_quantity :=
    if is_buy then (current_quantity + d_quantity decision)%Z
    else (current_quantity - d_quantity decision)%Z in
  match Portfolio.get_status portfolio with
  | Raise e => Raise e
  | Ok portfolio_status =>
    let total_value := Portfolio.st_total_value portfolio_status in
    let estimated_price := price_or_100 (d_price decision) in
    let position_value := inject_Z new_quantity * estimated_price in
    let position_weight :=
      if Qgtb total_value 0 then position_value / total_value else 0 in
    let max_position_size := Settings.MAX_POSITION_SIZE (settings rm) in
    if Qgtb position_weight max_position_size then
      let max_value := total_value * max_position_size in
      let max_quantity := int (max_value / estimated_price) in
      let adjusted :=
        if is_buy then Z.max 0 (max_quantity - current_quantity)
        else d_quantity decision in
      Ok {| approved := true; rc_reason := NoReason;
            adjusted_quantity := adjusted;
            risk_score := 0 + (3 # 10);
            warnings :=
              [WPositionOverLimit position_weight max_position_size
                 adjusted] |}
    else
      Ok {| approved := true; rc_reason := NoReason;
            adjusted_quantity := d_quantity decision;
            risk_score := 0; warnings := [] |}
  end.

(** [today] is [datetime.now().date()]. *)
Definition _check_daily_loss_limit (rm : t) (today : Z)
    (portfolio : Portfolio.t) : result RiskCheckResult :=
  let trade_history := Portfolio.get_trade_history "" 100 portfolio in
  let today_trades :=
    List.filter
      (fun trade => (date_of (Portfolio.tr_timestamp trade) =? today)%Z)
      trade_history in
  let today_pnl :=
    fold_left (fun acc trade => acc + Portfolio.tr_pnl trade)
      today_trades 0 in
  match Portfolio.get_status portfolio with
  | Raise e => Raise e
  | Ok portfolio_status =>
    let unrealized_pnl := Portfolio.st_unrealized_pnl portfolio_status in
    let total_daily_pnl :=
      today_pnl + (if Qltb unrealized_pnl 0 then unrealized_pnl else 0) in
    let max_daily_loss := Settings.max_daily_loss (settings rm) in
    let initial_capital := Portfolio.initial_capital portfolio in
    let max_loss_amount := initial_capital * max_daily_loss in
    if Qgtb (abs total_daily_pnl) max_loss_amount then
      Ok {| approved := false;
            rc_reason :=
              DailyLossExceeded (abs total_daily_pnl) max_loss_amount;
            adjusted_quantity := 0; risk_score := 0; warnings := [] |}
    else if Qgtb (abs total_daily_pnl) (max_loss_amount * (8 # 10)) then
      Ok {| approved := true; rc_reason := NoReason;
            adjusted_quantity := 0; risk_score := 0;
            warnings :=
              [WNearDailyLoss (abs total_daily_pnl) max_loss_amount] |}
    else Ok (plain true)
  end.

Definition _check_concentration_risk (decision : TradingDecision)
    (portfolio : Portfolio.t) : RiskCheckResult :=
  let positions := Portfolio.get_positions portfolio in
  if Nat.ltb (size positions) 5 then
    {| approved := true; rc_reason := NoReason; adjusted_quantity := 0;
       risk_score := 0 + (2 # 10); warnings := [WConcentrated] |}
  else plain true.

Definition _check_correlation_risk (rm : t) (decision : TradingDecision)
    (portfolio : Portfolio.t) : RiskCheckResult :=
  let positions := Portfolio.get_positions portfolio in
  let correlation_threshold :=
    default (7 # 10) (Settings.correlation_threshold (settings rm)) in
  let high_correlation_count :=
    length
      (List.filter
         (fun symbol =>
            Qgtb (_get_correlation rm (d_symbol decision) symbol)
              correlation_threshold)
         (map fst (map_to_list positions))) in
  if Nat.ltb 3 high_correlation_count then
    {| approved := true; rc_reason := NoReason; adjusted_quantity := 0;
       risk_score := 0 + (2 # 10);
       warnings :=
         [WCorrelated high_correlation_count correlation_threshold] |}
  else plain true.

Definition _check_volatility_risk (rm : t) (decision : TradingDecision)
    (portfolio : Portfolio.t) : RiskCheckResult :=
  let volatility := _get_volatility rm (d_symbol decision) in
  if Qgtb volatility (4 # 10) then
    {| approved := true; rc_reason := NoReason; adjusted_quantity := 0;
       risk_score := 0 + (1 # 10);
       warnings := [WVolatile (d_symbol decision) volatility] |}
  else plain true.

Definition _calculate_optimal_position_size (decision : TradingDecision)
    (portfolio : Portfolio.t) (risk_score : Q) : Z :=
  let base_quantity := d_quantity decision in
  let adjusted_quantity :=
    if Qgtb risk_score (5 # 10) then
      let adjustment_factor := Qmax (5 # 10) (1 - risk_score) in
      int (inject_Z base_quantity * adjustment_factor)
    else base_quantity in
  Z.max 1 adjusted_quantity.

Definition check_trade_risk (rm : t) (today : Z)
    (decision : TradingDecision) (portfolio : Portfolio.t)
  : result RiskCheckResult :=
  let warnings0 : list warning := [] in
  let risk_score0 : Q := 0 in
  let cash_check := _check_cash_availability decision portfolio in
  if negb (approved cash_check) then Ok cash_check
  else
    match _check_position_limits rm decision portfolio with
    | Raise e => Raise e
    | Ok position_check =>
      if negb (approved position_check) then Ok position_check
      else
        let warnings1 := warnings0 ++ warnings position_check in
        let risk_score1 := risk_score0 + risk_score position_check in
        match _check_daily_loss_limit rm today portfolio with
        | Raise e => Raise e
        | Ok daily_loss_check =>
          if negb (approved daily_loss_check) then Ok daily_loss_check
          else
            let warnings2 := warnings1 ++ warnings daily_loss_check in
            let concentration_check :=
              _check_concentration_risk decision portfolio in
            let warnings3 := warnings2 ++ warnings concentration_check in
            let risk_score2 :=
              risk_score1 + risk_score concentration_check in
            let correlation_check :=
              _check_correlation_risk rm decision portfolio in
            let warnings4 := warnings3 ++ warnings correlation_check in
            let risk_score3 :=
              risk_score2 + risk_score correlation_check in
            let volatility_check :=
              _check_volatility_risk rm decision portfolio in
            let warnings5 := warnings4 ++ warnings volatility_check in
            let risk_score4 :=
              risk_score3 + risk_score volatility_check in
            let adjusted :=
              _calculate_optimal_position_size decision portfolio
                risk_score4 in
            Ok {| approved := true; rc_reason := RiskCheckPassed;
                  adjusted_quantity := adjusted;
                  risk_score := risk_score4;
                  warnings := warnings5 |}
        end
    end.

End RiskManager.

(** ** The outcome of an order (core/trading_engine.py) *)

(** The formatted [error_message], by kind. *)
Inductive message : Type :=
| NoMessage
| MsgNoMarketPrice (symbol : string)
| MsgLimitSubmitted
| MsgRealTradingNotImplemented
| MsgOrderFailed (e : exn)
| MsgPlaceOrderFailed (e : exn)
| MsgRiskRejected (r : RiskManager.reason)
| MsgExecuteFailed (e : exn).

Record TradeResult : Type := mkTradeResult {
  success : bool;
  r_order_id : option string;
  executed_price : option Q;
  executed_quantity : Z;
  r_commission : Q;
  error_message : message
}.

(** [TradeResult(success=False, error_message=m)] *)
Definition failure (m : message) : TradeResult :=
  {| success := false; r_order_id := None; executed_price := None;
     executed_quantity := 0; r_commission := 0; error_message := m |}.

(** ** core/order_manager.py *)

Module OrderManager.

Inductive OrderStatus : Set :=
| PENDING
| SUBMITTED
| PARTIALLY_FILLED
| FILLED
| CANCELLED
| REJECTED
| EXPIRED.

Inductive OrderType : Set :=
| MARKET
| LIMIT
| STOP
| STOP_LIMIT.

Definition status_eqb (a b : OrderStatus) : bool :=
  match a, b with
  | PENDING, PENDING | SUBMITTED, SUBMITTED
  | PARTIALLY_FILLED, PARTIALLY_FILLED | FILLED, FILLED
  | CANCELLED, CANCELLED | REJECTED, REJECTED | EXPIRED, EXPIRED => true
  | _, _ => false
  end.

Record Order : Type := mkOrder {
  order_id : string;
  symbol : string;
  action : string;
  quantity : Z;
  order_type : OrderType;
  price : option Q;
  stop_price : option Q;
  status : OrderStatus;
  created_at : datetime;
  updated_at : datetime;
  filled_quantity : Z;
  avg_fill_price : Q;
  commission : Q;
  model_name : string;
  reason : string
}.

Record Fill : Type := mkFill {
  fill_id : string;
  f_order_id : string;
  f_symbol : string;
  f_quantity : Z;
  f_price : Q;
  f_timestamp : datetime;
  f_commission : Q
}.

(** [orders] holds the values of the dictionary in insertion order; the
    key of an order is its [order_id], and an [Order] object is known by
    its index in the list. *)
Record t : Type := mk {
  orders : list Order;
  fills : list Fill;
  is_initialized : bool;
  simulation_mode : bool
}.

Definition init : t :=
  {| orders := []; fills := []; is_initialized := false;
     simulation_mode := true |}.

Definition initialize (om : t) : t :=
  {| orders := orders om; fills := fills om; is_initialized := true;
     simulation_mode := true |}.

Definition set_orders (l : list Order) (om : t) : t :=
  {| orders := l; fills := fills om; is_initialized := is_initialized om;
     simulation_mode := simulation_mode om |}.

Definition add_fill (f : Fill) (om : t) : t :=
  {| orders := orders om; fills := fills om ++ [f];
     is_initialized := is_initialized om;
     simulation_mode := simulation_mode om |}.

Definition set_status (s : OrderStatus) (o : Order) : Order :=
  {| order_id := order_id o; symbol := symbol o; action := action o;
     quantity := quantity o; order_type := order_type o; price := price o;
     stop_price := stop_price o; status := s; created_at := created_at o;
     updated_at := updated_at o; filled_quantity := filled_quantity o;
     avg_fill_price := avg_fill_price o; commission := commission o;
     model_name := model_name o; reason := reason o |}.

Definition set_updated_at (now : datetime) (o : Order) : Order :=
  {| order_id := order_id o; symbol := symbol o; action := action o;
     quantity := quantity o; order_type := order_type o; price := price o;
     stop_price := stop_price o; status := status o;
     created_at := created_at o; updated_at := now;
     filled_quantity := filled_quantity o;
     avg_fill_price := avg_fill_price o; commission := commission o;
     model_name := model_name o; reason := reason o |}.

(** The five assignments that record a complete fill on an order. *)
Definition set_filled (now : datetime) (execution_price fee : Q) (o : Order)
  : Order :=
  {| order_id := order_id o; symbol := symbol o; action := action o;
     quantity := quantity o; order_type := order_type o; price := price o;
     stop_price := stop_price o; status := FILLED;
     created_at := created_at o; updated_at := now;
     filled_quantity := quantity o; avg_fill_price := execution_price;
     commission := fee; model_name := model_name o; reason := reason o |}.

(** The index of key [id] in the dictionary. *)
Fixpoint index_of (id : string) (l : list Order) : option nat :=
  match l with
  | [] => None
  | o :: rest =>
    if String.eqb (order_id o) id then Some 0%nat
    else option_map S (index_of id rest)
  end.

(** [self.orders[order_id] = order] *)
Definition store (o : Order) (l : list Order) : list Order :=
  match index_of (order_id o) l with
  | Some i => <[i := o]> l
  | None => l ++ [o]
  end.

(** Mutation of the order object at index [i]. *)
Definition update_order (i : nat) (f : Order -> Order) (om : t) : t :=
  match orders om !! i with
  | Some o => set_orders (<[i := f o]> (orders om)) om
  | None => om
  end.

(** [round(max(min_fee, min(per_share_fee, max_fee)), 2)] *)
Definition _calculate_commission (quantity : Z) (price : Q) : Q :=
  let per_share_fee := inject_Z quantity * (5 # 1000) in
  let min_fee := 1 in
  let max_fee := inject_Z quantity * price * (5 # 1000) in
  let commission := Qmax min_fee (Qmin per_share_fee max_fee) in
  round2 commission.

(** [_create_order]: returns the index of the new order object. *)
Definition _create_order (now : datetime) (uuid : string)
    (decision : TradingDecision) (om : t) : t * nat :=
  let order_type :=
    match d_price decision with None => MARKET | Some _ => LIMIT end in
  let order :=
    {| order_id := uuid; symbol := d_symbol decision;
       action := d_action decision; quantity := d_quantity decision;
       order_type := order_type; price := d_price decision;
       stop_price := d_stop_loss decision; status := PENDING;
       created_at := now; updated_at := now; filled_quantity := 0;
       avg_fill_price := 0; commission := 0; model_name := "";
       reason := d_reason decision |} in
  let l := store order (orders om) in
  (set_orders l om, default 0%nat (index_of uuid l)).

(** The price at which the simulation executes the order, [None] when a
    limit order does not cross; comparing with a missing limit price
    raises. *)
Definition execution_price_of (order : Order) (current_price : Q)
  : result (option Q) :=
  match order_type order with
  | MARKET =>
    if String.eqb (lower (action order)) "buy"
    then Ok (Some (current_price * (1001 # 1000)))
    else Ok (Some (current_price * (999 # 1000)))
  | LIMIT =>
    if String.eqb (lower (action order)) "buy" then
      match price order with
      | None => Raise TypeError
      | Some limit =>
        if Qle_bool current_price limit then Ok (Some limit) else Ok None
      end
    else if String.eqb (lower (action order)) "sell" then
      match price order with
      | None => Raise TypeError
      | Some limit =>
        if Qle_bool limit current_price then Ok (Some limit) else Ok None
      end
    else Ok None
  | _ => Ok (Some current_price)
  end.

Definition _simulate_order_execution (now : datetime) (fill_uuid : string)
    (quote : string -> option Q) (i : nat) (order : Order) (om : t)
  : t * result TradeResult :=
  match quote (symbol order) with
  | None =>
    (update_order i (set_status REJECTED) om,
     Ok (failure (MsgNoMarketPrice (symbol order))))
  | Some current_price =>
    match execution_price_of order current_price with
    | Raise e => (om, Raise e)
    | Ok None =>
      (update_order i (set_status SUBMITTED) om,
       Ok {| success := true; r_order_id := Some (order_id order);
             executed_price := None; executed_quantity := 0;
             r_commission := 0; error_message := MsgLimitSubmitted |})
    | Ok (Some execution_price) =>
      let fee := _calculate_commission (quantity order) execution_price in
      let om := update_order i (set_filled now execution_price fee) om in
      let fill :=
        {| fill_id := fill_uuid; f_order_id := order_id order;
           f_symbol := symbol order; f_quantity := quantity order;
           f_price := execution_price; f_timestamp := now;
           f_commission := fee |} in
      (add_fill fill om,
       Ok {| success := true; r_order_id := Some (order_id order);
             executed_price := Some execution_price;
             executed_quantity := quantity order;
             r_commission := fee; error_message := NoMessage |})
    end
  end.

Definition _execute_real_order (order : Order) : TradeResult :=
  failure MsgRealTradingNotImplemented.

Definition _submit_order (now : datetime) (fill_uuid : string)
    (quote : string -> option Q) (i : nat) (order : Order) (om : t)
  : t * TradeResult :=
  if simulation_mode om then
    match _simulate_order_execution now fill_uuid quote i order om with
    | (om', Ok r) => (om', r)
    | (om', Raise e) =>
      (update_order i (fun o => set_updated_at now (set_status REJECTED o))
         om',
       failure (MsgOrderFailed e))
    end
  else (om, _execute_real_order order).

Definition place_order (now : datetime) (order_uuid fill_uuid : string)
    (quote : string -> option Q) (decision : TradingDecision) (om : t)
  : t * TradeResult :=
  let '(om, i) := _create_order now order_uuid decision om in
  match orders om !! i with
  | Some order => _submit_order now fill_uuid quote i order om
  | None => (om, failure (MsgPlaceOrderFailed TypeError))
  end.

Definition terminal_for_cancel (s : OrderStatus) : bool :=
  status_eqb s FILLED || status_eqb s CANCELLED || status_eqb s REJECTED.

Definition cancel_order (now : datetime) (id : string) (om : t) : t * bool :=
  match index_of id (orders om) with
  | None => (om, false)
  | Some i =>
    match orders om !! i with
    | None => (om, false)
    | Some order =>
      if terminal_for_cancel (status order) then (om, false)
      else
        (update_order i (fun o => set_updated_at now (set_status CANCELLED o))
           om,
         true)
    end
  end.

Definition get_order_status (id : string) (om : t) : option Order :=
  match index_of id (orders om) with
  | Some i => orders om !! i
  | None => None
  end.

(** Stable insertion for [sort(key=created_at, reverse=True)]. *)
Fixpoint insert_desc (x : nat * Order) (l : list (nat * Order))
  : list (nat * Order) :=
  match l with
  | [] => [x]
  | y :: rest =>
    if (created_at (snd x) <? created_at (snd y))%Z
    then y :: insert_desc x rest
    else x :: l
  end.

Definition sort_desc (l : list (nat * Order)) : list (nat * Order) :=
  fold_right insert_desc [] l.

(** [list(self.orders.values())] with the identity of each object. *)
Definition enumerate (l : list Order) : list (nat * Order) :=
  combine (seq 0 (length l)) l.

(** [get_orders(symbol, status)]: an empty or missing [symbol] and a
    missing [status] do not filter. *)
Definition get_orders (sym : option string) (st : option OrderStatus)
    (om : t) : list (nat * Order) :=
  let l := enumerate (orders om) in
  let l :=
    match sym with
    | Some s =>
      if String.eqb s "" then l
      else List.filter (fun o => String.eqb (symbol (snd o)) s) l
    | None => l
    end in
  let l :=
    match st with
    | Some s => List.filter (fun o => status_eqb (status (snd o)) s) l
    | None => l
    end in
  sort_desc l.

Definition _fill_limit_order (now : datetime) (fill_uuid : string)
    (i : nat) (order : Order) (fill_price : Q) (om : t) : t :=
  let fee := _calculate_commission (quantity order) fill_price in
  let om := update_order i (set_filled now fill_price fee) om in
  add_fill
    {| fill_id := fill_uuid; f_order_id := order_id order;
       f_symbol := symbol order; f_quantity := quantity order;
       f_price := fill_price; f_timestamp := now; f_commission := fee |}
    om.

(** [can_fill] of the re-evaluation loop. *)
Definition can_fill (order : Order) (current_price : Q) : result bool :=
  if String.eqb (lower (action order)) "buy" then
    match price order with
    | None => Raise TypeError
    | Some limit => Ok (Qle_bool current_price limit)
    end
  else if String.eqb (lower (action order)) "sell" then
    match price order with
    | None => Raise TypeError
    | Some limit => Ok (Qle_bool limit current_price)
    end
  else Ok false.

(** The body of the loop of [process_pending_orders] over the objects
    selected before the loop starts. *)
Fixpoint process_loop (now : datetime) (fill_uuid : nat -> string)
    (quote : string -> option Q) (pending : list (nat * Order)) (om : t)
  : t * result unit :=
  match pending with
  | [] => (om, Ok tt)
  | (i, _) :: rest =>
    match orders om !! i with
    | None => process_loop now fill_uuid quote rest om
    | Some order =>
      match order_type order with
      | LIMIT =>
        match quote (symbol order) with
        | None => process_loop now fill_uuid quote rest om
        | Some current_price =>
          match can_fill order current_price, price order with
          | Raise e, _ => (om, Raise e)
          | Ok true, Some limit =>
            process_loop now fill_uuid quote rest
              (_fill_limit_order now (fill_uuid i) i order limit om)
          | Ok true, None => (om, Raise TypeError)
          | Ok false, _ => process_loop now fill_uuid quote rest om
          end
        end
      | _ => process_loop now fill_uuid quote rest om
      end
    end
  end.

Definition process_pending_orders (now : datetime) (fill_uuid : nat -> string)
    (quote : string -> option Q) (om : t) : t * result unit :=
  process_loop now fill_uuid quote (get_orders None (Some SUBMITTED) om) om.

(** [shutdown]: cancels the orders still [PENDING]. *)
Definition shutdown (now : datetime) (om : t) : t :=
  fold_left (fun om o => fst (cancel_order now (order_id (snd o)) om))
    (get_orders None (Some PENDING) om) om.

End OrderManager.

(** ** core/trading_engine.py *)

Module TradingEngine.

Record t : Type := mk {
  settings : Settings.t;
  portfolio : Portfolio.t;
  risk_manager : RiskManager.t;
  order_manager : OrderManager.t
}.

(** [TradingEngine()] followed by [initialize()]; the random tables of
    the risk manager are given. *)
Definition initialize (s : Settings.t) (correlation volatility : gmap string Q)
  : t :=
  {| settings := s;
     portfolio := Portfolio.initialize (Settings.INITIAL_CAPITAL s)
                    Portfolio.init;
     risk_manager :=
       {| RiskManager.settings := s;
          RiskManager.correlation_matrix := correlation;
          RiskManager.volatility_data := volatility |};
     order_manager := OrderManager.initialize OrderManager.init |}.

Definition set_portfolio (pf : Portfolio.t) (e : t) : t :=
  {| settings := settings e; portfolio := pf;
     risk_manager := risk_manager e; order_manager := order_manager e |}.

Definition set_order_manager (om : OrderManager.t) (e : t) : t :=
  {| settings := settings e; portfolio := portfolio e;
     risk_manager := risk_manager e; order_manager := om |}.

(** [execute_trade]: the engine after the call, the decision (its
    quantity is overwritten by the risk manager's) and the result. Every
    exception is caught and turned into a failed result. *)
Definition execute_trade (now : datetime) (order_uuid fill_uuid : string)
    (quote : string -> option Q) (model_name : string)
    (decision : TradingDecision) (e : t)
  : t * TradingDecision * TradeResult :=
  match RiskManager.check_trade_risk (risk_manager e) (date_of now) decision
          (portfolio e) with
  | Raise x => (e, decision, failure (MsgExecuteFailed x))
  | Ok risk_check =>
    if negb (RiskManager.approved risk_check) then
      (e, decision,
       failure (MsgRiskRejected (RiskManager.rc_reason risk_check)))
    else
      let decision :=
        if negb (RiskManager.adjusted_quantity risk_check
                 =? d_quantity decision)%Z
        then set_quantity (RiskManager.adjusted_quantity risk_check) decision
        else decision in
      let '(om, result) :=
        OrderManager.place_order now order_uuid fill_uuid quote decision
          (order_manager e) in
      let e := set_order_manager om e in
      if success result then
        match Portfolio.update_position now (d_symbol decision)
                (d_action decision) (executed_quantity result)
                (executed_price result) "" (portfolio e) with
        | (pf, Ok _) => (set_portfolio pf e, decision, result)
        | (pf, Raise x) =>
          (set_portfolio pf e, decision, failure (MsgExecuteFailed x))
        end
      else (e, decision, result)
  end.

End TradingEngine.

(** * Traces, invariants and sample data *)

Local Open Scope string_scope.
Local Open Scope Q_scope.

(** ** Calls of the ledger and its invariant *)

Section LedgerTerms.

Import Portfolio.

(** The two invariants of the ledger. *)
Definition ledger_ok (pf : Portfolio.t) : Prop :=
  0 <= cash_balance pf /\
  forall s p, positions pf !! s = Some p -> (0 < pos_quantity p)%Z.

(** One call of [update_position] with a float price. *)
Record Call : Type := mkCall {
  c_now : datetime;
  c_symbol : string;
  c_action : string;
  c_quantity : Z;
  c_price : Q;
  c_model_name : string
}.

Definition apply_call (c : Call) : M unit :=
  update_position (c_now c) (c_symbol c) (c_action c) (c_quantity c)
    (Some (c_price c)) (c_model_name c).

(** The ledger after a sequence of calls that all return normally. *)
Fixpoint apply_calls (calls : list Call) (pf : Portfolio.t)
  : option Portfolio.t :=
  match calls with
  | [] => Some pf
  | c :: rest =>
    match apply_call c pf with
    | (pf', Ok _) => apply_calls rest pf'
    | (_, Raise _) => None
    end
  end.

(** A buy of at least one unit; a sale whose gross amount covers the
    commission. *)
Definition admissible (c : Call) : Prop :=
  (lower (c_action c) = "buy" -> (1 <= c_quantity c)%Z) /\
  (lower (c_action c) = "sell" ->
   _calculate_commission (c_quantity c) (Some (c_price c))
   <= inject_Z (c_quantity c) * c_price c).

Definition demo_calls : list Call :=
  [ {| c_now := 0; c_symbol := "AAPL"; c_action := "buy";
       c_quantity := 10; c_price := 150; c_model_name := "Demo-Model" |};
    {| c_now := 60; c_symbol := "AAPL"; c_action := "SELL";
       c_quantity := 4; c_price := 160; c_model_name := "Demo-Model" |} ].

Definition demo_ledger : Portfolio.t :=
  Eval vm_compute in
    match apply_calls demo_calls (initialize 10000 init) with
    | Some pf => pf
    | None => init
    end.

(** The record that [update_position] appends. *)
Definition new_record (now : datetime) (symbol action : string)
    (quantity : Z) (price : Q) (model_name : string) : TradeRecord :=
  {| tr_timestamp := now; tr_symbol := symbol; tr_action := action;
     tr_quantity := quantity; tr_price := Some price;
     tr_commission := _calculate_commission quantity (Some price);
     tr_pnl := 0; tr_model_name := model_name; tr_reason := "" |}.

End LedgerTerms.

(** ** Decisions and ledgers for the risk gate *)

Section RiskTerms.

Import RiskManager.

(** A risk manager with the default limits and arbitrary tables. *)
Definition default_manager (correlation volatility : gmap string Q)
  : RiskManager.t :=
  {| settings := Settings.default;
     correlation_matrix := correlation;
     volatility_data := volatility |}.

Definition shrink_decision : TradingDecision :=
  {| d_symbol := "AAPL"; d_action := "buy"; d_quantity := 100;
     d_price := Some 20; d_reason := ""; d_confidence := 8 # 10;
     d_stop_loss := None; d_take_profit := None |}.

Definition shrink_ledger : Portfolio.t :=
  Portfolio.initialize 1000 Portfolio.init.

(** A ledger with a profitable day: 10 shares bought at 100 and sold at
    161 on day 0. *)
Definition profit_ledger : Portfolio.t :=
  let pf0 := Portfolio.initialize 10000 Portfolio.init in
  let pf1 :=
    fst (Portfolio.update_position 0 "AAPL" "buy" 10 (Some 100) "m" pf0) in
  fst (Portfolio.update_position 60 "AAPL" "sell" 10 (Some 161) "m" pf1).

Definition next_decision : TradingDecision :=
  {| d_symbol := "MSFT"; d_action := "buy"; d_quantity := 1;
     d_price := None; d_reason := ""; d_confidence := 8 # 10;
     d_stop_loss := None; d_take_profit := None |}.

(** A holding of 50 shares, and the sale of 10 of them while the
    symbol is volatile: score 0.3 + 0.2 + 0.1. *)
Definition heavy_ledger : Portfolio.t :=
  fst (Portfolio.update_position 0 "AAPL" "buy" 50 (Some 100) "m"
         (Portfolio.initialize 10000 Portfolio.init)).

Definition trim_decision : TradingDecision :=
  {| d_symbol := "AAPL"; d_action := "sell"; d_quantity := 10;
     d_price := None; d_reason := ""; d_confidence := 8 # 10;
     d_stop_loss := None; d_take_profit := None |}.

Definition volatile_manager : RiskManager.t :=
  default_manager ∅ {[ "AAPL" := 5 # 10 ]}.

Definition trim_position_check : RiskCheckResult :=
  Eval vm_compute in
    match _check_position_limits volatile_manager trim_decision
            heavy_ledger with
    | Ok r => r
    | Raise _ => plain false
    end.

Definition trim_verdict : RiskCheckResult :=
  Eval vm_compute in
    match check_trade_risk volatile_manager 0 trim_decision heavy_ledger with
    | Ok r => r
    | Raise _ => plain false
    end.

Definition small_decision : TradingDecision :=
  {| d_symbol := "AAPL"; d_action := "buy"; d_quantity := 10;
     d_price := None; d_reason := ""; d_confidence := 8 # 10;
     d_stop_loss := None; d_take_profit := None |}.

Definition fresh_ledger : Portfolio.t :=
  Portfolio.initialize 10000 Portfolio.init.

End RiskTerms.

(** ** Orders *)

Section OrderTerms.

Import OrderManager.

(** The slippage of a market order. *)
Definition market_price (act : string) (quote_price : Q) : Q :=
  if String.eqb (lower act) "buy" then quote_price * (1001 # 1000)
  else quote_price * (999 # 1000).

(** The four statuses the specification calls terminal. *)
Definition terminal (s : OrderStatus) : Prop :=
  s = FILLED \/ s = CANCELLED \/ s = REJECTED \/ s = EXPIRED.

End OrderTerms.

(** ** More sample data *)

Section MoreTerms.

Import Portfolio.

(** A ledger holding 10 AAPL bought at 150. *)
Definition held_position : Position :=
  {| pos_symbol := "AAPL"; pos_quantity := 10; avg_cost := 150;
     current_price := 150; last_updated := 0 |}.

Definition held_ledger : Portfolio.t :=
  Eval vm_compute in
    fst (update_position 0 "AAPL" "buy" 10 (Some 150) "m"
           (initialize 10000 init)).

(** [sum(trade.pnl for trade in trade_history)], as [get_status] and
    the daily-loss check compute it. *)
Definition sum_pnl (h : list TradeRecord) : Q :=
  fold_left (fun acc tr => acc + tr_pnl tr) h 0.

Definition held_status : Status :=
  Eval vm_compute in
    match get_status held_ledger with
    | Ok st => st
    | Raise _ => mkStatus 0 0 0 0 0 0 0 0
    end.

Definition fresh_status : Status :=
  Eval vm_compute in
    match get_status (initialize 10000 init) with
    | Ok st => st
    | Raise _ => mkStatus 0 0 0 0 0 0 0 0
    end.

(** The position-size check of a buy of 100 units at 20 on a fresh
    ledger of 10000. *)
Definition capped_check : RiskManager.RiskCheckResult :=
  Eval vm_compute in
    match RiskManager._check_position_limits (default_manager ∅ ∅)
            shrink_decision fresh_ledger with
    | Ok c => c
    | Raise _ => RiskManager.plain false
    end.

(** The verdict on the next decision after the profitable day. *)
Definition profit_verdict : RiskManager.RiskCheckResult :=
  Eval vm_compute in
    match RiskManager.check_trade_risk (default_manager ∅ ∅) 0 next_decision
            profit_ledger with
    | Ok v => v
    | Raise _ => RiskManager.plain true
    end.

(** Whether a quote lets a limit order execute: at or below the limit
    for a buy, at or above it for a sell, never for another action. *)
Definition crosses (act : string) (limit quote_price : Q) : bool :=
  if String.eqb (lower act) "buy" then Qle_bool quote_price limit
  else if String.eqb (lower act) "sell" then Qle_bool limit quote_price
  else false.

(** An order as one pass of the re-evaluation should leave it. *)
Definition reevaluated (now : datetime) (quote : string -> option Q)
    (o : OrderManager.Order) : OrderManager.Order :=
  match OrderManager.status o, OrderManager.order_type o,
        OrderManager.price o, quote (OrderManager.symbol o) with
  | OrderManager.SUBMITTED, OrderManager.LIMIT, Some limit, Some cp =>
    if crosses (OrderManager.action o) limit cp
    then OrderManager.set_filled now limit
           (OrderManager._calculate_commission (OrderManager.quantity o)
              limit) o
    else o
  | _, _, _, _ => o
  end.

(** Every limit order of the store carries its limit price. *)
Definition limit_priced (om : OrderManager.t) : Prop :=
  forall j o, OrderManager.orders om !! j = Some o ->
              OrderManager.order_type o = OrderManager.LIMIT ->
              OrderManager.price o <> None.

(** Newest first. *)
Definition newer_first (a b : nat * OrderManager.Order) : Prop :=
  (OrderManager.created_at (snd b) <= OrderManager.created_at (snd a))%Z.

(** A limit buy of 10 AAPL at 140, and the store after it was placed
    while the quote was 150. *)
Definition limit_decision : TradingDecision :=
  {| d_symbol := "AAPL"; d_action := "buy"; d_quantity := 10;
     d_price := Some 140; d_reason := ""; d_confidence := 8 # 10;
     d_stop_loss := None; d_take_profit := None |}.

Definition resting_book : OrderManager.t :=
  Eval vm_compute in
    fst (OrderManager.place_order 0 "order-1" "fill-1" (fun _ => Some 150)
           limit_decision (OrderManager.initialize OrderManager.init)).

(** What [get_orders] selects, for each of its two filters. *)
Definition selected (sym : option string) (st : option OrderManager.OrderStatus)
    (o : OrderManager.Order) : Prop :=
  match sym with
  | Some s => s = "" \/ OrderManager.symbol o = s
  | None => True
  end /\
  match st with
  | Some s => OrderManager.status o = s
  | None => True
  end.

(** An engine that starts with a capital of 1000, and a market buy of
    100 AAPL. *)
Definition small_engine : TradingEngine.t :=
  TradingEngine.initialize
    {| Settings.INITIAL_CAPITAL := 1000;
       Settings.MAX_POSITION_SIZE := 1 # 10;
       Settings.max_daily_loss := 5 # 100;
       Settings.correlation_threshold := Some (7 # 10) |} ∅ ∅.

Definition large_decision : TradingDecision :=
  {| d_symbol := "AAPL"; d_action := "buy"; d_quantity := 100;
     d_price := None; d_reason := ""; d_confidence := 8 # 10;
     d_stop_loss := None; d_take_profit := None |}.

Definition large_verdict : RiskManager.RiskCheckResult :=
  Eval vm_compute in
    match RiskManager.check_trade_risk (TradingEngine.risk_manager small_engine)
            0 large_decision (TradingEngine.portfolio small_engine) with
    | Ok v => v
    | Raise _ => RiskManager.plain false
    end.

(** The default engine and the verdict on the limit buy. *)
Definition default_engine : TradingEngine.t :=
  TradingEngine.initialize Settings.default ∅ ∅.

Definition limit_verdict : RiskManager.RiskCheckResult :=
  Eval vm_compute in
    match RiskManager.check_trade_risk
            (TradingEngine.risk_manager default_engine) 0 limit_decision
            (TradingEngine.portfolio default_engine) with
    | Ok v => v
    | Raise _ => RiskManager.plain false
    end.

(** Booked without the name of a model. *)
Definition unnamed (r : Portfolio.TradeRecord) : Prop :=
  Portfolio.tr_model_name r = "".

End MoreTerms.

(** ** Calls of the order manager *)

Section OrderCalls.

Import OrderManager.

(** One call of a method of the order manager that writes to the
    orders. *)
Inductive OrderCall : Type :=
| Initialize
| PlaceOrder (now : datetime) (order_uuid fill_uuid : string)
    (quote : string -> option Q) (decision : TradingDecision)
| CancelOrder (now : datetime) (id : string)
| ProcessPendingOrders (now : datetime) (fill_uuid : nat -> string)
    (quote : string -> option Q)
| Shutdown (now : datetime).

Definition run_call (c : OrderCall) (om : OrderManager.t) : OrderManager.t :=
  match c with
  | Initialize => initialize om
  | PlaceOrder now order_uuid fill_uuid quote decision =>
    fst (place_order now order_uuid fill_uuid quote decision om)
  | CancelOrder now id => fst (cancel_order now id om)
  | ProcessPendingOrders now fill_uuid quote =>
    fst (process_pending_orders now fill_uuid quote om)
  | Shutdown now => shutdown now om
  end.

(** [uuid.uuid4()] draws an identifier that is not yet a key of the
    store. *)
Definition fresh_uuid (c : OrderCall) (om : OrderManager.t) : bool :=
  match c with
  | PlaceOrder _ order_uuid _ _ _ =>
    match index_of order_uuid (orders om) with
    | None => true
    | Some _ => false
    end
  | _ => true
  end.

(** The store after a sequence of calls, each order drawing a fresh
    identifier. *)
Fixpoint run_calls (calls : list OrderCall) (om : OrderManager.t)
  : option OrderManager.t :=
  match calls with
  | [] => Some om
  | c :: rest =>
    if fresh_uuid c om then run_calls rest (run_call c om) else None
  end.

(** What a call may do to an order object: nothing, or take it out of a
    status that [cancel_order] does not hold back, into a status other
    than EXPIRED. *)
Definition evolved (o o' : Order) : Prop :=
  order_id o' = order_id o /\
  (o' = o \/
   (terminal_for_cancel (status o) = false /\ status o' <> EXPIRED)).

(** The keys of the store are distinct and no order is EXPIRED. *)
Definition store_ok (om : OrderManager.t) : Prop :=
  NoDup (map order_id (orders om)) /\
  List.Forall (fun o => status o <> EXPIRED) (orders om).

(** A market buy filled at once, a limit buy left resting and then
    cancelled; afterwards both are cancelled again, the resting orders
    are re-evaluated at a quote that crosses the limit, the manager is
    shut down and one more order is placed. *)
Definition day_calls : list OrderCall :=
  [ Initialize;
    PlaceOrder 0 "order-1" "fill-1" (fun _ => Some 150) small_decision;
    PlaceOrder 60 "order-2" "fill-2" (fun _ => Some 150) limit_decision;
    CancelOrder 120 "order-2" ].

Definition later_calls : list OrderCall :=
  [ CancelOrder 180 "order-1";
    CancelOrder 180 "order-2";
    ProcessPendingOrders 240 (fun _ => "fill-3") (fun _ => Some 130);
    Shutdown 300;
    PlaceOrder 360 "order-3" "fill-4" (fun _ => None) small_decision ].

Definition day_book : OrderManager.t :=
  Eval vm_compute in
    match run_calls day_calls OrderManager.init with
    | Some om => om
    | None => OrderManager.init
    end.

Definition later_book : OrderManager.t :=
  Eval vm_compute in
    match run_calls later_calls day_book with
    | Some om => om
    | None => OrderManager.init
    end.

Definition cancelled_order : Order :=
  Eval vm_compute in
    match orders day_book !! 1%nat with
    | Some o => o
    | None => mkOrder "" "" "" 0 MARKET None None PENDING 0 0 0 0 0 "" ""
    end.

End OrderCalls.

(** * Properties *)

(** ** Comparisons and rounding *)

Lemma Qgtb_true (x y : Q) : Qgtb x y = true <-> y < x.
Proof.
  unfold Qgtb. rewrite (Qgt_alt x y).
  destruct (x ?= y); split; congruence.
Qed.

Lemma Qgtb_false (x y : Q) : Qgtb x y = false <-> x <= y.
Proof.
  unfold Qgtb. rewrite (Qle_alt x y).
  destruct (x ?= y); split; congruence.
Qed.

Lemma Qltb_true (x y : Q) : Qltb x y = true <-> x < y.
Proof. apply Qgtb_true. Qed.

Lemma Qltb_false (x y : Q) : Qltb x y = false <-> y <= x.
Proof. apply Qgtb_false. Qed.

(** ** The ledger *)

Section Ledger.

Import Portfolio.

Lemma ledger_ok_initialize (capital : Q) :
  0 <= capital -> ledger_ok (initialize capital init).
Proof.
  intros Hc. split; [exact Hc|].
  intros s p. cbn. rewrite lookup_empty. discriminate.
Qed.

(** Storing a positive position keeps all positions positive. *)
Lemma positive_insert (m : gmap string Position) (s : string)
    (p : Position) :
  (0 < pos_quantity p)%Z ->
  (forall s' p', m !! s' = Some p' -> (0 < pos_quantity p')%Z) ->
  forall s' p', <[s := p]> m !! s' = Some p' -> (0 < pos_quantity p')%Z.
Proof.
  intros Hp Hm s' p'. rewrite lookup_insert. case_decide.
  - intros [= <-]. exact Hp.
  - apply Hm.
Qed.

Ltac ledger_simpl :=
  unfold ledger_ok, set_history, set_positions, set_cash; cbn.

Lemma buy_preserves now symbol quantity price fee model_name pf pf' :
  (1 <= quantity)%Z ->
  ledger_ok pf ->
  _buy_stock now symbol quantity (Some price) fee model_name pf
    = (pf', Ok tt) ->
  ledger_ok pf'.
Proof.
  intros Hq [Hcash Hpos]. unfold _buy_stock.
  destruct (Qgtb _ _) eqn:Hgt; [discriminate|].
  apply Qgtb_false in Hgt. cbn [positions set_cash].
  destruct (positions pf !! symbol) as [existing|] eqn:Hlk.
  - pose proof (Hpos _ _ Hlk) as Hex.
    destruct (Z.eqb_spec (pos_quantity existing + quantity) 0); [lia|].
    intros [= <-]. ledger_simpl. split; [lra|].
    apply positive_insert; [cbn; lia|exact Hpos].
  - intros [= <-]. ledger_simpl. split; [lra|].
    apply positive_insert; [cbn; lia|exact Hpos].
Qed.

Lemma sell_preserves symbol quantity price fee model_name pf pf' :
  fee <= inject_Z quantity * price ->
  ledger_ok pf ->
  _sell_stock symbol quantity (Some price) fee model_name pf = (pf', Ok tt) ->
  ledger_ok pf'.
Proof.
  intros Hfee [Hcash Hpos]. unfold _sell_stock.
  destruct (positions pf !! symbol) as [position|] eqn:Hlk; [|discriminate].
  destruct (Z.ltb_spec (pos_quantity position) quantity); [discriminate|].
  cbn [pos_quantity].
  destruct (Z.eqb_spec (pos_quantity position - quantity) 0).
  - intros [= <-]. ledger_simpl. split; [lra|].
    intros s p. rewrite lookup_delete. case_decide; [discriminate|].
    apply Hpos.
  - intros [= <-]. ledger_simpl. split; [lra|].
    apply positive_insert; [cbn; lia|exact Hpos].
Qed.

Lemma apply_call_preserves (c : Call) pf pf' :
  admissible c -> ledger_ok pf -> apply_call c pf = (pf', Ok tt) ->
  ledger_ok pf'.
Proof.
  intros [Hbuy Hsell] Hok. unfold apply_call, update_position, bind.
  destruct (String.eqb_spec (lower (c_action c)) "buy") as [Hb|Hb].
  - destruct (_buy_stock _ _ _ _ _ _ pf) as [pf1 [[]|e]] eqn:Hrun;
      [|discriminate].
    apply buy_preserves in Hrun; auto.
    unfold log_update, ret, set_history; cbn. intros [= <-]. exact Hrun.
  - destruct (String.eqb_spec (lower (c_action c)) "sell") as [Hs|Hs].
    + destruct (_sell_stock _ _ _ _ _ pf) as [pf1 [[]|e]] eqn:Hrun;
        [|discriminate].
      apply sell_preserves in Hrun; auto.
      unfold log_update, ret, set_history; cbn. intros [= <-]. exact Hrun.
    + unfold log_update, ret, set_history; cbn. intros [= <-]. exact Hok.
Qed.

Lemma apply_calls_preserves (calls : list Call) :
  forall pf pf',
    Forall admissible calls -> ledger_ok pf ->
    apply_calls calls pf = Some pf' -> ledger_ok pf'.
Proof.
  induction calls as [|c rest IH]; intros pf pf' Hadm Hok; cbn.
  - intros [= <-]. exact Hok.
  - inversion Hadm as [|? ? Hc Hrest]; subst.
    destruct (apply_call c pf) as [pf1 [[]|e]] eqn:Hrun; [|discriminate].
    intros Hrun'. apply (IH pf1 pf' Hrest); [|exact Hrun'].
    exact (apply_call_preserves c pf pf1 Hc Hok Hrun).
Qed.

(** C1, as amended. Starting from a ledger with non-negative cash and
    positive positions, after every sequence of calls of
    [update_position] that all return normally, in which every buy is
    for at least one unit and every sale's gross amount covers its
    commission, the cash balance is non-negative and every position in
    the map has a positive quantity. Every prefix of such a sequence is
    such a sequence, so this holds after each call. *)
Theorem update_position_keeps_ledger_ok (calls : list Call)
    (pf pf' : Portfolio.t) :
  ledger_ok pf ->
  Forall admissible calls ->
  apply_calls calls pf = Some pf' ->
  0 <= cash_balance pf' /\
  forall s p, positions pf' !! s = Some p -> (0 < pos_quantity p)%Z.
Proof.
  intros Hok Hadm Hrun.
  exact (apply_calls_preserves calls pf pf' Hadm Hok Hrun).
Qed.

Lemma update_position_keeps_ledger_ok_witness :
  0 <= cash_balance demo_ledger /\
  forall s p, positions demo_ledger !! s = Some p -> (0 < pos_quantity p)%Z.
Proof.
  apply (update_position_keeps_ledger_ok demo_calls (initialize 10000 init)).
  - apply ledger_ok_initialize. discriminate.
  - repeat constructor; cbn; intros; try discriminate; try lia.
  - vm_compute. reflexivity.
Defined.

(** C1, as stated, fails twice over. A buy of zero units returns
    normally and leaves a position of quantity 0 in the map; a sale
    whose commission exceeds its gross amount returns normally and
    leaves a negative cash balance. *)
Lemma update_position_breaks_invariant :
  (let pf0 := initialize 100 init in
   let '(pf1, r1) :=
     update_position 0 "AAPL" "buy" 0 (Some 10) "m" pf0 in
   ledger_ok pf0 /\ r1 = Ok tt /\
   option_map pos_quantity (positions pf1 !! "AAPL") = Some 0%Z) /\
  (let pf0 := initialize 11 init in
   let '(pf1, r1) :=
     update_position 0 "AAPL" "buy" 1 (Some 10) "m" pf0 in
   let '(pf2, r2) :=
     update_position 60 "AAPL" "sell" 1 (Some (1 # 2)) "m" pf1 in
   ledger_ok pf0 /\ r1 = Ok tt /\ r2 = Ok tt /\
   cash_balance pf2 < 0).
Proof.
  split.
  - split; [apply ledger_ok_initialize; discriminate|].
    split; vm_compute; reflexivity.
  - split; [apply ledger_ok_initialize; discriminate|].
    repeat split; vm_compute; reflexivity.
Qed.

End Ledger.

Section LedgerRecords.

Import Portfolio.

(** C10. For an action whose lower-case form is neither "buy" nor
    "sell", [update_position] returns normally, leaves the cash balance
    and the positions map as they were, and appends exactly one trade
    record, which carries the computed commission. *)
Theorem update_position_other_action (now : datetime)
    (symbol action : string) (quantity : Z) (price : Q)
    (model_name : string) (pf : Portfolio.t) :
  lower action <> "buy" ->
  lower action <> "sell" ->
  let out :=
    update_position now symbol action quantity (Some price) model_name pf in
  snd out = Ok tt /\
  cash_balance (fst out) = cash_balance pf /\
  positions (fst out) = positions pf /\
  trade_history (fst out)
    = (trade_history pf
         ++ [new_record now symbol action quantity price model_name])%list /\
  tr_commission (new_record now symbol action quantity price model_name)
    = Qmax (inject_Z quantity * (1 # 100)) 1.
Proof.
  intros Hb Hs. unfold update_position, bind.
  destruct (String.eqb_spec (lower action) "buy") as [|_]; [contradiction|].
  destruct (String.eqb_spec (lower action) "sell") as [|_]; [contradiction|].
  cbn. repeat split; reflexivity.
Qed.

Lemma update_position_other_action_witness :
  let out :=
    update_position 0 "AAPL" "hold" 10 (Some 150) "Demo-Model"
      (initialize 10000 init) in
  snd out = Ok tt /\
  cash_balance (fst out) = cash_balance (initialize 10000 init) /\
  positions (fst out) = positions (initialize 10000 init) /\
  trade_history (fst out)
    = (trade_history (initialize 10000 init)
         ++ [new_record 0 "AAPL" "hold" 10 150 "Demo-Model"])%list /\
  tr_commission (new_record 0 "AAPL" "hold" 10 150 "Demo-Model")
    = Qmax (inject_Z 10 * (1 # 100)) 1.
Proof.
  apply (update_position_other_action 0 "AAPL" "hold" 10 150 "Demo-Model"
           (initialize 10000 init)); vm_compute; discriminate.
Defined.

(** What a successful sale does to the ledger: the cash, the position,
    and where the realized profit is written. *)
Lemma sell_effect (now : datetime) (symbol action : string) (quantity : Z)
    (price : Q) (model_name : string) (pf : Portfolio.t)
    (position : Position) :
  lower action = "sell" ->
  positions pf !! symbol = Some position ->
  (quantity <= pos_quantity position)%Z ->
  let fee := _calculate_commission quantity (Some price) in
  let realized := (price - avg_cost position) * inject_Z quantity - fee in
  let out :=
    update_position now symbol action quantity (Some price) model_name pf in
  snd out = Ok tt /\
  cash_balance (fst out)
    = cash_balance pf + (inject_Z quantity * price - fee) /\
  (pos_quantity position = quantity -> positions (fst out) !! symbol = None) /\
  (pos_quantity position <> quantity ->
   option_map pos_quantity (positions (fst out) !! symbol)
     = Some (pos_quantity position - quantity)%Z) /\
  trade_history (fst out)
    = (set_last_pnl realized (trade_history pf)
         ++ [new_record now symbol action quantity price model_name])%list.
Proof.
  intros Ha Hlk Hq. unfold update_position, bind.
  rewrite Ha. cbn [String.eqb Ascii.eqb Bool.eqb].
  unfold _sell_stock. rewrite Hlk.
  destruct (Z.ltb_spec (pos_quantity position) quantity) as [|_]; [lia|].
  cbn [pos_quantity].
  destruct (Z.eqb_spec (pos_quantity position - quantity) 0) as [Hz|Hz];
    unfold set_history, set_positions, set_cash; cbn;
    repeat split; try reflexivity; try lia.
  - intros _. apply lookup_delete_eq.
  - intros _. rewrite lookup_insert_eq. reflexivity.
Qed.

(** C3 at a concrete ledger: 10 shares bought at 150, then sold at 160.
    The sale returns normally, credits the cash and removes the
    position, but the realized profit (160 - 150) * 10 - 1 = 99 is
    written on the record of the earlier purchase, and the record of the
    sale itself carries 0. *)
Theorem sell_pnl_on_previous_record :
  let pf0 := initialize 10000 init in
  let pf1 :=
    fst (update_position 0 "AAPL" "buy" 10 (Some 150) "Demo-Model" pf0) in
  let out :=
    update_position 60 "AAPL" "sell" 10 (Some 160) "Demo-Model" pf1 in
  snd out = Ok tt /\
  cash_balance (fst out) == cash_balance pf1 + (10 * 160 - 1) /\
  positions (fst out) !! "AAPL" = None /\
  map (fun r => (tr_action r, tr_pnl r)) (trade_history (fst out))
    = [("buy", 99); ("sell", 0)].
Proof. vm_compute. repeat split; reflexivity. Qed.

End LedgerRecords.

(** ** The two commission formulas *)

Lemma round2_upper (x : Q) : round2 x <= x + (1 # 200).
Proof.
  unfold round2.
  pose proof (Qfloor_le (x * 100)) as Hlo.
  set (f := Qfloor (x * 100)) in *.
  assert (Hn : forall n : Z,
             inject_Z n <= x * 100 + (1 # 2) ->
             inject_Z n / 100 <= x + (1 # 200)).
  { intros n Hle. apply Qle_shift_div_r; [reflexivity|]. lra. }
  destruct (x * 100 - inject_Z f ?= 1 # 2) eqn:Hc.
  - apply Qeq_alt in Hc.
    destruct (Z.even f); apply Hn; rewrite ?inject_Z_plus;
      change (inject_Z 1) with 1; lra.
  - apply Hn. lra.
  - apply Qgt_alt in Hc. apply Hn. rewrite inject_Z_plus.
    change (inject_Z 1) with 1. lra.
Qed.

Lemma round2_of_one (x : Q) : x == 1 -> round2 x == 1.
Proof.
  intros Hx. unfold round2.
  assert (Hy : x * 100 == inject_Z 100) by (rewrite Hx; reflexivity).
  rewrite (Qfloor_comp _ _ Hy), Qfloor_Z.
  assert (Hc : (x * 100 - inject_Z 100 ?= 1 # 2) = Lt).
  { apply Qlt_alt. rewrite Hx. reflexivity. }
  rewrite Hc. reflexivity.
Qed.

(** C4, as amended. The commission of the order path and the commission
    of the ledger path are different functions: they agree (both are 1)
    exactly when the quantity is at most 100, whatever the price. *)
Theorem commissions_agree_iff (quantity : Z) (price : Q) :
  OrderManager._calculate_commission quantity price
    == Portfolio._calculate_commission quantity (Some price)
  <-> (quantity <= 100)%Z.
Proof.
  unfold OrderManager._calculate_commission, Portfolio._calculate_commission.
  set (c := Qmax 1 (Qmin (inject_Z quantity * (5 # 1000))
                         (inject_Z quantity * price * (5 # 1000)))).
  assert (Hmin : Qmin (inject_Z quantity * (5 # 1000))
                   (inject_Z quantity * price * (5 # 1000))
                 <= inject_Z quantity * (5 # 1000)) by apply Q.le_min_l.
  split.
  - intros Heq.
    destruct (Z_le_gt_dec quantity 100) as [|Hgt]; [assumption|exfalso].
    assert (Hq : 101 <= inject_Z quantity).
    { change 101 with (inject_Z 101). rewrite <- Zle_Qle. lia. }
    pose proof (round2_upper c) as Hup.
    assert (Hc : c <= inject_Z quantity * (1 # 100) - (1 # 100)).
    { unfold c. apply Q.max_lub; lra. }
    assert (Hl : Qmax (inject_Z quantity * (1 # 100)) 1
                 == inject_Z quantity * (1 # 100)).
    { apply Q.max_l. lra. }
    rewrite Hl in Heq. lra.
  - intros Hle.
    assert (Hq : inject_Z quantity <= 100).
    { change 100 with (inject_Z 100). rewrite <- Zle_Qle. exact Hle. }
    assert (Hl : Qmax (inject_Z quantity * (1 # 100)) 1 == 1).
    { apply Q.max_r. lra. }
    rewrite Hl. apply round2_of_one. unfold c. apply Q.max_l. lra.
Qed.

(** C4, as stated, fails: for 1000 shares at 10 the order path charges
    5 and the ledger path charges 10. *)
Lemma commissions_differ :
  OrderManager._calculate_commission 1000 10 == 5 /\
  Portfolio._calculate_commission 1000 (Some 10) == 10 /\
  ~ OrderManager._calculate_commission 1000 10
      == Portfolio._calculate_commission 1000 (Some 10).
Proof. repeat split; vm_compute; discriminate. Qed.

(** ** The risk gate *)

Section RiskGate.

Import RiskManager.

(** An approved verdict of [check_trade_risk] is the final one: the
    three gating checks passed, the score is the sum of the four scored
    checks, and the quantity is computed from the decision. *)
Lemma check_trade_risk_approved (rm : RiskManager.t) (today : Z)
    (decision : TradingDecision) (pf : Portfolio.t) (v : RiskCheckResult) :
  check_trade_risk rm today decision pf = Ok v ->
  approved v = true ->
  exists position_check daily_loss_check,
    approved (_check_cash_availability decision pf) = true /\
    _check_position_limits rm decision pf = Ok position_check /\
    _check_daily_loss_limit rm today pf = Ok daily_loss_check /\
    approved daily_loss_check = true /\
    risk_score v
      = 0 + risk_score position_check
        + risk_score (_check_concentration_risk decision pf)
        + risk_score (_check_correlation_risk rm decision pf)
        + risk_score (_check_volatility_risk rm decision pf) /\
    adjusted_quantity v
      = _calculate_optimal_position_size decision pf (risk_score v).
Proof.
  unfold check_trade_risk.
  destruct (approved (_check_cash_availability decision pf)) eqn:Hcash;
    cbn [negb].
  2:{ intros [= <-] Hv. congruence. }
  destruct (_check_position_limits rm decision pf) as [pc|e] eqn:Hpc;
    [|discriminate].
  destruct (approved pc) eqn:Hpca; cbn [negb].
  2:{ intros [= <-] Hv. congruence. }
  destruct (_check_daily_loss_limit rm today pf) as [dl|e] eqn:Hdl;
    [|discriminate].
  destruct (approved dl) eqn:Hdla; cbn [negb].
  2:{ intros [= <-] Hv. congruence. }
  intros [= <-] _. exists pc, dl. cbn. repeat split; auto.
Qed.

(** C2 at cash 1000 and a buy of 100 units at 20, for any tables of the
    risk manager and any day. The cash check computes the shrunk
    quantity 49, but [check_trade_risk] reads only its approval: the
    verdict is approved with quantity 100 (or 50 when the symbol is
    volatile), and that quantity times 20 * 1.01 exceeds the cash. *)
Theorem cash_shrink_is_discarded (correlation volatility : gmap string Q)
    (today : Z) :
  exists v,
    check_trade_risk (default_manager correlation volatility) today
      shrink_decision shrink_ledger = Ok v /\
    approved v = true /\
    adjusted_quantity (_check_cash_availability shrink_decision shrink_ledger)
      = 49%Z /\
    (adjusted_quantity v = 100%Z \/ adjusted_quantity v = 50%Z) /\
    Portfolio.cash_balance shrink_ledger
      < inject_Z (adjusted_quantity v) * 20 * (101 # 100).
Proof.
  unfold check_trade_risk.
  set (cc := _check_cash_availability _ _). vm_compute in cc. subst cc.
  cbn [approved negb].
  set (pc := _check_position_limits _ _ _). vm_compute in pc. subst pc.
  cbn [approved negb].
  set (dl := _check_daily_loss_limit _ _ _). vm_compute in dl. subst dl.
  cbn [approved negb].
  set (co := _check_concentration_risk _ _). vm_compute in co. subst co.
  set (cr := _check_correlation_risk _ _ _). vm_compute in cr. subst cr.
  unfold _check_volatility_risk, _calculate_optimal_position_size.
  destruct (Qgtb _ (4 # 10)); eexists; (split; [reflexivity|]);
    repeat split; vm_compute; auto.
Qed.

(** C5 on a day whose only result is a realized profit of 609, with
    initial capital 10000 and the 5% limit. The cash has grown, nothing
    is unrealized, and yet the daily-loss check rejects, because it
    compares the absolute value 609 with 500; [check_trade_risk] then
    rejects the next decision. *)
Theorem daily_loss_check_rejects_profit
    (correlation volatility : gmap string Q) :
  let rm := default_manager correlation volatility in
  Portfolio.initial_capital profit_ledger
    < Portfolio.cash_balance profit_ledger /\
  map Portfolio.tr_pnl (Portfolio.trade_history profit_ledger) = [609; 0] /\
  (exists loss limit,
     _check_daily_loss_limit rm 0 profit_ledger
       = Ok {| approved := false;
               rc_reason := DailyLossExceeded loss limit;
               adjusted_quantity := 0; risk_score := 0; warnings := [] |} /\
     loss == 609 /\ limit == 500) /\
  (exists v, check_trade_risk rm 0 next_decision profit_ledger = Ok v /\
             approved v = false).
Proof.
  cbv zeta. split; [vm_compute; reflexivity|].
  split; [vm_compute; reflexivity|].
  destruct (_check_daily_loss_limit
              (default_manager correlation volatility) 0 profit_ledger)
    as [dl|e] eqn:Hdl; vm_compute in Hdl; [|discriminate].
  injection Hdl as <-.
  split; [do 2 eexists; split; [reflexivity|split; reflexivity]|].
  unfold check_trade_risk.
  set (dl := _check_daily_loss_limit _ _ _). vm_compute in dl. subst dl.
  set (cc := _check_cash_availability _ _). vm_compute in cc. subst cc.
  cbn [approved negb].
  set (pc := _check_position_limits _ _ _). vm_compute in pc. subst pc.
  cbn [approved negb]. eexists. split; reflexivity.
Qed.

(** C6, as amended. For an approved verdict with accumulated score [r],
    when the cash check and the position-size check left the requested
    quantity as it was, the adjusted quantity is that quantity, scaled
    by [max(0.5, 1 - r)] and truncated only when [r > 0.5], with a floor
    of 1. *)
Theorem final_quantity_scaling (rm : RiskManager.t) (today : Z)
    (decision : TradingDecision) (pf : Portfolio.t)
    (position_check v : RiskCheckResult) :
  check_trade_risk rm today decision pf = Ok v ->
  approved v = true ->
  adjusted_quantity (_check_cash_availability decision pf)
    = d_quantity decision ->
  _check_position_limits rm decision pf = Ok position_check ->
  adjusted_quantity position_check = d_quantity decision ->
  let r := risk_score v in
  let q := adjusted_quantity position_check in
  adjusted_quantity v
    = Z.max 1 (if Qgtb r (5 # 10)
               then int (inject_Z q * Qmax (5 # 10) (1 - r))
               else q).
Proof.
  intros Hrun Hv _ _ Hq.
  destruct (check_trade_risk_approved _ _ _ _ _ Hrun Hv)
    as (pc & dl & _ & _ & _ & _ & _ & Hadj).
  cbv zeta. rewrite Hq, Hadj. reflexivity.
Qed.

Lemma final_quantity_scaling_witness :
  adjusted_quantity trim_verdict
  = Z.max 1 (if Qgtb (risk_score trim_verdict) (5 # 10)
             then int (inject_Z (adjusted_quantity trim_position_check)
                       * Qmax (5 # 10) (1 - risk_score trim_verdict))
             else adjusted_quantity trim_position_check)
  /\ adjusted_quantity trim_verdict = 5%Z
  /\ risk_score trim_verdict == 6 # 10.
Proof.
  split.
  - apply (final_quantity_scaling volatile_manager 0 trim_decision
             heavy_ledger trim_position_check trim_verdict);
      vm_compute; reflexivity.
  - split; vm_compute; reflexivity.
Defined.

(** C6, as stated, fails: a buy of 10 units on a fresh ledger of 10000
    passes the cash and position-size checks unreduced and is approved
    with score 0.2; the verdict keeps 10 units, where the stated factor
    [max(0.5, 1 - 0.2)] would give 8. *)
Lemma small_score_is_not_scaled :
  exists position_check v,
    check_trade_risk (default_manager ∅ ∅) 0 small_decision fresh_ledger
      = Ok v /\
    approved v = true /\
    adjusted_quantity (_check_cash_availability small_decision fresh_ledger)
      = 10%Z /\
    _check_position_limits (default_manager ∅ ∅) small_decision fresh_ledger
      = Ok position_check /\
    adjusted_quantity position_check = 10%Z /\
    risk_score v == 2 # 10 /\
    adjusted_quantity v = 10%Z /\
    Z.max 1 (int (inject_Z (adjusted_quantity position_check)
                  * Qmax (5 # 10) (1 - risk_score v))) = 8%Z.
Proof.
  do 2 eexists.
  split; [vm_compute; reflexivity|].
  split; [reflexivity|].
  split; [vm_compute; reflexivity|].
  split; [vm_compute; reflexivity|].
  repeat split; vm_compute; reflexivity.
Qed.

End RiskGate.

(** ** The order store *)

Section Orders.

Import OrderManager.

Lemma index_of_lookup (id : string) (l : list Order) :
  forall i, index_of id l = Some i ->
            exists o, l !! i = Some o /\ order_id o = id.
Proof.
  induction l as [|x l IH]; intros i; cbn; [discriminate|].
  destruct (String.eqb_spec (order_id x) id) as [Heq|Hne].
  - intros [= <-]. exists x. split; [reflexivity|exact Heq].
  - destruct (index_of id l) as [j|]; [|discriminate].
    intros [= <-]. destruct (IH j eq_refl) as (o & Ho & Hid).
    exists o. split; [exact Ho|exact Hid].
Qed.

Lemma index_of_insert (id : string) (o' : Order) (l : list Order) :
  forall i, index_of id l = Some i -> order_id o' = id ->
            index_of id (<[i := o']> l) = Some i.
Proof.
  induction l as [|x l IH]; intros i; cbn; [discriminate|].
  destruct (String.eqb_spec (order_id x) id) as [Heq|Hne].
  - intros [= <-] Hid. cbn. rewrite Hid, String.eqb_refl. reflexivity.
  - destruct (index_of id l) as [j|] eqn:Hj; [|discriminate].
    intros [= <-] Hid.
    change (<[S j := o']> (x :: l)) with (x :: <[j := o']> l).
    change (index_of id (x :: <[j := o']> l))
      with (if String.eqb (order_id x) id then Some 0%nat
            else option_map S (index_of id (<[j := o']> l))).
    destruct (String.eqb_spec (order_id x) id); [contradiction|].
    rewrite (IH j eq_refl Hid). reflexivity.
Qed.

Lemma index_of_app_new (o : Order) (l : list Order) :
  index_of (order_id o) l = None ->
  index_of (order_id o) (l ++ [o]) = Some (length l).
Proof.
  induction l as [|x l IH]; cbn.
  - intros _. rewrite String.eqb_refl. reflexivity.
  - destruct (String.eqb (order_id x) (order_id o)); [discriminate|].
    destruct (index_of (order_id o) l); [discriminate|].
    intros _. rewrite (IH eq_refl). reflexivity.
Qed.

(** After [self.orders[order_id] = order] the key leads to the order. *)
Lemma index_of_store (o : Order) (l : list Order) :
  exists i, index_of (order_id o) (store o l) = Some i /\
            store o l !! i = Some o.
Proof.
  unfold store. destruct (index_of (order_id o) l) as [i|] eqn:Hi.
  - exists i. split; [apply index_of_insert; [exact Hi|reflexivity]|].
    destruct (index_of_lookup _ _ _ Hi) as (x & Hx & _).
    apply list_lookup_insert_eq. eapply lookup_lt_Some, Hx.
  - exists (length l). split; [apply index_of_app_new, Hi|].
    rewrite lookup_app_r by lia. rewrite Nat.sub_diag. reflexivity.
Qed.

(** The order object reached through key [id] after the object at
    index [i], which has that key, has been changed by [f]. *)
Lemma get_order_status_update (id : string) (i : nat) (f : Order -> Order)
    (o : Order) (om : OrderManager.t) :
  index_of id (orders om) = Some i ->
  orders om !! i = Some o ->
  order_id (f o) = id ->
  get_order_status id (update_order i f om) = Some (f o).
Proof.
  intros Hi Ho Hid. unfold get_order_status, update_order. rewrite Ho. cbn.
  rewrite (index_of_insert id (f o) _ i Hi Hid).
  apply list_lookup_insert_eq. eapply lookup_lt_Some, Ho.
Qed.

Lemma place_market_order (now : datetime) (order_uuid fill_uuid : string)
    (quote : string -> option Q) (decision : TradingDecision)
    (om : OrderManager.t) (p : Q) :
  d_price decision = None ->
  quote (d_symbol decision) = Some p ->
  simulation_mode om = true ->
  let out := place_order now order_uuid fill_uuid quote decision om in
  let fill_price := market_price (d_action decision) p in
  success (snd out) = true /\
  executed_quantity (snd out) = d_quantity decision /\
  executed_price (snd out) = Some fill_price /\
  exists o,
    get_order_status order_uuid (fst out) = Some o /\
    order_type o = MARKET /\
    status o = FILLED /\
    quantity o = d_quantity decision /\
    filled_quantity o = d_quantity decision /\
    avg_fill_price o = fill_price.
Proof.
  intros Hprice Hquote Hsim. unfold place_order, _create_order.
  rewrite Hprice.
  set (order := {| order_id := order_uuid; order_type := MARKET |}).
  destruct (index_of_store order (orders om)) as (i & Hi & Ho).
  change (order_id order) with order_uuid in Hi. rewrite Hi.
  change (default 0%nat (Some i)) with i. cbn [orders set_orders].
  rewrite Ho.
  unfold _submit_order. cbn [simulation_mode set_orders]. rewrite Hsim.
  unfold _simulate_order_execution. cbn [symbol order]. rewrite Hquote.
  unfold execution_price_of. cbn [order_type action order].
  unfold market_price.
  destruct (String.eqb (lower (d_action decision)) "buy");
    cbn [fst snd success executed_quantity executed_price quantity order];
    (split; [reflexivity|]); (split; [reflexivity|]);
    (split; [reflexivity|]);
    eexists; (split;
      [unfold add_fill, get_order_status; cbn [orders];
       apply (get_order_status_update order_uuid i _ order);
       [exact Hi|exact Ho|reflexivity]|]);
    repeat split; reflexivity.
Qed.

End Orders.

(** ** The engine *)

Section Engine.

Import OrderManager.

(** A buy of 10 units on a fresh ledger of 10000 is approved as it is,
    whatever the tables of the risk manager. *)
Lemma small_decision_approved (correlation volatility : gmap string Q)
    (today : Z) :
  exists v,
    RiskManager.check_trade_risk (default_manager correlation volatility)
      today small_decision fresh_ledger = Ok v /\
    RiskManager.approved v = true /\
    RiskManager.adjusted_quantity v = 10%Z.
Proof.
  unfold RiskManager.check_trade_risk.
  set (cc := RiskManager._check_cash_availability _ _).
  vm_compute in cc. subst cc. cbn [RiskManager.approved negb].
  set (pc := RiskManager._check_position_limits _ _ _).
  vm_compute in pc. subst pc. cbn [RiskManager.approved negb].
  set (dl := RiskManager._check_daily_loss_limit _ _ _).
  vm_compute in dl. subst dl. cbn [RiskManager.approved negb].
  set (co := RiskManager._check_concentration_risk _ _).
  vm_compute in co. subst co.
  set (cr := RiskManager._check_correlation_risk _ _ _).
  vm_compute in cr. subst cr.
  unfold RiskManager._check_volatility_risk,
    RiskManager._calculate_optimal_position_size.
  destruct (Qgtb _ (4 # 10)); eexists; (split; [reflexivity|]);
    split; vm_compute; reflexivity.
Qed.

(** C7. A decision without a limit price becomes a market order which,
    when the quote is available, is filled at once and in full: the
    stored order is FILLED with filled quantity equal to the requested
    quantity, at the quote times 1.001 for a buy and times 0.999 for a
    sell. For the buy of 10 shares at quote 150 on a fresh ledger of
    10000, the fill price is the product 150 * 1.001, the commission is
    1.00, the cash left is 10000 - (10 * fill price + 1.00) and the
    position is 10 shares whose average cost is the fill price; to the
    cent these are 150.15, 8497.50 and 150.15. *)
Theorem market_order_fills_at_once :
  (forall (now : datetime) (order_uuid fill_uuid : string)
          (quote : string -> option Q) (decision : TradingDecision)
          (om : OrderManager.t) (p : Q),
      d_price decision = None ->
      quote (d_symbol decision) = Some p ->
      simulation_mode om = true ->
      let out := place_order now order_uuid fill_uuid quote decision om in
      exists o,
        get_order_status order_uuid (fst out) = Some o /\
        order_type o = MARKET /\
        status o = FILLED /\
        quantity o = d_quantity decision /\
        filled_quantity o = quantity o /\
        success (snd out) = true /\
        executed_quantity (snd out) = quantity o /\
        executed_price (snd out) = Some (avg_fill_price o) /\
        (lower (d_action decision) = "buy" ->
         avg_fill_price o = p * (1001 # 1000)) /\
        (lower (d_action decision) = "sell" ->
         avg_fill_price o = p * (999 # 1000))) /\
  (forall correlation volatility : gmap string Q,
      let e := TradingEngine.initialize Settings.default correlation
                 volatility in
      let out :=
        TradingEngine.execute_trade 0 "order-1" "fill-1"
          (fun _ => Some 150) "model" small_decision e in
      let pf := TradingEngine.portfolio (fst (fst out)) in
      exists fill_price pos,
        success (snd out) = true /\
        executed_price (snd out) = Some fill_price /\
        fill_price = 150 * (1001 # 1000) /\
        Qabs (fill_price - (15015 # 100)) <= 1 # 200 /\
        r_commission (snd out) == 1 /\
        Portfolio.cash_balance pf == 10000 - (10 * fill_price + 1) /\
        Qabs (Portfolio.cash_balance pf - (84975 # 10)) <= 1 # 200 /\
        Portfolio.positions pf !! "AAPL" = Some pos /\
        Portfolio.pos_quantity pos = 10%Z /\
        Portfolio.avg_cost pos = fill_price).
Proof.
  split.
  - intros now order_uuid fill_uuid quote decision om p Hprice Hquote Hsim.
    destruct (place_market_order now order_uuid fill_uuid quote decision om p
                Hprice Hquote Hsim)
      as (Hs & Hq & Hp & o & Ho & Hty & Hst & Hqty & Hfq & Hav).
    cbv zeta. exists o. rewrite Hs, Hq, Hp, Hqty, Hfq, Hav.
    unfold market_price.
    repeat split; try assumption; try reflexivity;
      intros Ha; rewrite Ha; reflexivity.
  - intros correlation volatility.
    destruct (small_decision_approved correlation volatility (date_of 0))
      as (v & Hv & Hap & Hadj).
    cbv zeta. unfold TradingEngine.execute_trade.
    assert (Hrisk :
              RiskManager.check_trade_risk
                (TradingEngine.risk_manager
                   (TradingEngine.initialize Settings.default correlation
                      volatility))
                (date_of 0) small_decision
                (TradingEngine.portfolio
                   (TradingEngine.initialize Settings.default correlation
                      volatility)) = Ok v) by exact Hv.
    rewrite Hrisk, Hap, Hadj. cbn [negb].
    vm_compute.
    do 2 eexists. split; [reflexivity|]. split; [reflexivity|].
    split; [reflexivity|]. split; [discriminate|].
    split; [reflexivity|]. split; [reflexivity|].
    split; [discriminate|]. repeat split.
Qed.

Lemma market_order_fills_at_once_witness :
  let out :=
    place_order 0 "order-1" "fill-1" (fun _ => Some 150) small_decision
      (OrderManager.initialize OrderManager.init) in
  exists o,
    get_order_status "order-1" (fst out) = Some o /\
    order_type o = MARKET /\
    status o = FILLED /\
    quantity o = d_quantity small_decision /\
    filled_quantity o = quantity o /\
    success (snd out) = true /\
    executed_quantity (snd out) = quantity o /\
    executed_price (snd out) = Some (avg_fill_price o) /\
    (lower (d_action small_decision) = "buy" ->
     avg_fill_price o = 150 * (1001 # 1000)) /\
    (lower (d_action small_decision) = "sell" ->
     avg_fill_price o = 150 * (999 # 1000)).
Proof.
  apply (proj1 market_order_fills_at_once 0%Z "order-1" "fill-1"
           (fun _ => Some 150) small_decision
           (OrderManager.initialize OrderManager.init) 150);
    reflexivity.
Defined.

End Engine.

(** ** The life cycle of an order *)

Section OrderStatus.

Import OrderManager.

Lemma status_eqb_eq (a b : OrderStatus) : status_eqb a b = true <-> a = b.
Proof. destruct a, b; cbn; split; congruence. Qed.

(** The guard of [cancel_order] lists FILLED, CANCELLED and REJECTED
    only: an order whose status were EXPIRED, a status that no method of
    the manager assigns, would be cancelled. *)
Lemma cancel_order_guard_omits_expired (now : datetime) (id : string)
    (om : OrderManager.t) (o : Order) :
  get_order_status id om = Some o ->
  status o = EXPIRED ->
  let out := cancel_order now id om in
  snd out = true /\
  option_map status (get_order_status id (fst out)) = Some CANCELLED.
Proof.
  intros Hget Hst. unfold get_order_status in Hget.
  destruct (index_of id (orders om)) as [i|] eqn:Hi; [|discriminate].
  destruct (index_of_lookup _ _ _ Hi) as (o' & Ho' & Hid).
  assert (o' = o) by congruence. subst o'.
  cbv zeta. unfold cancel_order. rewrite Hi, Hget, Hst. cbn [terminal_for_cancel
    status_eqb orb fst snd].
  split; [reflexivity|].
  rewrite (get_order_status_update id i
             (fun o => set_updated_at now (set_status CANCELLED o))
             o om Hi Hget Hid).
  reflexivity.
Qed.

(** The guard does hold back the three statuses it lists. *)
Lemma cancel_order_keeps_listed (now : datetime) (id : string)
    (om : OrderManager.t) (o : Order) :
  get_order_status id om = Some o ->
  status o = FILLED \/ status o = CANCELLED \/ status o = REJECTED ->
  cancel_order now id om = (om, false).
Proof.
  intros Hget Hst. unfold get_order_status in Hget. unfold cancel_order.
  destruct (index_of id (orders om)) as [i|]; [|reflexivity].
  rewrite Hget.
  destruct Hst as [-> | [-> | ->]]; reflexivity.
Qed.

Lemma In_insert_desc (x y : nat * Order) (l : list (nat * Order)) :
  In x (insert_desc y l) <-> x = y \/ In x l.
Proof.
  induction l as [|z l IH]; cbn.
  - intuition congruence.
  - destruct (created_at (snd y) <? created_at (snd z))%Z; cbn.
    + rewrite IH. intuition congruence.
    + intuition congruence.
Qed.

Lemma In_sort_desc (x : nat * Order) (l : list (nat * Order)) :
  In x (sort_desc l) <-> In x l.
Proof.
  induction l as [|y l IH]; cbn; [reflexivity|].
  rewrite In_insert_desc, IH. intuition congruence.
Qed.

Lemma In_combine_seq (l : list Order) :
  forall (k i : nat) (o : Order),
    In (i, o) (combine (seq k (length l)) l) ->
    (k <= i)%nat /\ l !! (i - k)%nat = Some o.
Proof.
  induction l as [|x l IH]; intros k i o; cbn; [contradiction|].
  intros [[= <- <-]|Hin].
  - split; [lia|]. rewrite Nat.sub_diag. reflexivity.
  - destruct (IH _ _ _ Hin) as [Hle Hlk]. split; [lia|].
    replace (i - k)%nat with (S (i - S k)) by lia. exact Hlk.
Qed.

(** The objects selected by [get_orders(status=st)] are in the store
    and have that status. *)
Lemma In_get_orders (st : OrderStatus) (om : OrderManager.t) (i : nat)
    (o : Order) :
  In (i, o) (get_orders None (Some st) om) ->
  orders om !! i = Some o /\ status o = st.
Proof.
  unfold get_orders. rewrite In_sort_desc, filter_In. cbn [snd].
  intros [Hin Hst]. apply status_eqb_eq in Hst. split; [|exact Hst].
  destruct (In_combine_seq _ _ _ _ Hin) as [_ Hlk].
  rewrite Nat.sub_0_r in Hlk. exact Hlk.
Qed.

Lemma update_order_other (i j : nat) (f : Order -> Order)
    (om : OrderManager.t) :
  i <> j -> orders (update_order i f om) !! j = orders om !! j.
Proof.
  intros Hne. unfold update_order.
  destruct (orders om !! i); [|reflexivity].
  cbn. apply list_lookup_insert_ne. exact Hne.
Qed.

(** The loop changes only the objects it was given. *)
Lemma process_loop_other (now : datetime) (fill_uuid : nat -> string)
    (quote : string -> option Q) (pending : list (nat * Order)) :
  forall (om : OrderManager.t) (j : nat),
    ~ In j (map fst pending) ->
    orders (fst (process_loop now fill_uuid quote pending om)) !! j
    = orders om !! j.
Proof.
  induction pending as [|[i x] rest IH]; intros om j Hj; [reflexivity|].
  cbn in Hj. cbn [process_loop].
  assert (Hrest : ~ In j (map fst rest)) by tauto.
  assert (Hne : i <> j) by tauto.
  destruct (orders om !! i) as [order|]; [|apply IH, Hrest].
  destruct (order_type order); try apply IH, Hrest.
  destruct (quote (symbol order)) as [cp|]; [|apply IH, Hrest].
  destruct (can_fill order cp) as [[|]|e]; [|apply IH, Hrest|reflexivity].
  destruct (price order) as [limit|]; [|reflexivity].
  rewrite (IH _ j Hrest). unfold _fill_limit_order, add_fill. cbn [orders].
  apply update_order_other, Hne.
Qed.

(** [process_pending_orders] leaves every order that is not SUBMITTED,
    and so every terminal order, as it is. *)
Lemma process_pending_orders_keeps (now : datetime)
    (fill_uuid : nat -> string) (quote : string -> option Q)
    (om : OrderManager.t) (j : nat) (o : Order) :
  orders om !! j = Some o ->
  status o <> SUBMITTED ->
  orders (fst (process_pending_orders now fill_uuid quote om)) !! j = Some o.
Proof.
  intros Hj Hst. unfold process_pending_orders.
  rewrite process_loop_other; [exact Hj|].
  rewrite in_map_iff. intros [[i x] [Hi Hin]]. cbn in Hi. subst i.
  destruct (In_get_orders _ _ _ _ Hin) as [Hlk Hx].
  rewrite Hj in Hlk. injection Hlk as <-. contradiction.
Qed.

End OrderStatus.

(** ** More on the ledger *)

Section LedgerMore.

Import Portfolio.

Lemma buy_refused (now : datetime) (symbol action : string)
    (quantity : Z) (price : Q) (model_name : string) (pf : Portfolio.t) :
  lower action = "buy" ->
  cash_balance pf
    < inject_Z quantity * price + _calculate_commission quantity (Some price) ->
  update_position now symbol action quantity (Some price) model_name pf
    = (pf, Raise ValueError).
Proof.
  intros Ha Hcost. unfold update_position, bind. rewrite Ha.
  cbn [String.eqb Ascii.eqb Bool.eqb]. unfold _buy_stock.
  apply Qgtb_true in Hcost. rewrite Hcost. reflexivity.
Qed.

Lemma buy_new_symbol (now : datetime) (symbol action : string)
    (quantity : Z) (price : Q) (model_name : string) (pf : Portfolio.t) :
  lower action = "buy" ->
  positions pf !! symbol = None ->
  inject_Z quantity * price + _calculate_commission quantity (Some price)
    <= cash_balance pf ->
  update_position now symbol action quantity (Some price) model_name pf
  = (set_history
       (trade_history pf
        ++ [new_record now symbol action quantity price model_name])%list
       (set_positions
          (<[symbol := {| pos_symbol := symbol; pos_quantity := quantity;
                          avg_cost := price; current_price := price;
                          last_updated := now |}]> (positions pf))
          (set_cash
             (cash_balance pf
              - (inject_Z quantity * price
                 + _calculate_commission quantity (Some price))) pf)),
     Ok tt).
Proof.
  intros Ha Hnew Hcost. unfold update_position, bind. rewrite Ha.
  cbn [String.eqb Ascii.eqb Bool.eqb]. unfold _buy_stock.
  apply Qgtb_false in Hcost. rewrite Hcost.
  cbn [positions set_cash]. rewrite Hnew. reflexivity.
Qed.

(** X1. A buy whose cost, commission included, exceeds the cash raises
    [ValueError] and leaves the ledger as it was: no cash moves, no
    position and no trade record is created. *)
Theorem buy_insufficient_funds (now : datetime) (symbol action : string)
    (quantity : Z) (price : Q) (model_name : string) (pf : Portfolio.t) :
  lower action = "buy" ->
  cash_balance pf
    < inject_Z quantity * price + _calculate_commission quantity (Some price) ->
  update_position now symbol action quantity (Some price) model_name pf
    = (pf, Raise ValueError).
Proof. apply buy_refused. Qed.

Lemma buy_insufficient_funds_witness :
  update_position 0 "AAPL" "buy" 100 (Some 150) "m" (initialize 10000 init)
    = (initialize 10000 init, Raise ValueError).
Proof.
  apply (buy_insufficient_funds 0%Z "AAPL" "buy" 100%Z 150 "m"
           (initialize 10000 init)); reflexivity.
Defined.

(** X2. A sale of a symbol that is not held, or of more units than are
    held, raises [ValueError] and leaves the ledger as it was, whatever
    the price. *)
Theorem sell_without_holding (now : datetime) (symbol action : string)
    (quantity : Z) (price : option Q) (model_name : string)
    (pf : Portfolio.t) :
  lower action = "sell" ->
  (forall pos, positions pf !! symbol = Some pos ->
               (pos_quantity pos < quantity)%Z) ->
  update_position now symbol action quantity price model_name pf
    = (pf, Raise ValueError).
Proof.
  intros Ha Hheld. unfold update_position, bind. rewrite Ha.
  cbn [String.eqb Ascii.eqb Bool.eqb]. unfold _sell_stock.
  destruct (positions pf !! symbol) as [pos|]; [|reflexivity].
  destruct (Z.ltb_spec (pos_quantity pos) quantity) as [|Hge];
    [reflexivity|].
  specialize (Hheld pos eq_refl). lia.
Qed.

Lemma sell_without_holding_witness :
  update_position 60 "AAPL" "sell" 11 (Some 160) "m" held_ledger
    = (held_ledger, Raise ValueError) /\
  update_position 60 "MSFT" "sell" 1 (Some 300) "m" held_ledger
    = (held_ledger, Raise ValueError).
Proof.
  split.
  - apply (sell_without_holding 60%Z "AAPL" "sell" 11%Z (Some 160) "m"
             held_ledger); [reflexivity|].
    intros pos. vm_compute. intros [= <-]. reflexivity.
  - apply (sell_without_holding 60%Z "MSFT" "sell" 1%Z (Some 300) "m"
             held_ledger); [reflexivity|].
    intros pos. vm_compute. discriminate.
Defined.

(** X3. A successful buy of a symbol that is not held debits the cost
    and the commission and opens a position at the purchase price; the
    other positions are untouched. *)
Theorem buy_opens_position (now : datetime) (symbol action : string)
    (quantity : Z) (price : Q) (model_name : string) (pf : Portfolio.t) :
  lower action = "buy" ->
  positions pf !! symbol = None ->
  inject_Z quantity * price + _calculate_commission quantity (Some price)
    <= cash_balance pf ->
  let out :=
    update_position now symbol action quantity (Some price) model_name pf in
  snd out = Ok tt /\
  cash_balance (fst out)
    = cash_balance pf
      - (inject_Z quantity * price
         + _calculate_commission quantity (Some price)) /\
  positions (fst out)
    = <[symbol := {| pos_symbol := symbol; pos_quantity := quantity;
                     avg_cost := price; current_price := price;
                     last_updated := now |}]> (positions pf).
Proof.
  intros Ha Hnew Hcost. cbv zeta.
  rewrite (buy_new_symbol now symbol action quantity price model_name pf
             Ha Hnew Hcost).
  repeat split.
Qed.

Lemma buy_opens_position_witness :
  let out :=
    update_position 0 "AAPL" "buy" 10 (Some 150) "m"
      (initialize 10000 init) in
  snd out = Ok tt /\
  cash_balance (fst out)
    = cash_balance (initialize 10000 init)
      - (inject_Z 10 * 150 + _calculate_commission 10 (Some 150)) /\
  positions (fst out)
    = <[ "AAPL" := {| pos_symbol := "AAPL"; pos_quantity := 10;
                      avg_cost := 150; current_price := 150;
                      last_updated := 0 |}]>
        (positions (initialize 10000 init)).
Proof.
  apply (buy_opens_position 0%Z "AAPL" "buy" 10%Z 150 "m"
           (initialize 10000 init)); [reflexivity|reflexivity|].
  vm_compute. discriminate.
Defined.

(** X4. A successful buy into an existing position debits the cost and
    the commission, adds the quantity and re-prices the position at the
    weighted average (held * average cost + quantity * price) / (held +
    quantity). The position keeps its last market price and the time of
    its last update; the other positions are untouched. *)
Theorem buy_averages_cost (now : datetime) (symbol action : string)
    (quantity : Z) (price : Q) (model_name : string) (pf : Portfolio.t)
    (pos : Position) :
  lower action = "buy" ->
  positions pf !! symbol = Some pos ->
  (pos_quantity pos + quantity <> 0)%Z ->
  inject_Z quantity * price + _calculate_commission quantity (Some price)
    <= cash_balance pf ->
  let out :=
    update_position now symbol action quantity (Some price) model_name pf in
  snd out = Ok tt /\
  cash_balance (fst out)
    = cash_balance pf
      - (inject_Z quantity * price
         + _calculate_commission quantity (Some price)) /\
  positions (fst out)
    = <[symbol :=
          {| pos_symbol := pos_symbol pos;
             pos_quantity := (pos_quantity pos + quantity)%Z;
             avg_cost :=
               (inject_Z (pos_quantity pos) * avg_cost pos
                + inject_Z quantity * price)
               / inject_Z (pos_quantity pos + quantity);
             current_price := current_price pos;
             last_updated := last_updated pos |}]> (positions pf).
Proof.
  intros Ha Hpos Hne Hcost. unfold update_position, bind. rewrite Ha.
  cbn [String.eqb Ascii.eqb Bool.eqb]. unfold _buy_stock.
  apply Qgtb_false in Hcost. rewrite Hcost.
  cbn [positions set_cash]. rewrite Hpos.
  destruct (Z.eqb_spec (pos_quantity pos + quantity) 0); [contradiction|].
  cbn. repeat split.
Qed.

Lemma buy_averages_cost_witness :
  let out := update_position 60 "AAPL" "buy" 10 (Some 160) "m" held_ledger in
  snd out = Ok tt /\
  cash_balance (fst out)
    = cash_balance held_ledger
      - (inject_Z 10 * 160 + _calculate_commission 10 (Some 160)) /\
  positions (fst out)
    = <[ "AAPL" :=
          {| pos_symbol := pos_symbol held_position;
             pos_quantity := (pos_quantity held_position + 10)%Z;
             avg_cost :=
               (inject_Z (pos_quantity held_position) * avg_cost held_position
                + inject_Z 10 * 160)
               / inject_Z (pos_quantity held_position + 10);
             current_price := current_price held_position;
             last_updated := last_updated held_position |}]>
        (positions held_ledger).
Proof.
  apply (buy_averages_cost 60%Z "AAPL" "buy" 10%Z 160 "m" held_ledger
           held_position); try reflexivity; vm_compute; discriminate.
Defined.

(** X5. Buying and then selling the same quantity of a symbol that was
    not held, at one price: the sale succeeds, the positions map is as
    it was before the purchase, and the cash is the starting cash less
    the cost of the purchase, plus the proceeds of the sale. *)
Theorem buy_then_sell_same_price (now1 now2 : datetime)
    (symbol buy sell : string) (quantity : Z) (price : Q)
    (model1 model2 : string) (pf pf1 : Portfolio.t) :
  lower buy = "buy" ->
  lower sell = "sell" ->
  positions pf !! symbol = None ->
  update_position now1 symbol buy quantity (Some price) model1 pf
    = (pf1, Ok tt) ->
  let fee := _calculate_commission quantity (Some price) in
  let out :=
    update_position now2 symbol sell quantity (Some price) model2 pf1 in
  snd out = Ok tt /\
  cash_balance (fst out)
    = cash_balance pf - (inject_Z quantity * price + fee)
      + (inject_Z quantity * price - fee) /\
  positions (fst out) = positions pf.
Proof.
  intros Hb Hs Hnew Hrun.
  destruct (Qlt_le_dec (cash_balance pf)
              (inject_Z quantity * price
               + _calculate_commission quantity (Some price)))
    as [Hlt|Hle].
  { rewrite (buy_refused _ _ _ _ _ _ _ Hb Hlt) in Hrun. discriminate. }
  rewrite (buy_new_symbol now1 symbol buy quantity price model1 pf
             Hb Hnew Hle) in Hrun.
  injection Hrun as <-.
  remember (set_history _ _) as pf1 eqn:Hpf1.
  assert (Hcash : cash_balance pf1
                  = cash_balance pf
                    - (inject_Z quantity * price
                       + _calculate_commission quantity (Some price)))
    by (rewrite Hpf1; reflexivity).
  set (pos := {| pos_symbol := symbol; pos_quantity := quantity;
                 avg_cost := price; current_price := price;
                 last_updated := now1 |}).
  assert (Hposs : positions pf1 = <[symbol := pos]> (positions pf))
    by (rewrite Hpf1; reflexivity).
  clear Hpf1.
  assert (Hlk : positions pf1 !! symbol = Some pos)
    by (rewrite Hposs; apply lookup_insert_eq).
  destruct (sell_effect now2 symbol sell quantity price model2 pf1 pos Hs Hlk
              (Z.le_refl _)) as (Hok & Hcash2 & Hgone & _ & _).
  cbv zeta. split; [exact Hok|]. split.
  - rewrite Hcash2, Hcash. reflexivity.
  - apply map_eq. intros s. destruct (decide (s = symbol)) as [->|Hne].
    + rewrite (Hgone eq_refl), Hnew. reflexivity.
    + revert Hne. generalize s. clear s.
      unfold update_position, bind. rewrite Hs.
      cbn [String.eqb Ascii.eqb Bool.eqb]. unfold _sell_stock.
      rewrite Hlk. cbn [pos_quantity pos].
      rewrite Z.ltb_irrefl, Z.sub_diag. cbn. intros s Hne.
      rewrite lookup_delete_ne by congruence. rewrite Hposs.
      apply lookup_insert_ne. congruence.
Qed.

Lemma buy_then_sell_same_price_witness :
  let pf := initialize 10000 init in
  let pf1 := fst (update_position 0 "AAPL" "buy" 10 (Some 150) "m" pf) in
  let fee := _calculate_commission 10 (Some 150) in
  let out := update_position 60 "AAPL" "SELL" 10 (Some 150) "m" pf1 in
  snd out = Ok tt /\
  cash_balance (fst out)
    = cash_balance pf - (inject_Z 10 * 150 + fee) + (inject_Z 10 * 150 - fee) /\
  positions (fst out) = positions pf.
Proof.
  apply (buy_then_sell_same_price 0%Z 60%Z "AAPL" "buy" "SELL" 10%Z 150
           "m" "m" (initialize 10000 init)); reflexivity.
Defined.

(** X6. A buy whose quantity cancels the held quantity exactly fails
    with [ZeroDivisionError] at the averaging step, after the cash has
    already been changed: the ledger keeps its position and its history
    but not its cash. *)
Theorem buy_cancelling_position (now : datetime) (symbol action : string)
    (quantity : Z) (price : Q) (model_name : string) (pf : Portfolio.t)
    (pos : Position) :
  lower action = "buy" ->
  positions pf !! symbol = Some pos ->
  (pos_quantity pos + quantity = 0)%Z ->
  inject_Z quantity * price + _calculate_commission quantity (Some price)
    <= cash_balance pf ->
  update_position now symbol action quantity (Some price) model_name pf
    = (set_cash
         (cash_balance pf
          - (inject_Z quantity * price
             + _calculate_commission quantity (Some price))) pf,
       Raise ZeroDivisionError).
Proof.
  intros Ha Hpos Hz Hcost. unfold update_position, bind. rewrite Ha.
  cbn [String.eqb Ascii.eqb Bool.eqb]. unfold _buy_stock.
  apply Qgtb_false in Hcost. rewrite Hcost.
  cbn [positions set_cash]. rewrite Hpos, Hz. reflexivity.
Qed.

Lemma buy_cancelling_position_witness :
  update_position 60 "AAPL" "buy" (-10) (Some 160) "m" held_ledger
    = (set_cash
         (cash_balance held_ledger
          - (inject_Z (-10) * 160 + _calculate_commission (-10) (Some 160)))
         held_ledger,
       Raise ZeroDivisionError) /\
  cash_balance held_ledger
    < cash_balance held_ledger
      - (inject_Z (-10) * 160 + _calculate_commission (-10) (Some 160)).
Proof.
  split.
  - apply (buy_cancelling_position 60%Z "AAPL" "buy" (-10)%Z 160 "m"
             held_ledger held_position); try reflexivity.
    vm_compute. discriminate.
  - vm_compute. reflexivity.
Defined.

End LedgerMore.

(** ** The accounts of the ledger *)

Section LedgerAccounts.

Import Portfolio.

Lemma set_last_pnl_snoc (x : Q) (h : list TradeRecord) (r : TradeRecord) :
  set_last_pnl x (h ++ [r])%list = (h ++ [set_pnl x r])%list.
Proof.
  induction h as [|a h IH]; [reflexivity|].
  cbn [app set_last_pnl]. rewrite IH.
  destruct (h ++ [r])%list eqn:E; [|reflexivity].
  destruct h; discriminate.
Qed.

Lemma sum_pnl_acc (h : list TradeRecord) :
  forall a, fold_left (fun acc tr => acc + tr_pnl tr) h a
            == a + sum_pnl h.
Proof.
  unfold sum_pnl. induction h as [|r h IH]; intros a; cbn.
  - ring.
  - rewrite (IH (a + tr_pnl r)), (IH (0 + tr_pnl r)). ring.
Qed.

Lemma sum_pnl_snoc (h : list TradeRecord) (r : TradeRecord) :
  sum_pnl (h ++ [r])%list == sum_pnl h + tr_pnl r.
Proof.
  unfold sum_pnl at 1. rewrite fold_left_app. cbn. reflexivity.
Qed.

(** X7. The total of realized profit follows the sales. When the last
    record of the history carries no profit yet, a successful sale adds
    exactly (price - average cost) * quantity - commission to the
    realized total reported by [get_status], and the history again ends
    with a record that carries none. *)
Theorem sale_adds_to_realized_total (now : datetime)
    (symbol action : string) (quantity : Z) (price : Q)
    (model_name : string) (pf : Portfolio.t) (pos : Position)
    (h : list TradeRecord) (r : TradeRecord) (st : Status) :
  lower action = "sell" ->
  positions pf !! symbol = Some pos ->
  (quantity <= pos_quantity pos)%Z ->
  trade_history pf = (h ++ [r])%list ->
  tr_pnl r == 0 ->
  get_status pf = Ok st ->
  let pf' :=
    fst (update_position now symbol action quantity (Some price) model_name
           pf) in
  exists st' h' r',
    get_status pf' = Ok st' /\
    st_realized_pnl st'
      == st_realized_pnl st
         + ((price - avg_cost pos) * inject_Z quantity
            - _calculate_commission quantity (Some price)) /\
    trade_history pf' = (h' ++ [r'])%list /\
    tr_pnl r' == 0.
Proof.
  intros Ha Hpos Hq Hh Hr Hst.
  destruct (sell_effect now symbol action quantity price model_name pf pos
              Ha Hpos Hq) as (_ & _ & _ & _ & Hhist).
  cbv zeta in Hhist |- *.
  set (pf' := fst (update_position _ _ _ _ _ _ _)) in *.
  assert (Hcap : initial_capital pf' = initial_capital pf).
  { unfold pf', update_position, bind. rewrite Ha.
    cbn [String.eqb Ascii.eqb Bool.eqb]. unfold _sell_stock. rewrite Hpos.
    destruct (Z.ltb_spec (pos_quantity pos) quantity); [lia|].
    cbn [pos_quantity].
    destruct (_ =? 0)%Z; reflexivity. }
  unfold get_status in Hst |- *. rewrite Hcap.
  destruct (Qeq_bool (initial_capital pf) 0); [discriminate|].
  injection Hst as <-. cbn [st_realized_pnl].
  do 3 eexists. split; [reflexivity|]. cbn [st_realized_pnl].
  split; [|split; [exact Hhist|reflexivity]].
  change (fold_left (fun acc tr => acc + tr_pnl tr) (trade_history pf') 0)
    with (sum_pnl (trade_history pf')).
  change (fold_left (fun acc tr => acc + tr_pnl tr) (trade_history pf) 0)
    with (sum_pnl (trade_history pf)).
  rewrite Hhist, Hh, set_last_pnl_snoc, !sum_pnl_snoc. cbn [tr_pnl set_pnl
    new_record]. rewrite Hr. ring.
Qed.

Lemma sale_adds_to_realized_total_witness :
  let pf' :=
    fst (update_position 60 "AAPL" "sell" 4 (Some 160) "m" held_ledger) in
  exists st' h' r',
    get_status pf' = Ok st' /\
    st_realized_pnl st'
      == st_realized_pnl held_status
         + ((160 - avg_cost held_position) * inject_Z 4
            - _calculate_commission 4 (Some 160)) /\
    trade_history pf' = (h' ++ [r'])%list /\
    tr_pnl r' == 0.
Proof.
  apply (sale_adds_to_realized_total 60%Z "AAPL" "sell" 4%Z 160 "m"
           held_ledger held_position []
           (new_record 0 "AAPL" "buy" 10 150 "m") held_status);
    try reflexivity.
  vm_compute. discriminate.
Defined.

Lemma sum_positions_insert (f : Position -> Q) (m : gmap string Position)
    (s : string) (p : Position) :
  m !! s = None ->
  sum_positions f (<[s := p]> m) == sum_positions f m + f p.
Proof.
  intros Hs. unfold sum_positions.
  apply (map_fold_insert Qeq (fun _ p acc => acc + f p) 0 s p m).
  - intros j z x y Hxy. rewrite Hxy. reflexivity.
  - intros. ring.
  - exact Hs.
Qed.

(** X8. The purchase of a symbol that is not held appears in no profit
    figure. After it [get_status] reports the cash lower by the cost and
    the commission, one more position and one more trade, and the same
    unrealized and the same realized profit as before: the position
    opens at its own price and the record of the purchase carries no
    profit, so the commission is counted in neither figure. *)
Theorem purchase_appears_in_no_pnl (now : datetime) (symbol action : string)
    (quantity : Z) (price : Q) (model_name : string) (pf : Portfolio.t)
    (st : Status) :
  lower action = "buy" ->
  positions pf !! symbol = None ->
  inject_Z quantity * price + _calculate_commission quantity (Some price)
    <= cash_balance pf ->
  get_status pf = Ok st ->
  exists st',
    get_status
      (fst (update_position now symbol action quantity (Some price)
              model_name pf)) = Ok st' /\
    st_cash_balance st'
      = st_cash_balance st
        - (inject_Z quantity * price
           + _calculate_commission quantity (Some price)) /\
    st_unrealized_pnl st' == st_unrealized_pnl st /\
    st_realized_pnl st' == st_realized_pnl st /\
    st_positions_count st' = S (st_positions_count st) /\
    st_trades_count st' = S (st_trades_count st).
Proof.
  intros Ha Hnew Hcost Hst.
  rewrite (buy_new_symbol now symbol action quantity price model_name pf
             Ha Hnew Hcost).
  cbn [fst]. unfold get_status in Hst |- *.
  cbn [initial_capital set_history set_positions set_cash].
  destruct (Qeq_bool (initial_capital pf) 0); [discriminate|].
  injection Hst as <-. eexists. split; [reflexivity|].
  cbn [st_cash_balance st_unrealized_pnl st_realized_pnl st_positions_count
       st_trades_count].
  unfold set_history, set_positions, set_cash.
  cbn [cash_balance positions trade_history].
  split; [reflexivity|]. split; [|split; [|split]].
  - rewrite (sum_positions_insert unrealized_pnl _ _ _ Hnew).
    unfold unrealized_pnl at 2. cbn [pos_quantity current_price avg_cost].
    ring.
  - change (fold_left (fun acc tr => acc + tr_pnl tr)
              (trade_history pf
               ++ [new_record now symbol action quantity price model_name])
              0)
      with (sum_pnl
              (trade_history pf
               ++ [new_record now symbol action quantity price model_name])).
    rewrite sum_pnl_snoc. cbn [tr_pnl new_record]. unfold sum_pnl. ring.
  - apply map_size_insert_None, Hnew.
  - rewrite length_app. cbn. lia.
Qed.

Lemma purchase_appears_in_no_pnl_witness :
  exists st',
    get_status
      (fst (update_position 0 "AAPL" "buy" 10 (Some 150) "m"
              (initialize 10000 init))) = Ok st' /\
    st_cash_balance st'
      = st_cash_balance fresh_status
        - (inject_Z 10 * 150 + _calculate_commission 10 (Some 150)) /\
    st_unrealized_pnl st' == st_unrealized_pnl fresh_status /\
    st_realized_pnl st' == st_realized_pnl fresh_status /\
    st_positions_count st' = S (st_positions_count fresh_status) /\
    st_trades_count st' = S (st_trades_count fresh_status).
Proof.
  apply (purchase_appears_in_no_pnl 0%Z "AAPL" "buy" 10%Z 150 "m"
           (initialize 10000 init) fresh_status); try reflexivity.
  vm_compute. discriminate.
Defined.

(** X9. [update_market_prices] touches prices only: cash, history, the
    symbols held, quantities and average costs stay as they are; a
    position whose symbol is quoted takes the quoted price, any other
    keeps its price. *)
Theorem update_market_prices_keeps_holdings (now : datetime)
    (price_data : gmap string Q) (pf : Portfolio.t) :
  let pf' := update_market_prices now price_data pf in
  cash_balance pf' = cash_balance pf /\
  trade_history pf' = trade_history pf /\
  forall s,
    match positions pf !! s with
    | None => positions pf' !! s = None
    | Some pos =>
      exists pos',
        positions pf' !! s = Some pos' /\
        pos_quantity pos' = pos_quantity pos /\
        avg_cost pos' = avg_cost pos /\
        current_price pos' = default (current_price pos) (price_data !! s)
    end.
Proof.
  cbv zeta. split; [reflexivity|]. split; [reflexivity|].
  intros s. unfold update_market_prices. cbn [positions set_positions].
  rewrite map_lookup_imap.
  destruct (positions pf !! s) as [pos|]; [|reflexivity].
  cbn. eexists. split; [reflexivity|].
  destruct (price_data !! s); repeat split.
Qed.

Lemma count_le (P Q' : TradeRecord -> bool) (h : list TradeRecord) :
  (forall tr, P tr = true -> Q' tr = true) ->
  (length (List.filter P h) <= length (List.filter Q' h))%nat.
Proof.
  intros Himp. induction h as [|tr h IH]; cbn; [lia|].
  destruct (P tr) eqn:HP.
  - rewrite (Himp tr HP). cbn. lia.
  - destruct (Q' tr); cbn; lia.
Qed.

(** X10. The win rate is a proportion: it lies between 0 and 1, and it
    is 0, not a division by zero, when no trade has a non-zero profit. *)
Theorem win_rate_is_a_proportion (pf : Portfolio.t) :
  0 <= _calculate_win_rate pf /\ _calculate_win_rate pf <= 1 /\
  (List.filter (fun tr => negb (Qeq_bool (tr_pnl tr) 0)) (trade_history pf)
   = [] -> _calculate_win_rate pf = 0).
Proof.
  unfold _calculate_win_rate.
  set (won := List.filter (fun tr => Qgtb (tr_pnl tr) 0) (trade_history pf)).
  set (counted :=
         List.filter (fun tr => negb (Qeq_bool (tr_pnl tr) 0))
           (trade_history pf)).
  assert (Hle : (length won <= length counted)%nat).
  { apply count_le. intros tr Hgt. apply Qgtb_true in Hgt.
    destruct (Qeq_bool (tr_pnl tr) 0) eqn:E; [|reflexivity].
    apply Qeq_bool_iff in E. rewrite E in Hgt.
    exfalso. exact (Qlt_irrefl 0 Hgt). }
  destruct (Nat.eqb_spec (length counted) 0) as [Hz|Hnz].
  - repeat split; try discriminate; try reflexivity.
  - assert (Hpos : 0 < inject_Z (Z.of_nat (length counted))).
    { change 0 with (inject_Z 0). rewrite <- Zlt_Qlt. lia. }
    split; [|split].
    + apply Qle_shift_div_l; [exact Hpos|]. rewrite Qmult_0_l.
      change 0 with (inject_Z 0). rewrite <- Zle_Qle. lia.
    + apply Qle_shift_div_r; [exact Hpos|]. rewrite Qmult_1_l.
      rewrite <- Zle_Qle. lia.
    + intros E. rewrite E in Hnz. contradiction.
Qed.

End LedgerAccounts.

(** ** The checks of the risk manager *)

Section RiskChecks.

Import RiskManager.

Lemma int_floor (x : Q) : 0 <= x -> int x = Qfloor x.
Proof.
  destruct x as [n d]. unfold Qle, int, Qfloor. cbn. intros Hn.
  apply Z.quot_div_nonneg; lia.
Qed.

Lemma int_le (x : Q) : 0 <= x -> inject_Z (int x) <= x.
Proof. intros Hx. rewrite (int_floor x Hx). apply Qfloor_le. Qed.

Lemma int_lt (x : Q) : 0 <= x -> x < inject_Z (int x) + 1.
Proof.
  intros Hx. rewrite (int_floor x Hx).
  pose proof (Qlt_floor x) as H. rewrite inject_Z_plus in H. exact H.
Qed.

Lemma int_nonneg (x : Q) : 0 <= x -> (0 <= int x)%Z.
Proof.
  destruct x as [n d]. unfold Qle, int. cbn. intros Hn.
  apply Z.quot_pos; lia.
Qed.

Lemma int_nonpos (x : Q) : x <= 0 -> (int x <= 0)%Z.
Proof.
  destruct x as [n d]. unfold Qle, int. cbn. intros Hn.
  assert (Hq : (0 <= Z.quot (- n) (Z.pos d))%Z) by (apply Z.quot_pos; lia).
  rewrite Z.quot_opp_l in Hq by lia. lia.
Qed.

Lemma Qle_div_mult (a b c : Q) : 0 < c -> a <= b / c -> a * c <= b.
Proof.
  intros Hc H. assert (E : b == b / c * c) by (field; lra).
  rewrite E. apply Qmult_le_compat_r; [exact H|lra].
Qed.

Lemma Qlt_div_mult (a b c : Q) : 0 < c -> b / c < a -> b < a * c.
Proof.
  intros Hc H. assert (E : b == b / c * c) by (field; lra).
  rewrite E. apply Qmult_lt_r; assumption.
Qed.

Lemma Qdiv_le_mult (a b c : Q) : 0 < c -> a / c <= b -> a <= b * c.
Proof.
  intros Hc H. assert (E : a == a / c * c) by (field; lra).
  rewrite E. apply Qmult_le_compat_r; [exact H|lra].
Qed.

(** X11. The quantity left by the cash check is affordable. For a buy
    at a positive estimated price on a ledger with non-negative cash,
    an approved cash check returns a quantity that does not exceed the
    requested one and whose cost with the 1% buffer fits in the cash. *)
Theorem cash_check_quantity_is_affordable (decision : TradingDecision)
    (pf : Portfolio.t) :
  lower (d_action decision) = "buy" ->
  0 <= Portfolio.cash_balance pf ->
  0 < price_or_100 (d_price decision) ->
  approved (_check_cash_availability decision pf) = true ->
  (adjusted_quantity (_check_cash_availability decision pf)
   <= d_quantity decision)%Z /\
  inject_Z (adjusted_quantity (_check_cash_availability decision pf))
    * price_or_100 (d_price decision) * (101 # 100)
  <= Portfolio.cash_balance pf.
Proof.
  intros Ha Hcash Hprice. unfold _check_cash_availability. rewrite Ha.
  cbn [String.eqb Ascii.eqb Bool.eqb negb].
  set (est := price_or_100 (d_price decision)) in *.
  set (cash := Portfolio.cash_balance pf) in *.
  assert (Hunit : 0 < est * (101 # 100)) by nra.
  destruct (Qgtb _ cash) eqn:Hgt.
  - apply Qgtb_true in Hgt.
    assert (Hx : 0 <= cash / (est * (101 # 100))).
    { apply Qle_shift_div_l; [exact Hunit|]. lra. }
    pose proof (int_le _ Hx) as Hint.
    assert (Hfit : inject_Z (int (cash / (est * (101 # 100))))
                   * (est * (101 # 100)) <= cash).
    { apply Qle_div_mult; assumption. }
    destruct (_ =? 0)%Z; [discriminate|]. intros _. cbn [adjusted_quantity].
    split; [|lra].
    rewrite Zle_Qle.
    apply Qmult_le_r with (z := est * (101 # 100)); [exact Hunit|]. lra.
  - apply Qgtb_false in Hgt. intros _. cbn [adjusted_quantity].
    split; [lia|exact Hgt].
Qed.

Lemma cash_check_quantity_is_affordable_witness :
  (adjusted_quantity (_check_cash_availability shrink_decision shrink_ledger)
   <= d_quantity shrink_decision)%Z /\
  inject_Z (adjusted_quantity
              (_check_cash_availability shrink_decision shrink_ledger))
    * price_or_100 (d_price shrink_decision) * (101 # 100)
  <= Portfolio.cash_balance shrink_ledger.
Proof.
  apply (cash_check_quantity_is_affordable shrink_decision shrink_ledger);
    try reflexivity.
  vm_compute. discriminate.
Defined.

Lemma cash_check_rejects_spec (decision : TradingDecision)
    (pf : Portfolio.t) :
  0 <= Portfolio.cash_balance pf ->
  0 < price_or_100 (d_price decision) ->
  approved (_check_cash_availability decision pf) = false
  <-> lower (d_action decision) = "buy" /\
      (1 <= d_quantity decision)%Z /\
      Portfolio.cash_balance pf
        < price_or_100 (d_price decision) * (101 # 100).
Proof.
  intros Hcash Hprice. unfold _check_cash_availability.
  set (est := price_or_100 (d_price decision)) in *.
  set (cash := Portfolio.cash_balance pf) in *.
  assert (Hunit : 0 < est * (101 # 100)) by nra.
  assert (Hx : 0 <= cash / (est * (101 # 100))).
  { apply Qle_shift_div_l; [exact Hunit|]. lra. }
  pose proof (int_le _ Hx) as Hlo. pose proof (int_lt _ Hx) as Hhi.
  pose proof (int_nonneg _ Hx) as Hnn.
  destruct (String.eqb_spec (lower (d_action decision)) "buy") as [Ha|Ha];
    cbn [negb].
  2:{ cbn. split; [discriminate|]. intros [? _]. contradiction. }
  destruct (Qgtb _ cash) eqn:Hgt.
  - apply Qgtb_true in Hgt.
    assert (Hq : (1 <= d_quantity decision)%Z).
    { destruct (Z_lt_le_dec (d_quantity decision) 1) as [Hlt|]; [|assumption].
      exfalso. assert (inject_Z (d_quantity decision) <= 0).
      { change 0 with (inject_Z 0). rewrite <- Zle_Qle. lia. }
      nra. }
    destruct (Z.eqb_spec (int (cash / (est * (101 # 100)))) 0) as [Hz|Hz];
      cbn [approved].
    + split; [intros _|reflexivity]. split; [exact Ha|]. split; [exact Hq|].
      rewrite Hz in Hhi. apply Qlt_div_mult in Hhi; [|exact Hunit].
      change (inject_Z 0) with 0 in Hhi. lra.
    + split; [discriminate|]. intros (_ & _ & Hlt). exfalso. apply Hz.
      assert (inject_Z (int (cash / (est * (101 # 100)))) < 1).
      { eapply Qle_lt_trans; [exact Hlo|].
        apply Qlt_shift_div_r; [exact Hunit|]. lra. }
      change 1 with (inject_Z 1) in H. rewrite <- Zlt_Qlt in H. lia.
  - apply Qgtb_false in Hgt. cbn [approved].
    split; [discriminate|]. intros (_ & Hq & Hlt). exfalso.
    assert (1 <= inject_Z (d_quantity decision)).
    { change 1 with (inject_Z 1). rewrite <- Zle_Qle. exact Hq. }
    nra.
Qed.

(** X12. The cash check rejects exactly the buys of at least one unit
    for which the cash does not cover a single unit with the buffer;
    everything else passes it. *)
Theorem cash_check_rejects_iff (decision : TradingDecision)
    (pf : Portfolio.t) :
  0 <= Portfolio.cash_balance pf ->
  0 < price_or_100 (d_price decision) ->
  approved (_check_cash_availability decision pf) = false
  <-> lower (d_action decision) = "buy" /\
      (1 <= d_quantity decision)%Z /\
      Portfolio.cash_balance pf
        < price_or_100 (d_price decision) * (101 # 100).
Proof. apply cash_check_rejects_spec. Qed.

Lemma cash_check_rejects_iff_witness :
  approved (_check_cash_availability shrink_decision
              (Portfolio.initialize 10 Portfolio.init)) = false
  <-> lower (d_action shrink_decision) = "buy" /\
      (1 <= d_quantity shrink_decision)%Z /\
      Portfolio.cash_balance (Portfolio.initialize 10 Portfolio.init)
        < price_or_100 (d_price shrink_decision) * (101 # 100).
Proof.
  apply (cash_check_rejects_iff shrink_decision
           (Portfolio.initialize 10 Portfolio.init));
    [vm_compute; discriminate|reflexivity].
Defined.

Lemma position_check_spec (rm : RiskManager.t)
    (decision : TradingDecision) (pf : Portfolio.t) :
  match _check_position_limits rm decision pf with
  | Ok c =>
    ~ Portfolio.initial_capital pf == 0 /\
    approved c = true /\
    (lower (d_action decision) <> "buy" ->
     adjusted_quantity c = d_quantity decision) /\
    (risk_score c == 0 \/ risk_score c == 3 # 10)
  | Raise e => e = ZeroDivisionError /\ Portfolio.initial_capital pf == 0
  end.
Proof.
  unfold _check_position_limits, Portfolio.get_status.
  destruct (Qeq_bool (Portfolio.initial_capital pf) 0) eqn:Hz.
  - split; [reflexivity|]. apply Qeq_bool_iff, Hz.
  - cbn [Portfolio.st_total_value].
    assert (Hnz : ~ Portfolio.initial_capital pf == 0).
    { intros E. apply Qeq_bool_iff in E. congruence. }
    destruct (Qgtb (if Qgtb _ 0 then _ else _) _);
      cbn [approved adjusted_quantity risk_score];
      (split; [exact Hnz|]); (split; [reflexivity|]); split;
      try (intros Hnb;
           destruct (String.eqb_spec (lower (d_action decision)) "buy");
           [contradiction|reflexivity]);
      [right|left]; reflexivity.
Qed.

(** X13. The position-size check never rejects and never changes the
    quantity of a decision that is not a buy; its score is 0 or 0.3,
    and it fails only by the division in [get_status], that is, exactly
    when the initial capital is zero. *)
Theorem position_check_never_rejects (rm : RiskManager.t)
    (decision : TradingDecision) (pf : Portfolio.t) :
  match _check_position_limits rm decision pf with
  | Ok c =>
    ~ Portfolio.initial_capital pf == 0 /\
    approved c = true /\
    (lower (d_action decision) <> "buy" ->
     adjusted_quantity c = d_quantity decision) /\
    (risk_score c == 0 \/ risk_score c == 3 # 10)
  | Raise e => e = ZeroDivisionError /\ Portfolio.initial_capital pf == 0
  end.
Proof. apply position_check_spec. Qed.

(** X14. What the position-size check leaves for a buy respects the
    ceiling. At a positive estimated price and a positive total value,
    with a non-negative ceiling, the returned quantity is either 0 (the
    holding already fills the ceiling) or brings the holding to a value
    of at most total value times the ceiling. *)
Theorem position_check_meets_ceiling (rm : RiskManager.t)
    (decision : TradingDecision) (pf : Portfolio.t)
    (st : Portfolio.Status) (c : RiskCheckResult) :
  lower (d_action decision) = "buy" ->
  0 < price_or_100 (d_price decision) ->
  0 <= Settings.MAX_POSITION_SIZE (settings rm) ->
  Portfolio.get_status pf = Ok st ->
  0 < Portfolio.st_total_value st ->
  _check_position_limits rm decision pf = Ok c ->
  let held :=
    match Portfolio.get_position (d_symbol decision) pf with
    | Some p => Portfolio.pos_quantity p
    | None => 0%Z
    end in
  adjusted_quantity c = 0%Z \/
  inject_Z (held + adjusted_quantity c) * price_or_100 (d_price decision)
  <= Portfolio.st_total_value st * Settings.MAX_POSITION_SIZE (settings rm).
Proof.
  intros Ha Hprice Hcap Hst Htotal. unfold _check_position_limits.
  rewrite Hst, Ha. cbn [String.eqb Ascii.eqb Bool.eqb].
  set (est := price_or_100 (d_price decision)) in *.
  set (total := Portfolio.st_total_value st) in *.
  set (cap := Settings.MAX_POSITION_SIZE (settings rm)) in *.
  set (held := match Portfolio.get_position _ _ with
               | Some p => Portfolio.pos_quantity p
               | None => 0%Z
               end).
  assert (Hgt0 : Qgtb total 0 = true) by (apply Qgtb_true; exact Htotal).
  rewrite Hgt0.
  destruct (Qgtb _ cap) eqn:Hover; intros [= <-]; cbv zeta;
    cbn [adjusted_quantity].
  - assert (Hx : 0 <= total * cap / est).
    { apply Qle_shift_div_l; [exact Hprice|]. nra. }
    pose proof (int_le _ Hx) as Hint.
    apply Qle_div_mult in Hint; [|exact Hprice].
    destruct (Z.max_spec 0 (int (total * cap / est) - held))
      as [[Hlt ->]|[Hge ->]].
    + right. replace (held + (int (total * cap / est) - held))%Z
        with (int (total * cap / est)) by lia.
      exact Hint.
    + left. reflexivity.
  - right. apply Qgtb_false in Hover.
    apply Qdiv_le_mult in Hover; [|exact Htotal].
    rewrite (Qmult_comm total cap). exact Hover.
Qed.

Lemma position_check_meets_ceiling_witness :
  let held :=
    match Portfolio.get_position (d_symbol shrink_decision) fresh_ledger with
    | Some p => Portfolio.pos_quantity p
    | None => 0%Z
    end in
  adjusted_quantity capped_check = 0%Z \/
  inject_Z (held + adjusted_quantity capped_check)
    * price_or_100 (d_price shrink_decision)
  <= Portfolio.st_total_value fresh_status
     * Settings.MAX_POSITION_SIZE (settings (default_manager ∅ ∅)).
Proof.
  apply (position_check_meets_ceiling (default_manager ∅ ∅) shrink_decision
           fresh_ledger fresh_status capped_check);
    try reflexivity; vm_compute; discriminate.
Defined.

Lemma position_check_approved (rm : RiskManager.t)
    (decision : TradingDecision) (pf : Portfolio.t) :
  forall c, _check_position_limits rm decision pf = Ok c ->
            approved c = true.
Proof.
  intros c. unfold _check_position_limits.
  destruct (Portfolio.get_status pf); [|discriminate].
  destruct (Qgtb _ _); intros [= <-]; reflexivity.
Qed.

Lemma position_score (rm : RiskManager.t) (decision : TradingDecision)
    (pf : Portfolio.t) :
  forall c, _check_position_limits rm decision pf = Ok c ->
            risk_score c == 0 \/ risk_score c == 3 # 10.
Proof.
  intros c. unfold _check_position_limits.
  destruct (Portfolio.get_status pf); [|discriminate].
  destruct (Qgtb _ _); intros [= <-]; [right|left]; reflexivity.
Qed.

Lemma concentration_score (decision : TradingDecision) (pf : Portfolio.t) :
  risk_score (_check_concentration_risk decision pf) == 0 \/
  risk_score (_check_concentration_risk decision pf) == 2 # 10.
Proof.
  unfold _check_concentration_risk.
  destruct (Nat.ltb _ 5); [right|left]; reflexivity.
Qed.

Lemma correlation_score (rm : RiskManager.t) (decision : TradingDecision)
    (pf : Portfolio.t) :
  risk_score (_check_correlation_risk rm decision pf) == 0 \/
  risk_score (_check_correlation_risk rm decision pf) == 2 # 10.
Proof.
  unfold _check_correlation_risk.
  destruct (Nat.ltb 3 _); [right|left]; reflexivity.
Qed.

Lemma volatility_score (rm : RiskManager.t) (decision : TradingDecision)
    (pf : Portfolio.t) :
  risk_score (_check_volatility_risk rm decision pf) == 0 \/
  risk_score (_check_volatility_risk rm decision pf) == 1 # 10.
Proof.
  unfold _check_volatility_risk.
  destruct (Qgtb _ (4 # 10)); [right|left]; reflexivity.
Qed.

(** The size computed from a score above one half is the truncated
    half of the requested quantity, with the floor of 1. *)
Lemma optimal_size_high (decision : TradingDecision) (pf : Portfolio.t)
    (r : Q) :
  5 # 10 < r ->
  _calculate_optimal_position_size decision pf r
  = Z.max 1 (Z.quot (d_quantity decision) 2).
Proof.
  intros Hr. unfold _calculate_optimal_position_size.
  assert (Hgt : Qgtb r (5 # 10) = true) by (apply Qgtb_true; exact Hr).
  rewrite Hgt.
  assert (Hmax : Qmax (5 # 10) (1 - r) = 5 # 10).
  { unfold Qmax, GenericMinMax.gmax.
    assert (Hc : (5 # 10 ?= 1 - r) = Gt) by (apply Qgt_alt; lra).
    rewrite Hc. reflexivity. }
  rewrite Hmax.
  change (int (inject_Z (d_quantity decision) * (5 # 10)))
    with (Z.quot (d_quantity decision * 5) (2 * 5)).
  rewrite Z.quot_mul_cancel_r by lia. reflexivity.
Qed.

Lemma optimal_size_bounds (decision : TradingDecision) (pf : Portfolio.t)
    (r : Q) :
  (1 <= _calculate_optimal_position_size decision pf r
   <= Z.max 1 (d_quantity decision))%Z.
Proof.
  destruct (Qlt_le_dec (5 # 10) r) as [Hr|Hr].
  - rewrite (optimal_size_high decision pf r Hr).
    split; [lia|].
    destruct (Z_le_gt_dec 0 (d_quantity decision)).
    + assert (Z.quot (d_quantity decision) 2 <= d_quantity decision)%Z.
      { apply Z.quot_le_upper_bound; lia. }
      lia.
    + assert (Z.quot (d_quantity decision) 2 <= 0)%Z.
      { assert (0 <= Z.quot (- d_quantity decision) 2)%Z
          by (apply Z.quot_pos; lia).
        rewrite Z.quot_opp_l in H by lia. lia. }
      lia.
  - unfold _calculate_optimal_position_size.
    assert (Hnot : Qgtb r (5 # 10) = false) by (apply Qgtb_false; exact Hr).
    rewrite Hnot. lia.
Qed.

(** X15. An approved verdict carries a score between 0 and 0.8 and a
    quantity of at least 1 and at most the larger of 1 and the requested
    quantity: the risk manager never orders more than was asked, but it
    turns a request for zero or fewer units into one unit. *)
Theorem approved_verdict_bounds (rm : RiskManager.t) (today : Z)
    (decision : TradingDecision) (pf : Portfolio.t) (v : RiskCheckResult) :
  check_trade_risk rm today decision pf = Ok v ->
  approved v = true ->
  0 <= risk_score v /\ risk_score v <= 8 # 10 /\
  (1 <= adjusted_quantity v <= Z.max 1 (d_quantity decision))%Z.
Proof.
  intros Hrun Hv.
  destruct (check_trade_risk_approved _ _ _ _ _ Hrun Hv)
    as (pc & dl & _ & Hpc & _ & _ & Hscore & Hadj).
  pose proof (position_score rm decision pf pc Hpc) as H1.
  pose proof (concentration_score decision pf) as H2.
  pose proof (correlation_score rm decision pf) as H3.
  pose proof (volatility_score rm decision pf) as H4.
  rewrite Hadj. split; [|split; [|apply optimal_size_bounds]];
    rewrite Hscore;
    destruct H1 as [-> | ->], H2 as [-> | ->], H3 as [-> | ->],
      H4 as [-> | ->]; vm_compute; discriminate.
Qed.

Lemma approved_verdict_bounds_witness :
  0 <= risk_score trim_verdict /\ risk_score trim_verdict <= 8 # 10 /\
  (1 <= adjusted_quantity trim_verdict
   <= Z.max 1 (d_quantity trim_decision))%Z.
Proof.
  apply (approved_verdict_bounds volatile_manager 0%Z trim_decision
           heavy_ledger trim_verdict); vm_compute; reflexivity.
Defined.

(** X16. With a score above one half the scaling factor
    [max(0.5, 1 - score)] is always one half: the approved quantity is
    the requested quantity halved towards zero, with the floor of 1. *)
Theorem high_score_halves (rm : RiskManager.t) (today : Z)
    (decision : TradingDecision) (pf : Portfolio.t) (v : RiskCheckResult) :
  check_trade_risk rm today decision pf = Ok v ->
  approved v = true ->
  5 # 10 < risk_score v ->
  adjusted_quantity v = Z.max 1 (Z.quot (d_quantity decision) 2).
Proof.
  intros Hrun Hv Hr.
  destruct (check_trade_risk_approved _ _ _ _ _ Hrun Hv)
    as (pc & dl & _ & _ & _ & _ & _ & Hadj).
  rewrite Hadj. apply optimal_size_high, Hr.
Qed.

Lemma high_score_halves_witness :
  adjusted_quantity trim_verdict
  = Z.max 1 (Z.quot (d_quantity trim_decision) 2).
Proof.
  apply (high_score_halves volatile_manager 0%Z trim_decision heavy_ledger
           trim_verdict); vm_compute; reflexivity.
Defined.

(** X17. [check_trade_risk] rejects for two reasons only: cash that
    does not cover one unit, or the daily limit. *)
Theorem rejection_reasons (rm : RiskManager.t) (today : Z)
    (decision : TradingDecision) (pf : Portfolio.t) (v : RiskCheckResult) :
  check_trade_risk rm today decision pf = Ok v ->
  approved v = false ->
  (exists total_cost cash, rc_reason v = InsufficientCash total_cost cash) \/
  (exists loss limit, rc_reason v = DailyLossExceeded loss limit).
Proof.
  unfold check_trade_risk.
  destruct (approved (_check_cash_availability decision pf)) eqn:Hcash;
    cbn [negb].
  2:{ intros [= <-] _. left. revert Hcash.
      unfold _check_cash_availability.
      destruct (negb _); [discriminate|].
      destruct (Qgtb _ _); [|discriminate].
      destruct (_ =? 0)%Z; [|discriminate].
      intros _. cbn. eauto. }
  pose proof (position_check_approved rm decision pf) as Hpos.
  destruct (_check_position_limits rm decision pf) as [pc|e];
    [|discriminate].
  rewrite (Hpos pc eq_refl). cbn [negb].
  destruct (_check_daily_loss_limit rm today pf) as [dl|e] eqn:Hdl;
    [|discriminate].
  destruct (approved dl) eqn:Hdla; cbn [negb].
  - intros [= <-]. discriminate.
  - intros [= <-] _. right. revert Hdl Hdla.
    unfold _check_daily_loss_limit.
    destruct (Portfolio.get_status pf); [|discriminate].
    destruct (Qgtb (abs _) _).
    + intros [= <-] _. cbn. eauto.
    + destruct (Qgtb (abs _) _); intros [= <-]; discriminate.
Qed.

Lemma rejection_reasons_witness :
  (exists total_cost cash,
      rc_reason profit_verdict = InsufficientCash total_cost cash) \/
  (exists loss limit, rc_reason profit_verdict = DailyLossExceeded loss limit).
Proof.
  apply (rejection_reasons (default_manager ∅ ∅) 0%Z next_decision
           profit_ledger profit_verdict); vm_compute; reflexivity.
Defined.

(** X18. [check_trade_risk] raises exactly when the cash check passes
    on a ledger whose initial capital is zero, and then with
    [ZeroDivisionError]: the division is the total return computed by
    [get_status]. *)
Theorem check_trade_risk_raises_iff (rm : RiskManager.t) (today : Z)
    (decision : TradingDecision) (pf : Portfolio.t) :
  (exists e, check_trade_risk rm today decision pf = Raise e)
  <-> approved (_check_cash_availability decision pf) = true /\
      Portfolio.initial_capital pf == 0.
Proof.
  pose proof (position_check_spec rm decision pf) as Hpos.
  unfold check_trade_risk.
  destruct (approved (_check_cash_availability decision pf)); cbn [negb].
  2:{ split; [intros [e He]; discriminate|intros [? _]; discriminate]. }
  destruct (_check_position_limits rm decision pf) as [pc|e].
  - destruct Hpos as (Hnz & Hap & _). rewrite Hap. cbn [negb].
    assert (Hst : exists st, Portfolio.get_status pf = Ok st).
    { unfold Portfolio.get_status.
      destruct (Qeq_bool (Portfolio.initial_capital pf) 0) eqn:E;
        [|eauto].
      apply Qeq_bool_iff in E. contradiction. }
    destruct Hst as [st Hst].
    unfold _check_daily_loss_limit. rewrite Hst.
    split; [|intros [_ ?]; contradiction].
    intros [e He]. exfalso.
    destruct (Qgtb (abs _) _) in He; [discriminate|].
    destruct (Qgtb (abs _) _) in He; discriminate.
  - destruct Hpos as [-> Hz]. split; [intros _; split; [reflexivity|exact Hz]|].
    intros _. eauto.
Qed.

End RiskChecks.

(** ** Limit orders and their re-evaluation *)

Section LimitOrders.

Import OrderManager.

Lemma fills_update_order (i : nat) (f : Order -> Order)
    (om : OrderManager.t) :
  fills (update_order i f om) = fills om.
Proof. unfold update_order. destruct (orders om !! i); reflexivity. Qed.

(** [place_order] on a decision with a limit price, the quote being
    available. *)
Lemma place_limit_order (now : datetime) (order_uuid fill_uuid : string)
    (quote : string -> option Q) (decision : TradingDecision)
    (om : OrderManager.t) (limit cp : Q) :
  d_price decision = Some limit ->
  quote (d_symbol decision) = Some cp ->
  simulation_mode om = true ->
  let out := place_order now order_uuid fill_uuid quote decision om in
  exists o,
    get_order_status order_uuid (fst out) = Some o /\
    order_type o = LIMIT /\
    quantity o = d_quantity decision /\
    success (snd out) = true /\
    if crosses (d_action decision) limit cp
    then status o = FILLED /\
         filled_quantity o = d_quantity decision /\
         avg_fill_price o = limit /\
         executed_quantity (snd out) = d_quantity decision /\
         executed_price (snd out) = Some limit /\
         length (fills (fst out)) = S (length (fills om))
    else status o = SUBMITTED /\
         filled_quantity o = 0%Z /\
         executed_quantity (snd out) = 0%Z /\
         executed_price (snd out) = None /\
         fills (fst out) = fills om.
Proof.
  intros Hprice Hquote Hsim. unfold place_order, _create_order.
  rewrite Hprice.
  set (order := {| order_id := order_uuid; order_type := LIMIT |}).
  destruct (index_of_store order (orders om)) as (i & Hi & Ho).
  change (order_id order) with order_uuid in Hi. rewrite Hi.
  change (default 0%nat (Some i)) with i. cbn [orders set_orders].
  rewrite Ho.
  unfold _submit_order. cbn [simulation_mode set_orders]. rewrite Hsim.
  unfold _simulate_order_execution. cbn [symbol order]. rewrite Hquote.
  unfold execution_price_of, crosses. cbn [order_type action price order].
  destruct (String.eqb (lower (d_action decision)) "buy");
    [destruct (Qle_bool cp limit)
    |destruct (String.eqb (lower (d_action decision)) "sell");
       [destruct (Qle_bool limit cp)|]];
    cbn [fst snd success executed_quantity executed_price quantity order];
    eexists;
    (split;
       [unfold add_fill, get_order_status; cbn [orders];
        apply (get_order_status_update order_uuid i _ order);
        [exact Hi|exact Ho|reflexivity]|]);
    cbn; repeat split;
    rewrite ?length_app, ?fills_update_order; cbn; try lia; reflexivity.
Qed.

(** X19. A decision with a limit price is executed only if the quote
    crosses the limit, and then in full at the limit price, not at the
    quote; otherwise the order rests as SUBMITTED, the call still
    reports success with nothing executed, and no fill is recorded. *)
Theorem limit_order_fills_at_limit_or_rests (now : datetime)
    (order_uuid fill_uuid : string) (quote : string -> option Q)
    (decision : TradingDecision) (om : OrderManager.t) (limit cp : Q) :
  d_price decision = Some limit ->
  quote (d_symbol decision) = Some cp ->
  simulation_mode om = true ->
  let out := place_order now order_uuid fill_uuid quote decision om in
  exists o,
    get_order_status order_uuid (fst out) = Some o /\
    order_type o = LIMIT /\
    quantity o = d_quantity decision /\
    success (snd out) = true /\
    if crosses (d_action decision) limit cp
    then status o = FILLED /\
         filled_quantity o = d_quantity decision /\
         avg_fill_price o = limit /\
         executed_quantity (snd out) = d_quantity decision /\
         executed_price (snd out) = Some limit /\
         length (fills (fst out)) = S (length (fills om))
    else status o = SUBMITTED /\
         filled_quantity o = 0%Z /\
         executed_quantity (snd out) = 0%Z /\
         executed_price (snd out) = None /\
         fills (fst out) = fills om.
Proof. apply place_limit_order. Qed.

Lemma limit_order_fills_at_limit_or_rests_witness :
  let out :=
    place_order 0 "order-1" "fill-1" (fun _ => Some 150) limit_decision
      (OrderManager.initialize OrderManager.init) in
  exists o,
    get_order_status "order-1" (fst out) = Some o /\
    order_type o = LIMIT /\
    quantity o = d_quantity limit_decision /\
    success (snd out) = true /\
    if crosses (d_action limit_decision) 140 150
    then status o = FILLED /\
         filled_quantity o = d_quantity limit_decision /\
         avg_fill_price o = 140 /\
         executed_quantity (snd out) = d_quantity limit_decision /\
         executed_price (snd out) = Some 140 /\
         length (fills (fst out))
         = S (length (fills (OrderManager.initialize OrderManager.init)))
    else status o = SUBMITTED /\
         filled_quantity o = 0%Z /\
         executed_quantity (snd out) = 0%Z /\
         executed_price (snd out) = None /\
         fills (fst out) = fills (OrderManager.initialize OrderManager.init).
Proof.
  apply (limit_order_fills_at_limit_or_rests 0%Z "order-1" "fill-1"
           (fun _ => Some 150) limit_decision
           (OrderManager.initialize OrderManager.init) 140 150);
    reflexivity.
Defined.

(** [place_order] when the quote is missing. *)
Lemma place_order_no_quote (now : datetime) (order_uuid fill_uuid : string)
    (quote : string -> option Q) (decision : TradingDecision)
    (om : OrderManager.t) :
  quote (d_symbol decision) = None ->
  simulation_mode om = true ->
  let out := place_order now order_uuid fill_uuid quote decision om in
  success (snd out) = false /\
  fills (fst out) = fills om /\
  exists o,
    get_order_status order_uuid (fst out) = Some o /\
    status o = REJECTED /\
    filled_quantity o = 0%Z.
Proof.
  intros Hquote Hsim. unfold place_order, _create_order.
  set (order := {| order_id := order_uuid |}).
  destruct (index_of_store order (orders om)) as (i & Hi & Ho).
  change (order_id order) with order_uuid in Hi. rewrite Hi.
  change (default 0%nat (Some i)) with i. cbn [orders set_orders].
  rewrite Ho.
  unfold _submit_order. cbn [simulation_mode set_orders]. rewrite Hsim.
  unfold _simulate_order_execution. cbn [symbol order]. rewrite Hquote.
  cbn [fst snd success failure]. split; [reflexivity|].
  split.
  - rewrite fills_update_order. reflexivity.
  - eexists. split.
    + apply (get_order_status_update order_uuid i _ order);
        [exact Hi|exact Ho|reflexivity].
    + split; reflexivity.
Qed.

(** X20. Without a quote the order is kept in the store as REJECTED:
    the call reports failure, nothing is filled and no fill is
    recorded. *)
Theorem order_without_quote_is_rejected (now : datetime)
    (order_uuid fill_uuid : string) (quote : string -> option Q)
    (decision : TradingDecision) (om : OrderManager.t) :
  quote (d_symbol decision) = None ->
  simulation_mode om = true ->
  let out := place_order now order_uuid fill_uuid quote decision om in
  success (snd out) = false /\
  fills (fst out) = fills om /\
  exists o,
    get_order_status order_uuid (fst out) = Some o /\
    status o = REJECTED /\
    filled_quantity o = 0%Z.
Proof. apply place_order_no_quote. Qed.

Lemma order_without_quote_is_rejected_witness :
  let out :=
    place_order 0 "order-1" "fill-1" (fun _ => None) limit_decision
      (OrderManager.initialize OrderManager.init) in
  success (snd out) = false /\
  fills (fst out) = fills (OrderManager.initialize OrderManager.init) /\
  exists o,
    get_order_status "order-1" (fst out) = Some o /\
    status o = REJECTED /\
    filled_quantity o = 0%Z.
Proof.
  apply (order_without_quote_is_rejected 0%Z "order-1" "fill-1"
           (fun _ => None) limit_decision
           (OrderManager.initialize OrderManager.init)); reflexivity.
Defined.

End LimitOrders.

(** ** Queries and the re-evaluation loop *)

Section PendingOrders.

Import OrderManager.

Lemma insert_desc_perm (x : nat * Order) (l : list (nat * Order)) :
  Permutation (insert_desc x l) (x :: l).
Proof.
  induction l as [|y l IH]; cbn; [reflexivity|].
  destruct (created_at (snd x) <? created_at (snd y))%Z; [|reflexivity].
  rewrite IH. apply perm_swap.
Qed.

Lemma sort_desc_perm (l : list (nat * Order)) : Permutation (sort_desc l) l.
Proof.
  induction l as [|x l IH]; cbn; [reflexivity|].
  rewrite insert_desc_perm. apply perm_skip, IH.
Qed.

Lemma insert_desc_sorted (x : nat * Order) (l : list (nat * Order)) :
  StronglySorted newer_first l ->
  StronglySorted newer_first (insert_desc x l).
Proof.
  induction l as [|y l IH]; cbn; intros Hs.
  - constructor; constructor.
  - inversion Hs as [|? ? Hl Hy]; subst.
    destruct (Z.ltb_spec (created_at (snd x)) (created_at (snd y)))
      as [Hlt|Hge].
    + constructor; [apply IH, Hl|].
      rewrite List.Forall_forall. intros z Hz.
      apply In_insert_desc in Hz as [->|Hz].
      * unfold newer_first. lia.
      * rewrite List.Forall_forall in Hy. apply Hy, Hz.
    + constructor; [exact Hs|].
      constructor; [exact Hge|].
      rewrite List.Forall_forall in Hy |- *. intros z Hz.
      specialize (Hy z Hz). unfold newer_first in *. lia.
Qed.

Lemma sort_desc_sorted (l : list (nat * Order)) :
  StronglySorted newer_first (sort_desc l).
Proof.
  induction l as [|x l IH]; cbn; [constructor|].
  apply insert_desc_sorted, IH.
Qed.

Lemma lookup_In_combine_seq (l : list Order) :
  forall (k j : nat) (o : Order),
    l !! j = Some o -> In ((k + j)%nat, o) (combine (seq k (length l)) l).
Proof.
  induction l as [|x l IH]; intros k j o; [discriminate|].
  destruct j as [|j]; cbn.
  - intros [= <-]. left. f_equal. lia.
  - intros Hj. right. replace (k + S j)%nat with (S k + j)%nat by lia.
    apply IH, Hj.
Qed.

Lemma fst_combine_seq (l : list Order) :
  forall k, map fst (combine (seq k (length l)) l) = seq k (length l).
Proof.
  induction l as [|x l IH]; intros k; cbn; [reflexivity|].
  rewrite IH. reflexivity.
Qed.

Lemma NoDup_fst_filter (P : nat * Order -> bool) (l : list (nat * Order)) :
  NoDup (map fst l) -> NoDup (map fst (List.filter P l)).
Proof.
  induction l as [|x l IH]; cbn; intros Hnd; [constructor|].
  inversion Hnd as [|? ? Hx Hl]; subst.
  destruct (P x); cbn; [|apply IH, Hl].
  constructor; [|apply IH, Hl].
  intros Hin. apply Hx. rewrite list_elem_of_In in Hin |- *.
  apply in_map_iff in Hin as (y & Hy & Hin).
  apply filter_In in Hin as [Hin _]. apply in_map_iff. eauto.
Qed.

(** The objects [get_orders(status=st)] returns: those of the store with
    that status, each once. *)
Lemma get_orders_facts (st : option OrderStatus) (om : OrderManager.t) :
  (forall i o,
      In (i, o) (get_orders None st om)
      <-> orders om !! i = Some o /\
          match st with Some s => status o = s | None => True end) /\
  NoDup (map fst (get_orders None st om)).
Proof.
  unfold get_orders. split.
  - intros i o. rewrite In_sort_desc.
    assert (Hen : In (i, o) (enumerate (orders om))
                  <-> orders om !! i = Some o).
    { split.
      - intros Hin. destruct (In_combine_seq _ _ _ _ Hin) as [_ Hlk].
        rewrite Nat.sub_0_r in Hlk. exact Hlk.
      - intros Hlk. apply (lookup_In_combine_seq _ 0 i o Hlk). }
    destruct st as [t|]; rewrite ?filter_In, Hen; cbn [snd];
      rewrite ?status_eqb_eq; intuition congruence.
  - rewrite (Permutation_map fst (sort_desc_perm _)).
    assert (Hen : NoDup (map fst (enumerate (orders om)))).
    { unfold enumerate. rewrite fst_combine_seq. apply NoDup_seq. }
    destruct st as [t|]; repeat apply NoDup_fst_filter; exact Hen.
Qed.

(** X21. [get_orders] returns exactly the stored orders that pass its
    filters, each once, ordered from the newest to the oldest. *)
Theorem get_orders_selects_and_sorts (sym : option string)
    (st : option OrderStatus) (om : OrderManager.t) :
  (forall i o,
      In (i, o) (get_orders sym st om)
      <-> orders om !! i = Some o /\ selected sym st o) /\
  NoDup (map fst (get_orders sym st om)) /\
  StronglySorted newer_first (get_orders sym st om).
Proof.
  unfold get_orders. split; [|split].
  - intros i o. rewrite In_sort_desc. unfold selected.
    assert (Hen : In (i, o) (enumerate (orders om))
                  <-> orders om !! i = Some o).
    { split.
      - intros Hin. destruct (In_combine_seq _ _ _ _ Hin) as [_ Hlk].
        rewrite Nat.sub_0_r in Hlk. exact Hlk.
      - intros Hlk. apply (lookup_In_combine_seq _ 0 i o Hlk). }
    destruct sym as [s|], st as [t|];
      try destruct (String.eqb_spec s "") as [->|Hs];
      rewrite ?filter_In, Hen; cbn [snd];
      rewrite ?status_eqb_eq, ?String.eqb_eq; intuition congruence.
  - rewrite (Permutation_map fst (sort_desc_perm _)).
    assert (Hen : NoDup (map fst (enumerate (orders om)))).
    { unfold enumerate. rewrite fst_combine_seq. apply NoDup_seq. }
    destruct sym as [s|], st as [t|];
      try destruct (String.eqb s "");
      repeat apply NoDup_fst_filter; exact Hen.
  - apply sort_desc_sorted.
Qed.

Lemma can_fill_priced (o : Order) (limit cp : Q) :
  price o = Some limit ->
  can_fill o cp = Ok (crosses (action o) limit cp).
Proof.
  intros Hp. unfold can_fill, crosses. rewrite Hp.
  destruct (String.eqb (lower (action o)) "buy"); [reflexivity|].
  destruct (String.eqb (lower (action o)) "sell"); reflexivity.
Qed.

Lemma limit_priced_update (i : nat) (f : Order -> Order)
    (om : OrderManager.t) :
  (forall o, order_type (f o) = order_type o /\ price (f o) = price o) ->
  limit_priced om -> limit_priced (update_order i f om).
Proof.
  intros Hf Hwf j o. unfold update_order.
  destruct (orders om !! i) as [x|] eqn:Hx; [|apply Hwf].
  cbn [orders set_orders]. destruct (decide (i = j)) as [->|Hne].
  - rewrite list_lookup_insert_eq by (eapply lookup_lt_Some, Hx).
    intros [= <-]. destruct (Hf x) as [-> ->]. apply (Hwf j x Hx).
  - rewrite list_lookup_insert_ne by exact Hne. apply Hwf.
Qed.

(** The loop over distinct submitted objects re-evaluates each of them
    and returns normally. *)
Lemma process_loop_spec (now : datetime) (fill_uuid : nat -> string)
    (quote : string -> option Q) (pending : list (nat * Order)) :
  forall om : OrderManager.t,
    NoDup (map fst pending) ->
    limit_priced om ->
    (forall i, In i (map fst pending) ->
               exists o, orders om !! i = Some o /\ status o = SUBMITTED) ->
    snd (process_loop now fill_uuid quote pending om) = Ok tt /\
    forall j, In j (map fst pending) ->
              orders (fst (process_loop now fill_uuid quote pending om)) !! j
              = reevaluated now quote <$> orders om !! j.
Proof.
  induction pending as [|[i x] rest IH]; intros om Hnd Hwf Hsub.
  - split; [reflexivity|]. intros j [].
  - cbn [map fst] in Hnd, Hsub. inversion Hnd as [|? ? Hi Hrest]; subst.
    rewrite list_elem_of_In in Hi.
    destruct (Hsub i (or_introl eq_refl)) as (o & Ho & Hst).
    assert (Hsub' : forall k, In k (map fst rest) ->
                              exists o, orders om !! k = Some o /\
                                        status o = SUBMITTED).
    { intros k Hk. apply Hsub. right. exact Hk. }
    cbn [process_loop]. rewrite Ho.
    assert (Hsame :
              reevaluated now quote o = o ->
              snd (process_loop now fill_uuid quote rest om) = Ok tt /\
              forall j, In j (map fst ((i, x) :: rest)) ->
                orders (fst (process_loop now fill_uuid quote rest om)) !! j
                = reevaluated now quote <$> orders om !! j).
    { intros Hre. destruct (IH om Hrest Hwf Hsub') as [Hok Hall].
      split; [exact Hok|].
      intros j [Hj|Hj]; [cbn [fst] in Hj; subst j|apply Hall, Hj].
      rewrite (process_loop_other _ _ _ rest om i Hi), Ho.
      change (Some o = Some (reevaluated now quote o)).
      rewrite Hre. reflexivity. }
    destruct (order_type o) eqn:Hty;
      try (apply Hsame; unfold reevaluated; rewrite Hst, Hty; reflexivity).
    destruct (price o) as [limit|] eqn:Hp;
      [|exfalso; exact (Hwf i o Ho Hty Hp)].
    destruct (quote (symbol o)) as [cp|] eqn:Hq;
      [|apply Hsame; unfold reevaluated; rewrite Hst, Hty, Hp, Hq;
        reflexivity].
    rewrite (can_fill_priced o limit cp Hp).
    destruct (crosses (action o) limit cp) eqn:Hc;
      [|apply Hsame; unfold reevaluated; rewrite Hst, Hty, Hp, Hq, Hc;
        reflexivity].
    set (om1 := _fill_limit_order now (fill_uuid i) i o limit om).
    assert (Hother : forall k, i <> k -> orders om1 !! k = orders om !! k).
    { intros k Hk. unfold om1, _fill_limit_order, add_fill. cbn [orders].
      apply update_order_other, Hk. }
    assert (Hat : orders om1 !! i = Some (reevaluated now quote o)).
    { unfold om1, _fill_limit_order, add_fill, update_order. cbn [orders].
      rewrite Ho. cbn [orders set_orders].
      rewrite list_lookup_insert_eq by (eapply lookup_lt_Some, Ho).
      unfold reevaluated. rewrite Hst, Hty, Hp, Hq, Hc. reflexivity. }
    assert (Hwf1 : limit_priced om1).
    { intros j y. unfold om1, _fill_limit_order, add_fill. cbn [orders].
      apply limit_priced_update; [|exact Hwf].
      intros y'. split; reflexivity. }
    assert (Hsub1 : forall k, In k (map fst rest) ->
                              exists o, orders om1 !! k = Some o /\
                                        status o = SUBMITTED).
    { intros k Hk. rewrite Hother; [apply Hsub', Hk|].
      intros ->. contradiction. }
    destruct (IH om1 Hrest Hwf1 Hsub1) as [Hok Hall].
    split; [exact Hok|]. intros j [Hj|Hj]; [cbn [fst] in Hj; subst j|].
    + rewrite (process_loop_other _ _ _ rest om1 i Hi), Hat, Ho.
      reflexivity.
    + rewrite (Hall j Hj), Hother; [reflexivity|].
      intros ->. contradiction.
Qed.

(** X22. One pass of [process_pending_orders] over a store whose limit
    orders all carry a price returns normally and acts on each order
    separately: a SUBMITTED limit order whose quote is available and
    crosses its limit becomes FILLED in full at the limit price, and
    every other order is left exactly as it was. *)
Theorem process_pending_orders_pointwise (now : datetime)
    (fill_uuid : nat -> string) (quote : string -> option Q)
    (om : OrderManager.t) :
  limit_priced om ->
  let out := process_pending_orders now fill_uuid quote om in
  snd out = Ok tt /\
  orders (fst out) = map (reevaluated now quote) (orders om).
Proof.
  intros Hwf. cbv zeta. unfold process_pending_orders.
  destruct (get_orders_facts (Some SUBMITTED) om) as (Hin & Hnd).
  assert (Hsub : forall i, In i (map fst (get_orders None (Some SUBMITTED) om))
                           -> exists o, orders om !! i = Some o /\
                                        status o = SUBMITTED).
  { intros i Hi. apply in_map_iff in Hi as ([k o] & <- & Hko).
    exists o. apply Hin, Hko. }
  destruct (process_loop_spec now fill_uuid quote _ om Hnd Hwf Hsub)
    as [Hok Hall].
  split; [exact Hok|].
  apply list_eq. intros j. rewrite list_lookup_fmap.
  destruct (orders om !! j) as [o|] eqn:Ho.
  - destruct (status_eqb (status o) SUBMITTED) eqn:Hst.
    + apply status_eqb_eq in Hst. rewrite Hall, Ho; [reflexivity|].
      apply in_map_iff. exists (j, o). split; [reflexivity|].
      apply Hin. split; [exact Ho|exact Hst].
    + rewrite process_loop_other.
      * rewrite Ho. change (Some o = Some (reevaluated now quote o)).
        f_equal. unfold reevaluated.
        destruct (status o); try reflexivity. discriminate.
      * intros Hj. apply in_map_iff in Hj as ([k y] & Hk & Hky).
        cbn in Hk. subst k. apply Hin in Hky as [Hlk Hy].
        rewrite Ho in Hlk. injection Hlk as <-.
        rewrite Hy in Hst. discriminate.
  - rewrite process_loop_other; [rewrite Ho; reflexivity|].
    intros Hj. apply in_map_iff in Hj as ([k y] & Hk & Hky).
    cbn in Hk. subst k. apply Hin in Hky as [Hlk _]. congruence.
Qed.

Lemma process_pending_orders_pointwise_witness :
  let out :=
    process_pending_orders 300 (fun _ => "fill-2") (fun _ => Some 139)
      resting_book in
  snd out = Ok tt /\
  orders (fst out)
  = map (reevaluated 300 (fun _ => Some 139)) (orders resting_book).
Proof.
  apply (process_pending_orders_pointwise 300%Z (fun _ => "fill-2")
           (fun _ => Some 139) resting_book).
  intros j o. destruct j as [|[|j]]; cbn; intros [= <-]; discriminate.
Defined.

End PendingOrders.

(** ** The engine, end to end *)

Section EngineMore.

Import TradingEngine.

(** X23. A buy for which the cash does not cover one unit with the
    buffer goes no further than the risk manager: [execute_trade]
    reports the rejection and the engine is exactly as before, with no
    order created and the decision untouched. *)
Theorem unaffordable_buy_changes_nothing (now : datetime)
    (order_uuid fill_uuid : string) (quote : string -> option Q)
    (model_name : string) (decision : TradingDecision) (e : TradingEngine.t) :
  lower (d_action decision) = "buy" ->
  (1 <= d_quantity decision)%Z ->
  0 <= Portfolio.cash_balance (portfolio e) ->
  0 < price_or_100 (d_price decision) ->
  Portfolio.cash_balance (portfolio e)
    < price_or_100 (d_price decision) * (101 # 100) ->
  exists total_cost,
    execute_trade now order_uuid fill_uuid quote model_name decision e
    = (e, decision,
       failure
         (MsgRiskRejected
            (RiskManager.InsufficientCash total_cost
               (Portfolio.cash_balance (portfolio e))))).
Proof.
  intros Ha Hq Hcash Hprice Hlt.
  assert (Hrej : RiskManager.approved
                   (RiskManager._check_cash_availability decision
                      (portfolio e)) = false).
  { apply cash_check_rejects_spec; auto. }
  unfold execute_trade, RiskManager.check_trade_risk. rewrite Hrej.
  cbn [negb]. rewrite Hrej. cbn [negb].
  revert Hrej. unfold RiskManager._check_cash_availability.
  destruct (negb _); [discriminate|].
  destruct (Qgtb _ _); [|discriminate].
  destruct (_ =? 0)%Z; [|discriminate].
  intros _. cbn. eauto.
Qed.

Lemma unaffordable_buy_changes_nothing_witness :
  exists total_cost,
    execute_trade 0 "order-1" "fill-1" (fun _ => Some 150) "model"
      {| d_symbol := "GOOGL"; d_action := "buy"; d_quantity := 1;
         d_price := Some 20000; d_reason := ""; d_confidence := 1;
         d_stop_loss := None; d_take_profit := None |} default_engine
    = (default_engine,
       {| d_symbol := "GOOGL"; d_action := "buy"; d_quantity := 1;
          d_price := Some 20000; d_reason := ""; d_confidence := 1;
          d_stop_loss := None; d_take_profit := None |},
       failure
         (MsgRiskRejected
            (RiskManager.InsufficientCash total_cost
               (Portfolio.cash_balance (portfolio default_engine))))).
Proof.
  apply (unaffordable_buy_changes_nothing 0%Z "order-1" "fill-1"
           (fun _ => Some 150) "model");
    try reflexivity; vm_compute; discriminate.
Defined.

(** X24. Without a quote for the symbol nothing is booked: whatever the
    risk manager says, [execute_trade] reports a failure and the ledger
    is exactly as before. *)
Theorem no_quote_no_booking (now : datetime)
    (order_uuid fill_uuid : string) (quote : string -> option Q)
    (model_name : string) (decision : TradingDecision) (e : TradingEngine.t) :
  quote (d_symbol decision) = None ->
  OrderManager.simulation_mode (order_manager e) = true ->
  let out :=
    execute_trade now order_uuid fill_uuid quote model_name decision e in
  success (snd out) = false /\
  portfolio (fst (fst out)) = portfolio e.
Proof.
  intros Hquote Hsim. cbv zeta. unfold execute_trade.
  destruct (RiskManager.check_trade_risk _ _ _ _) as [v|x];
    [|split; reflexivity].
  destruct (RiskManager.approved v); cbn [negb]; [|split; reflexivity].
  set (decision' := if negb _ then _ else decision).
  assert (Hsym : d_symbol decision' = d_symbol decision)
    by (unfold decision'; destruct (negb _); reflexivity).
  rewrite <- Hsym in Hquote.
  destruct (place_order_no_quote now order_uuid fill_uuid quote decision'
              (order_manager e) Hquote Hsim) as (Hfail & _).
  destruct (OrderManager.place_order _ _ _ _ _ _) as [om result].
  cbn [snd] in Hfail. rewrite Hfail. split; [exact Hfail|reflexivity].
Qed.

Lemma no_quote_no_booking_witness :
  let out :=
    execute_trade 0 "order-1" "fill-1" (fun _ => None) "model"
      small_decision default_engine in
  success (snd out) = false /\
  portfolio (fst (fst out)) = portfolio default_engine.
Proof.
  apply (no_quote_no_booking 0%Z "order-1" "fill-1" (fun _ => None) "model"
           small_decision default_engine); reflexivity.
Defined.

Lemma place_market_order_fill (now : datetime)
    (order_uuid fill_uuid : string) (quote : string -> option Q)
    (decision : TradingDecision) (om : OrderManager.t) (p : Q) :
  d_price decision = None ->
  quote (d_symbol decision) = Some p ->
  OrderManager.simulation_mode om = true ->
  length (OrderManager.fills
            (fst (OrderManager.place_order now order_uuid fill_uuid quote
                    decision om)))
  = S (length (OrderManager.fills om)).
Proof.
  intros Hprice Hquote Hsim.
  unfold OrderManager.place_order, OrderManager._create_order.
  rewrite Hprice.
  set (order := {| OrderManager.order_id := order_uuid;
                   OrderManager.order_type := OrderManager.MARKET |}).
  destruct (index_of_store order (OrderManager.orders om)) as (i & Hi & Ho).
  change (OrderManager.order_id order) with order_uuid in Hi. rewrite Hi.
  change (default 0%nat (Some i)) with i.
  cbn [OrderManager.orders OrderManager.set_orders]. rewrite Ho.
  unfold OrderManager._submit_order.
  cbn [OrderManager.simulation_mode OrderManager.set_orders]. rewrite Hsim.
  unfold OrderManager._simulate_order_execution.
  cbn [OrderManager.symbol order]. rewrite Hquote.
  unfold OrderManager.execution_price_of.
  cbn [OrderManager.order_type OrderManager.action order].
  destruct (String.eqb (lower (d_action decision)) "buy");
    cbn [fst OrderManager.add_fill OrderManager.fills];
    rewrite length_app, fills_update_order; cbn; lia.
Qed.

(** X25. An order can be filled and never booked. When an approved
    market buy is filled at a price at which the approved quantity and
    the ledger's commission exceed the cash, the order manager keeps a
    FILLED order and its fill, the ledger refuses the purchase and stays
    as it was, and [execute_trade] reports the failure. *)
Theorem fill_without_booking (now : datetime)
    (order_uuid fill_uuid : string) (quote : string -> option Q)
    (model_name : string) (decision : TradingDecision) (e : TradingEngine.t)
    (v : RiskManager.RiskCheckResult) (p : Q) :
  RiskManager.check_trade_risk (risk_manager e) (date_of now) decision
    (portfolio e) = Ok v ->
  RiskManager.approved v = true ->
  lower (d_action decision) = "buy" ->
  d_price decision = None ->
  quote (d_symbol decision) = Some p ->
  OrderManager.simulation_mode (order_manager e) = true ->
  Portfolio.cash_balance (portfolio e)
    < inject_Z (RiskManager.adjusted_quantity v) * (p * (1001 # 1000))
      + Portfolio._calculate_commission (RiskManager.adjusted_quantity v)
          None ->
  let out :=
    execute_trade now order_uuid fill_uuid quote model_name decision e in
  snd out = failure (MsgExecuteFailed ValueError) /\
  portfolio (fst (fst out)) = portfolio e /\
  length (OrderManager.fills (order_manager (fst (fst out))))
    = S (length (OrderManager.fills (order_manager e))) /\
  exists o,
    OrderManager.get_order_status order_uuid (order_manager (fst (fst out)))
      = Some o /\
    OrderManager.status o = OrderManager.FILLED /\
    OrderManager.filled_quantity o = RiskManager.adjusted_quantity v.
Proof.
  intros Hrisk Hap Ha Hprice Hquote Hsim Hcost. cbv zeta.
  unfold execute_trade. rewrite Hrisk, Hap. cbn [negb].
  remember (if negb _ then _ else decision) as decision' eqn:Hdec.
  assert (Hd : d_symbol decision' = d_symbol decision /\
               d_action decision' = d_action decision /\
               d_price decision' = d_price decision /\
               d_quantity decision' = RiskManager.adjusted_quantity v).
  { rewrite Hdec.
    destruct (Z.eqb_spec (RiskManager.adjusted_quantity v)
                (d_quantity decision)) as [E|E]; cbn [negb];
      repeat split; try reflexivity. symmetry. exact E. }
  clear Hdec. destruct Hd as (Hsym & Hact & Hpr & Hqty).
  rewrite <- Hsym in Hquote. rewrite <- Hpr in Hprice.
  pose proof (place_market_order now order_uuid fill_uuid quote decision'
                (order_manager e) p Hprice Hquote Hsim) as Hplace.
  pose proof (place_market_order_fill now order_uuid fill_uuid quote decision'
                (order_manager e) p Hprice Hquote Hsim) as Hfill.
  cbv zeta in Hplace.
  destruct (OrderManager.place_order _ _ _ _ _ _) as [om result].
  cbn [fst snd] in Hplace, Hfill.
  destruct Hplace as (Hs & Hq & Hp & o & Ho & _ & Hst & _ & Hfq & _).
  rewrite Hs, Hq, Hp, Hsym, Hact, Hqty. cbn [portfolio set_order_manager].
  unfold market_price. rewrite Ha. cbn [String.eqb Ascii.eqb Bool.eqb].
  unfold Portfolio.update_position, Portfolio.bind. rewrite Ha.
  cbn [String.eqb Ascii.eqb Bool.eqb]. unfold Portfolio._buy_stock.
  assert (Hgt : Qgtb
                  (inject_Z (RiskManager.adjusted_quantity v)
                   * (p * (1001 # 1000))
                   + Portfolio._calculate_commission
                       (RiskManager.adjusted_quantity v)
                       (Some (p * (1001 # 1000))))
                  (Portfolio.cash_balance (portfolio e)) = true)
    by (apply Qgtb_true; exact Hcost).
  rewrite Hgt. cbn.
  repeat split; try assumption.
  exists o. rewrite Hqty in Hfq. repeat split; assumption.
Qed.

Lemma fill_without_booking_witness :
  let out :=
    execute_trade 0 "order-1" "fill-1" (fun _ => Some 150) "model"
      large_decision small_engine in
  snd out = failure (MsgExecuteFailed ValueError) /\
  portfolio (fst (fst out)) = portfolio small_engine /\
  length (OrderManager.fills (order_manager (fst (fst out))))
    = S (length (OrderManager.fills (order_manager small_engine))) /\
  exists o,
    OrderManager.get_order_status "order-1"
      (order_manager (fst (fst out))) = Some o /\
    OrderManager.status o = OrderManager.FILLED /\
    OrderManager.filled_quantity o
      = RiskManager.adjusted_quantity large_verdict.
Proof.
  apply (fill_without_booking 0%Z "order-1" "fill-1" (fun _ => Some 150)
           "model" large_decision small_engine large_verdict 150);
    vm_compute; reflexivity.
Defined.

(** [update_position] called without a price for a buy or a sell
    raises and leaves the ledger as it was. *)
Lemma update_position_no_price (now : datetime) (symbol action : string)
    (quantity : Z) (model_name : string) (pf : Portfolio.t) :
  lower action = "buy" \/ lower action = "sell" ->
  exists x,
    Portfolio.update_position now symbol action quantity None model_name pf
    = (pf, Raise x).
Proof.
  intros Ha. unfold Portfolio.update_position, Portfolio.bind.
  destruct Ha as [Ha|Ha]; rewrite Ha; cbn [String.eqb Ascii.eqb Bool.eqb].
  - eexists. reflexivity.
  - unfold Portfolio._sell_stock.
    destruct (Portfolio.positions pf !! symbol) as [pos|];
      [|eexists; reflexivity].
    destruct (Portfolio.pos_quantity pos <? quantity)%Z; eexists; reflexivity.
Qed.

(** X26. A limit buy or sell that does not cross rests in the order
    store as SUBMITTED, yet [execute_trade] reports it as a failed
    trade: the order manager returns success with no price, booking it
    raises, and the ledger is left exactly as it was. *)
Theorem resting_order_is_reported_failed (now : datetime)
    (order_uuid fill_uuid : string) (quote : string -> option Q)
    (model_name : string) (decision : TradingDecision) (e : TradingEngine.t)
    (v : RiskManager.RiskCheckResult) (limit cp : Q) :
  RiskManager.check_trade_risk (risk_manager e) (date_of now) decision
    (portfolio e) = Ok v ->
  RiskManager.approved v = true ->
  lower (d_action decision) = "buy" \/ lower (d_action decision) = "sell" ->
  d_price decision = Some limit ->
  quote (d_symbol decision) = Some cp ->
  crosses (d_action decision) limit cp = false ->
  OrderManager.simulation_mode (order_manager e) = true ->
  let out :=
    execute_trade now order_uuid fill_uuid quote model_name decision e in
  success (snd out) = false /\
  portfolio (fst (fst out)) = portfolio e /\
  OrderManager.fills (order_manager (fst (fst out)))
    = OrderManager.fills (order_manager e) /\
  exists o,
    OrderManager.get_order_status order_uuid (order_manager (fst (fst out)))
      = Some o /\
    OrderManager.status o = OrderManager.SUBMITTED /\
    OrderManager.quantity o = RiskManager.adjusted_quantity v.
Proof.
  intros Hrisk Hap Ha Hprice Hquote Hcross Hsim. cbv zeta.
  unfold execute_trade. rewrite Hrisk, Hap. cbn [negb].
  remember (if negb _ then _ else decision) as decision' eqn:Hdec.
  assert (Hd : d_symbol decision' = d_symbol decision /\
               d_action decision' = d_action decision /\
               d_price decision' = d_price decision /\
               d_quantity decision' = RiskManager.adjusted_quantity v).
  { rewrite Hdec.
    destruct (Z.eqb_spec (RiskManager.adjusted_quantity v)
                (d_quantity decision)) as [E|E]; cbn [negb];
      repeat split; try reflexivity. symmetry. exact E. }
  clear Hdec. destruct Hd as (Hsym & Hact & Hpr & Hqty).
  rewrite <- Hsym in Hquote. rewrite <- Hpr in Hprice.
  rewrite <- Hact in Hcross, Ha.
  pose proof (place_limit_order now order_uuid fill_uuid quote decision'
                (order_manager e) limit cp Hprice Hquote Hsim) as Hplace.
  cbv zeta in Hplace. rewrite Hcross in Hplace.
  destruct (OrderManager.place_order _ _ _ _ _ _) as [om result].
  cbn [fst snd] in Hplace.
  destruct Hplace as (o & Ho & _ & Hoq & Hs & Hst & _ & Hq & Hp & Hfills).
  rewrite Hs, Hq, Hp. cbn [portfolio set_order_manager].
  destruct (update_position_no_price now (d_symbol decision')
              (d_action decision') 0 "" (portfolio e) Ha) as [x Hx].
  rewrite Hx. cbn.
  repeat split; try assumption.
  exists o. rewrite Hqty in Hoq. repeat split; assumption.
Qed.

Lemma resting_order_is_reported_failed_witness :
  let out :=
    execute_trade 0 "order-1" "fill-1" (fun _ => Some 150) "model"
      limit_decision default_engine in
  success (snd out) = false /\
  portfolio (fst (fst out)) = portfolio default_engine /\
  OrderManager.fills (order_manager (fst (fst out)))
    = OrderManager.fills (order_manager default_engine) /\
  exists o,
    OrderManager.get_order_status "order-1" (order_manager (fst (fst out)))
      = Some o /\
    OrderManager.status o = OrderManager.SUBMITTED /\
    OrderManager.quantity o = RiskManager.adjusted_quantity limit_verdict.
Proof.
  apply (resting_order_is_reported_failed 0%Z "order-1" "fill-1"
           (fun _ => Some 150) "model" limit_decision default_engine
           limit_verdict 140 150);
    try (vm_compute; reflexivity).
  left. reflexivity.
Defined.

Lemma unnamed_set_last_pnl (x : Q) (h : list Portfolio.TradeRecord) :
  List.Forall unnamed h -> List.Forall unnamed (Portfolio.set_last_pnl x h).
Proof.
  induction h as [|r h IH]; intros Hh; [constructor|].
  inversion Hh as [|? ? Hr Hrest]; subst.
  cbn [Portfolio.set_last_pnl]. destruct h as [|r' h'].
  - constructor; [exact Hr|constructor].
  - constructor; [exact Hr|apply IH, Hrest].
Qed.

(** [update_position] called without the name of a model keeps a
    history of unnamed records unnamed. *)
Lemma unnamed_update_position (now : datetime) (symbol action : string)
    (quantity : Z) (price : option Q) (pf : Portfolio.t) :
  List.Forall unnamed (Portfolio.trade_history pf) ->
  List.Forall unnamed
    (Portfolio.trade_history
       (fst (Portfolio.update_position now symbol action quantity price ""
               pf))).
Proof.
  intros Hh.
  assert (Hnew : forall h, List.Forall unnamed h ->
            List.Forall unnamed
              (h ++ [{| Portfolio.tr_timestamp := now;
                        Portfolio.tr_symbol := symbol;
                        Portfolio.tr_action := action;
                        Portfolio.tr_quantity := quantity;
                        Portfolio.tr_price := price;
                        Portfolio.tr_commission :=
                          Portfolio._calculate_commission quantity price;
                        Portfolio.tr_pnl := 0;
                        Portfolio.tr_model_name := "";
                        Portfolio.tr_reason := "" |}])%list).
  { intros h Hall. apply List.Forall_app. split; [exact Hall|].
    constructor; [reflexivity|constructor]. }
  unfold Portfolio.update_position, Portfolio.bind.
  destruct (String.eqb (lower action) "buy").
  - unfold Portfolio._buy_stock. destruct price as [p|]; [|exact Hh].
    destruct (Qgtb _ _); [exact Hh|]. cbn [Portfolio.positions
      Portfolio.set_cash].
    destruct (Portfolio.positions pf !! symbol) as [pos|].
    + destruct (_ =? 0)%Z; [exact Hh|]. cbn. apply Hnew, Hh.
    + cbn. apply Hnew, Hh.
  - destruct (String.eqb (lower action) "sell").
    + unfold Portfolio._sell_stock.
      destruct (Portfolio.positions pf !! symbol) as [pos|]; [|exact Hh].
      destruct (_ <? _)%Z; [exact Hh|].
      destruct price as [p|]; [|exact Hh].
      cbn [Portfolio.pos_quantity].
      destruct (_ =? 0)%Z; cbn; apply Hnew, unnamed_set_last_pnl, Hh.
    + destruct price as [p|]; cbn; apply Hnew, Hh.
Qed.

(** X27. The engine books every trade without the name of the model:
    [execute_trade] does not pass it on. If the history holds only
    unnamed records, so it does after any call, and
    [get_trade_history] for a named model returns nothing. *)
Theorem engine_books_unnamed_trades (now : datetime)
    (order_uuid fill_uuid : string) (quote : string -> option Q)
    (model_name : string) (decision : TradingDecision) (e : TradingEngine.t) :
  List.Forall unnamed (Portfolio.trade_history (portfolio e)) ->
  let e' :=
    fst (fst (execute_trade now order_uuid fill_uuid quote model_name
                decision e)) in
  List.Forall unnamed (Portfolio.trade_history (portfolio e')) /\
  forall (name : string) (limit : nat),
    name <> "" ->
    Portfolio.get_trade_history name limit (portfolio e') = [].
Proof.
  intros Hh. cbv zeta.
  assert (Hall : List.Forall unnamed
                   (Portfolio.trade_history
                      (portfolio
                         (fst (fst (execute_trade now order_uuid fill_uuid
                                      quote model_name decision e)))))).
  { unfold execute_trade.
    destruct (RiskManager.check_trade_risk _ _ _ _) as [v|x]; [|exact Hh].
    destruct (RiskManager.approved v); cbn [negb]; [|exact Hh].
    destruct (OrderManager.place_order _ _ _ _ _ _) as [om result].
    destruct (success result); [|exact Hh].
    pose proof (unnamed_update_position now
                  (d_symbol
                     (if negb
                           (RiskManager.adjusted_quantity v
                            =? d_quantity decision)%Z
                      then set_quantity (RiskManager.adjusted_quantity v)
                             decision
                      else decision))
                  (d_action
                     (if negb
                           (RiskManager.adjusted_quantity v
                            =? d_quantity decision)%Z
                      then set_quantity (RiskManager.adjusted_quantity v)
                             decision
                      else decision))
                  (executed_quantity result) (executed_price result)
                  (portfolio (set_order_manager om e)) Hh) as Hup.
    destruct (Portfolio.update_position _ _ _ _ _ _ _) as [pf [[]|x]];
      exact Hup. }
  split; [exact Hall|].
  intros name limit Hname. unfold Portfolio.get_trade_history.
  destruct (String.eqb_spec name "") as [|_]; [contradiction|].
  assert (Hnone : List.filter
                    (fun tr => String.eqb (Portfolio.tr_model_name tr) name)
                    (Portfolio.trade_history
                       (portfolio
                          (fst (fst (execute_trade now order_uuid fill_uuid
                                       quote model_name decision e)))))
                  = []).
  { induction Hall as [|r h Hr _ IH]; [reflexivity|].
    cbn. rewrite Hr.
    destruct (String.eqb_spec "" name) as [E|_]; [congruence|exact IH]. }
  rewrite Hnone. destruct limit; reflexivity.
Qed.

Lemma engine_books_unnamed_trades_witness :
  let e' :=
    fst (fst (execute_trade 0 "order-1" "fill-1" (fun _ => Some 150)
                "model" small_decision default_engine)) in
  List.Forall unnamed (Portfolio.trade_history (portfolio e')) /\
  forall (name : string) (limit : nat),
    name <> "" ->
    Portfolio.get_trade_history name limit (portfolio e') = [].
Proof.
  apply (engine_books_unnamed_trades 0%Z "order-1" "fill-1"
           (fun _ => Some 150) "model" small_decision default_engine).
  constructor.
Defined.

End EngineMore.

(** ** Sales, fees and statistics *)

Section SalesAndFees.

Import Portfolio.

(** X28. A successful sale credits the cash with quantity times price
    less the commission and takes the quantity off the position, which
    is removed from the map exactly when nothing is left; the average
    cost of what remains is unchanged. *)
Theorem sale_credits_and_decrements (now : datetime)
    (symbol action : string) (quantity : Z) (price : Q)
    (model_name : string) (pf : Portfolio.t) (pos : Position) :
  lower action = "sell" ->
  positions pf !! symbol = Some pos ->
  (quantity <= pos_quantity pos)%Z ->
  let out :=
    update_position now symbol action quantity (Some price) model_name pf in
  snd out = Ok tt /\
  cash_balance (fst out)
    = cash_balance pf
      + (inject_Z quantity * price
         - _calculate_commission quantity (Some price)) /\
  positions (fst out) !! symbol
    = (if (pos_quantity pos - quantity =? 0)%Z then None
       else Some {| pos_symbol := pos_symbol pos;
                    pos_quantity := pos_quantity pos - quantity;
                    avg_cost := avg_cost pos;
                    current_price := current_price pos;
                    last_updated := last_updated pos |}) /\
  forall other, other <> symbol ->
                positions (fst out) !! other = positions pf !! other.
Proof.
  intros Ha Hpos Hq. cbv zeta. unfold update_position, bind. rewrite Ha.
  cbn [String.eqb Ascii.eqb Bool.eqb]. unfold _sell_stock. rewrite Hpos.
  destruct (Z.ltb_spec (pos_quantity pos) quantity) as [|_]; [lia|].
  cbn [pos_quantity].
  destruct (pos_quantity pos - quantity =? 0)%Z;
    unfold set_history, set_positions, set_cash; cbn;
    (split; [reflexivity|]); (split; [reflexivity|]); split.
  - apply lookup_delete_eq.
  - intros other Hne. apply lookup_delete_ne. congruence.
  - apply lookup_insert_eq.
  - intros other Hne. apply lookup_insert_ne. congruence.
Qed.

Lemma sale_credits_and_decrements_witness :
  let out := update_position 60 "AAPL" "sell" 4 (Some 160) "m" held_ledger in
  snd out = Ok tt /\
  cash_balance (fst out)
    = cash_balance held_ledger
      + (inject_Z 4 * 160 - _calculate_commission 4 (Some 160)) /\
  positions (fst out) !! "AAPL"
    = (if (pos_quantity held_position - 4 =? 0)%Z then None
       else Some {| pos_symbol := pos_symbol held_position;
                    pos_quantity := pos_quantity held_position - 4;
                    avg_cost := avg_cost held_position;
                    current_price := current_price held_position;
                    last_updated := last_updated held_position |}) /\
  forall other, other <> "AAPL" ->
                positions (fst out) !! other = positions held_ledger !! other.
Proof.
  apply (sale_credits_and_decrements 60%Z "AAPL" "sell" 4%Z 160 "m"
           held_ledger held_position); try reflexivity.
  vm_compute. discriminate.
Defined.

Lemma round2_ge_one (x : Q) : 1 <= x -> 1 <= round2 x.
Proof.
  intros Hx. unfold round2.
  assert (Hf : (Qfloor (inject_Z 100) <= Qfloor (x * 100))%Z).
  { apply Qfloor_resp_le. change (inject_Z 100) with 100. lra. }
  rewrite Qfloor_Z in Hf.
  set (f := Qfloor (x * 100)) in *.
  assert (Hn : forall n : Z, (100 <= n)%Z -> 1 <= inject_Z n / 100).
  { intros n Hle. apply Qle_shift_div_l; [reflexivity|].
    rewrite Qmult_1_l. change 100 with (inject_Z 100).
    rewrite <- Zle_Qle. exact Hle. }
  destruct (x * 100 - inject_Z f ?= 1 # 2); [destruct (Z.even f)| |];
    apply Hn; lia.
Qed.

(** X29. Both fee schedules charge at least 1, and the fee the order
    path reports never exceeds the fee the ledger debits for the same
    trade. *)
Theorem commission_floor_and_order (quantity : Z) (price : Q) :
  1 <= OrderManager._calculate_commission quantity price /\
  OrderManager._calculate_commission quantity price
    <= _calculate_commission quantity (Some price).
Proof.
  unfold OrderManager._calculate_commission, _calculate_commission.
  set (c := Qmax 1 (Qmin (inject_Z quantity * (5 # 1000))
                         (inject_Z quantity * price * (5 # 1000)))).
  assert (Hc1 : 1 <= c) by apply Q.le_max_l.
  assert (Hmin : Qmin (inject_Z quantity * (5 # 1000))
                   (inject_Z quantity * price * (5 # 1000))
                 <= inject_Z quantity * (5 # 1000)) by apply Q.le_min_l.
  split; [apply round2_ge_one, Hc1|].
  destruct (Z_le_gt_dec quantity 100) as [Hle|Hgt].
  - assert (Hq : inject_Z quantity <= 100).
    { change 100 with (inject_Z 100). rewrite <- Zle_Qle. exact Hle. }
    assert (Hone : c == 1) by (unfold c; apply Q.max_l; lra).
    rewrite (round2_of_one c Hone). apply Q.le_max_r.
  - assert (Hq : 101 <= inject_Z quantity).
    { change 101 with (inject_Z 101). rewrite <- Zle_Qle. lia. }
    pose proof (round2_upper c) as Hup.
    assert (Hc : c <= inject_Z quantity * (1 # 100) - (1 # 100)).
    { unfold c. apply Q.max_lub; lra. }
    pose proof (Q.le_max_l (inject_Z quantity * (1 # 100)) 1) as Hl.
    lra.
Qed.

Lemma sum_floats_acc (xs : list Q) :
  forall a, fold_left Qplus xs a == a + sum_floats xs.
Proof.
  unfold sum_floats. induction xs as [|x xs IH]; intros a; cbn.
  - ring.
  - rewrite (IH (a + x)), (IH (0 + x)). ring.
Qed.

Lemma sum_floats_pos (xs : list Q) :
  xs <> [] -> List.Forall (fun x => 0 < x) xs -> 0 < sum_floats xs.
Proof.
  intros Hne Hall. destruct xs as [|x xs]; [contradiction|]. clear Hne.
  revert x Hall. induction xs as [|y ys IH]; intros x Hall;
    inversion Hall as [|? ? Hx Hrest]; subst.
  - unfold sum_floats. cbn. lra.
  - unfold sum_floats. cbn. rewrite sum_floats_acc.
    pose proof (IH y Hrest) as Hy. unfold sum_floats in Hy. cbn in Hy.
    rewrite sum_floats_acc in Hy. lra.
Qed.

Lemma sum_floats_neg (xs : list Q) :
  xs <> [] -> List.Forall (fun x => x < 0) xs -> sum_floats xs < 0.
Proof.
  intros Hne Hall. destruct xs as [|x xs]; [contradiction|]. clear Hne.
  revert x Hall. induction xs as [|y ys IH]; intros x Hall;
    inversion Hall as [|? ? Hx Hrest]; subst.
  - unfold sum_floats. cbn. lra.
  - unfold sum_floats. cbn. rewrite sum_floats_acc.
    pose proof (IH y Hrest) as Hy. unfold sum_floats in Hy. cbn in Hy.
    rewrite sum_floats_acc in Hy. lra.
Qed.

Lemma Forall_map_filter (P : Q -> Prop) (b : TradeRecord -> bool)
    (h : list TradeRecord) :
  (forall tr, b tr = true -> P (tr_pnl tr)) ->
  List.Forall P (map tr_pnl (List.filter b h)).
Proof.
  intros Hb. induction h as [|tr h IH]; cbn; [constructor|].
  destruct (b tr) eqn:E; [|exact IH].
  cbn. constructor; [apply Hb, E|exact IH].
Qed.

(** X30. The average win is positive as soon as one trade carries a
    profit and is 0 when none does; the average loss is negative as
    soon as one trade carries a loss and is 0 when none does. Neither
    divides by zero. *)
Theorem average_win_and_loss_signs (pf : Portfolio.t) :
  (if existsb (fun tr => Qgtb (tr_pnl tr) 0) (trade_history pf)
   then 0 < _calculate_avg_win pf else _calculate_avg_win pf = 0) /\
  (if existsb (fun tr => Qltb (tr_pnl tr) 0) (trade_history pf)
   then _calculate_avg_loss pf < 0 else _calculate_avg_loss pf = 0).
Proof.
  assert (Hex : forall (b : TradeRecord -> bool) h,
             existsb b h = false -> List.filter b h = []).
  { intros b h. induction h as [|tr h IH]; cbn; [reflexivity|].
    destruct (b tr); cbn; [discriminate|exact IH]. }
  assert (Hex' : forall (b : TradeRecord -> bool) h,
             existsb b h = true -> map tr_pnl (List.filter b h) <> []).
  { intros b h. induction h as [|tr h IH]; cbn; [discriminate|].
    destruct (b tr); cbn; [discriminate|exact IH]. }
  assert (Hlen : forall xs : list Q,
             xs <> [] -> 0 < inject_Z (Z.of_nat (length xs))).
  { intros xs Hne. destruct xs; [contradiction|].
    change 0 with (inject_Z 0). rewrite <- Zlt_Qlt. cbn [length]. lia. }
  unfold _calculate_avg_win, _calculate_avg_loss. split.
  - destruct (existsb _ _) eqn:E.
    + pose proof (Hex' _ _ E) as Hne.
      pose proof (sum_floats_pos _ Hne
                    (Forall_map_filter (fun x => 0 < x) _ (trade_history pf)
                       (fun tr H => proj1 (Qgtb_true _ _) H))) as Hsum.
      pose proof (Hlen _ Hne) as Hn.
      destruct (map tr_pnl _) as [|x xs]; [contradiction|].
      apply Qlt_shift_div_l; [exact Hn|]. rewrite Qmult_0_l. exact Hsum.
    + rewrite (Hex _ _ E). reflexivity.
  - destruct (existsb _ _) eqn:E.
    + pose proof (Hex' _ _ E) as Hne.
      pose proof (sum_floats_neg _ Hne
                    (Forall_map_filter (fun x => x < 0) _ (trade_history pf)
                       (fun tr H => proj1 (Qltb_true _ _) H))) as Hsum.
      pose proof (Hlen _ Hne) as Hn.
      destruct (map tr_pnl _) as [|x xs]; [contradiction|].
      apply Qlt_shift_div_r; [exact Hn|]. rewrite Qmult_0_l. exact Hsum.
    + rewrite (Hex _ _ E). reflexivity.
Qed.

End SalesAndFees.

(** ** The life cycle of an order, over the calls of the manager *)

Section OrderLifeCycle.

Import OrderManager.

Lemma evolved_refl (o : Order) : evolved o o.
Proof. split; [reflexivity|left; reflexivity]. Qed.

Lemma evolved_trans (o1 o2 o3 : Order) :
  evolved o1 o2 -> evolved o2 o3 -> evolved o1 o3.
Proof.
  intros [Hid12 H12] [Hid23 H23]. split; [congruence|].
  destruct H12 as [->|[Hopen Hexp2]]; [exact H23|].
  destruct H23 as [->|[_ Hexp3]]; right; split; assumption.
Qed.

Lemma evolved_list_refl (l : list Order) : Forall2 evolved l l.
Proof. induction l; constructor; [apply evolved_refl|assumption]. Qed.

Lemma evolved_list_trans (l1 l2 : list Order) :
  Forall2 evolved l1 l2 ->
  forall l3, Forall2 evolved l2 l3 -> Forall2 evolved l1 l3.
Proof.
  induction 1 as [|x y l1 l2 Hxy _ IH]; intros l3 H23;
    inversion H23; subst; constructor.
  - eapply evolved_trans; eassumption.
  - apply IH. assumption.
Qed.

Lemma evolved_insert (l : list Order) :
  forall (i : nat) (x y : Order),
    l !! i = Some x -> evolved x y -> Forall2 evolved l (<[i := y]> l).
Proof.
  induction l as [|a l IH]; intros [|i] x y Hl Hxy; try discriminate.
  - injection Hl as ->. constructor; [exact Hxy|apply evolved_list_refl].
  - constructor; [apply evolved_refl|]. apply (IH i x y Hl Hxy).
Qed.

(** A mutation of one order object that respects [evolved]. *)
Lemma evolved_update_order (i : nat) (f : Order -> Order)
    (om : OrderManager.t) :
  (forall x, orders om !! i = Some x -> evolved x (f x)) ->
  Forall2 evolved (orders om) (orders (update_order i f om)).
Proof.
  intros Hf. unfold update_order.
  destruct (orders om !! i) as [x|] eqn:Hx; [|apply evolved_list_refl].
  cbn [orders set_orders]. apply (evolved_insert _ i x (f x) Hx), Hf.
  reflexivity.
Qed.

Lemma cancel_order_evolves (now : datetime) (id : string)
    (om : OrderManager.t) :
  Forall2 evolved (orders om) (orders (fst (cancel_order now id om))).
Proof.
  unfold cancel_order.
  destruct (index_of id (orders om)) as [i|]; [|apply evolved_list_refl].
  destruct (orders om !! i) as [order|] eqn:Ho; [|apply evolved_list_refl].
  destruct (terminal_for_cancel (status order)) eqn:Hopen;
    [apply evolved_list_refl|].
  cbn [fst]. apply evolved_update_order. intros x Hx.
  assert (x = order) by congruence. subst x.
  split; [reflexivity|]. right. split; [exact Hopen|discriminate].
Qed.

Lemma shutdown_evolves (now : datetime) (om : OrderManager.t) :
  Forall2 evolved (orders om) (orders (shutdown now om)).
Proof.
  unfold shutdown. generalize (get_orders None (Some PENDING) om) as l.
  intros l. revert om.
  induction l as [|x l IH]; intros om; [apply evolved_list_refl|].
  cbn [fold_left].
  eapply evolved_list_trans; [apply cancel_order_evolves|apply IH].
Qed.

Lemma process_loop_evolves (now : datetime) (fill_uuid : nat -> string)
    (quote : string -> option Q) (pending : list (nat * Order)) :
  forall om : OrderManager.t,
    NoDup (map fst pending) ->
    (forall i, In i (map fst pending) ->
               exists o, orders om !! i = Some o /\ status o = SUBMITTED) ->
    Forall2 evolved (orders om)
      (orders (fst (process_loop now fill_uuid quote pending om))).
Proof.
  induction pending as [|[i x] rest IH]; intros om Hnd Hsub;
    [apply evolved_list_refl|].
  cbn [map fst] in Hnd, Hsub. inversion Hnd as [|? ? Hi Hrest]; subst.
  rewrite list_elem_of_In in Hi.
  destruct (Hsub i (or_introl eq_refl)) as (o & Ho & Hst).
  assert (Hsub' : forall k, In k (map fst rest) ->
                            exists o, orders om !! k = Some o /\
                                      status o = SUBMITTED).
  { intros k Hk. apply Hsub. right. exact Hk. }
  cbn [process_loop]. rewrite Ho.
  destruct (order_type o); try (apply IH; assumption).
  destruct (quote (symbol o)) as [cp|]; [|apply IH; assumption].
  destruct (can_fill o cp) as [[|]|e];
    [|apply IH; assumption|apply evolved_list_refl].
  destruct (price o) as [limit|]; [|apply evolved_list_refl].
  eapply evolved_list_trans; [|apply IH; [exact Hrest|]].
  - unfold _fill_limit_order, add_fill. cbn [orders].
    apply evolved_update_order. intros y Hy.
    assert (y = o) by congruence. subst y.
    split; [reflexivity|]. right. rewrite Hst. split; [reflexivity|].
    discriminate.
  - intros k Hk. destruct (Hsub' k Hk) as (ok & Hok & Hstk).
    exists ok. split; [|exact Hstk].
    unfold _fill_limit_order, add_fill. cbn [orders].
    rewrite update_order_other; [exact Hok|].
    intros ->. exact (Hi Hk).
Qed.

Lemma process_pending_orders_evolves (now : datetime)
    (fill_uuid : nat -> string) (quote : string -> option Q)
    (om : OrderManager.t) :
  Forall2 evolved (orders om)
    (orders (fst (process_pending_orders now fill_uuid quote om))).
Proof.
  unfold process_pending_orders.
  destruct (get_orders_facts (Some SUBMITTED) om) as [Hin Hnd].
  apply process_loop_evolves; [exact Hnd|].
  intros i Hi. apply in_map_iff in Hi as ([j x] & Hj & Hx).
  cbn [fst] in Hj. subst j. apply Hin in Hx. exists x. exact Hx.
Qed.

(** Submission writes to the order it was given only, which is still
    PENDING. *)
Lemma submit_order_evolves (now : datetime) (fill_uuid : string)
    (quote : string -> option Q) (i : nat) (order : Order)
    (om : OrderManager.t) :
  orders om !! i = Some order ->
  status order = PENDING ->
  Forall2 evolved (orders om)
    (orders (fst (_submit_order now fill_uuid quote i order om))).
Proof.
  intros Ho Hst.
  assert (Hf : forall f : Order -> Order,
             (forall y, order_id (f y) = order_id y) ->
             (forall y, status (f y) <> EXPIRED) ->
             Forall2 evolved (orders om) (orders (update_order i f om))).
  { intros f Hid Hexp. apply evolved_update_order. intros y Hy.
    assert (y = order) by congruence. subst y.
    split; [apply Hid|]. right. rewrite Hst. split; [reflexivity|apply Hexp]. }
  unfold _submit_order.
  destruct (simulation_mode om); [|apply evolved_list_refl].
  unfold _simulate_order_execution.
  destruct (quote (symbol order)) as [cp|].
  - destruct (execution_price_of order cp) as [[p|]|e]; cbn [fst];
      unfold add_fill; cbn [orders]; apply Hf;
      intros y; try reflexivity; discriminate.
  - cbn [fst]. apply Hf; intros y; [reflexivity|discriminate].
Qed.

(** A new order under a fresh key goes to the end of the store; the
    other orders are not touched. *)
Lemma place_order_evolves (now : datetime) (order_uuid fill_uuid : string)
    (quote : string -> option Q) (decision : TradingDecision)
    (om : OrderManager.t) :
  index_of order_uuid (orders om) = None ->
  exists o,
    order_id o = order_uuid /\ status o = PENDING /\
    Forall2 evolved (orders om ++ [o])%list
      (orders
         (fst (place_order now order_uuid fill_uuid quote decision om))).
Proof.
  intros Hnew. unfold place_order, _create_order.
  set (order := {| order_id := order_uuid; status := PENDING |}).
  exists order. split; [reflexivity|]. split; [reflexivity|].
  assert (Hstore : store order (orders om) = (orders om ++ [order])%list).
  { unfold store. change (order_id order) with order_uuid.
    rewrite Hnew. reflexivity. }
  rewrite Hstore.
  assert (Hidx : index_of order_uuid (orders om ++ [order])%list
                 = Some (length (orders om))).
  { apply (index_of_app_new order). exact Hnew. }
  rewrite Hidx. change (default 0%nat (Some (length (orders om))))
    with (length (orders om)).
  cbn [orders set_orders].
  assert (Hlk : (orders om ++ [order])%list !! length (orders om)
                = Some order).
  { rewrite lookup_app_r by lia. rewrite Nat.sub_diag. reflexivity. }
  rewrite Hlk.
  apply (submit_order_evolves now fill_uuid quote (length (orders om)) order
           (set_orders (orders om ++ [order])%list om) Hlk eq_refl).
Qed.

(** Every call changes the orders of the store within [evolved], after
    at most one new PENDING order under a fresh key. *)
Lemma run_call_evolves (c : OrderCall) (om : OrderManager.t) :
  fresh_uuid c om = true ->
  exists news,
    Forall2 evolved (orders om ++ news)%list (orders (run_call c om)) /\
    (news = [] \/
     exists o, news = [o] /\ status o = PENDING /\
               index_of (order_id o) (orders om) = None).
Proof.
  intros Hfresh.
  destruct c as [|now order_uuid fill_uuid quote decision|now id
                 |now fill_uuid quote|now]; cbn [run_call].
  - exists []. rewrite app_nil_r. split; [apply evolved_list_refl|left].
    reflexivity.
  - cbn [fresh_uuid] in Hfresh.
    destruct (index_of order_uuid (orders om)) eqn:Hnew; [discriminate|].
    destruct (place_order_evolves now order_uuid fill_uuid quote decision om
                Hnew) as (o & Hid & Hst & Hev).
    exists [o]. split; [exact Hev|]. right. exists o.
    rewrite Hid. repeat split; assumption.
  - exists []. rewrite app_nil_r. split; [apply cancel_order_evolves|left].
    reflexivity.
  - exists []. rewrite app_nil_r.
    split; [apply process_pending_orders_evolves|left]. reflexivity.
  - exists []. rewrite app_nil_r. split; [apply shutdown_evolves|left].
    reflexivity.
Qed.

Lemma evolved_ids (l l' : list Order) :
  Forall2 evolved l l' -> map order_id l' = map order_id l.
Proof.
  induction 1 as [|x y l l' [Hid _] _ IH]; [reflexivity|].
  cbn. rewrite Hid, IH. reflexivity.
Qed.

Lemma evolved_not_expired (l l' : list Order) :
  Forall2 evolved l l' ->
  List.Forall (fun o => status o <> EXPIRED) l ->
  List.Forall (fun o => status o <> EXPIRED) l'.
Proof.
  induction 1 as [|x y l l' [_ Hxy] _ IH]; intros Hall; [constructor|].
  inversion Hall as [|? ? Hx Hl]; subst. constructor; [|apply IH, Hl].
  destruct Hxy as [->|[_ Hy]]; assumption.
Qed.

Lemma index_of_None (id : string) (l : list Order) :
  index_of id l = None -> ~ In id (map order_id l).
Proof.
  induction l as [|x l IH]; cbn; [tauto|].
  destruct (String.eqb_spec (order_id x) id) as [|Hne]; [discriminate|].
  destruct (index_of id l); [discriminate|].
  intros _ [Heq|Hin]; [contradiction|]. exact (IH eq_refl Hin).
Qed.

(** With distinct keys, the key of an order leads to that order. *)
Lemma index_of_NoDup (l : list Order) :
  NoDup (map order_id l) ->
  forall i o, l !! i = Some o -> index_of (order_id o) l = Some i.
Proof.
  induction l as [|x l IH]; intros Hnd [|i] o Hl; try discriminate.
  - injection Hl as ->. cbn. rewrite String.eqb_refl. reflexivity.
  - cbn [map] in Hnd. inversion Hnd as [|? ? Hx Hrest]; subst.
    change ((x :: l) !! S i) with (l !! i) in Hl.
    cbn [index_of].
    destruct (String.eqb_spec (order_id x) (order_id o)) as [Heq|_].
    + exfalso. apply Hx. rewrite list_elem_of_In, Heq.
      apply in_map. apply list_elem_of_In. eapply list_elem_of_lookup_2, Hl.
    + rewrite (IH Hrest i o Hl). reflexivity.
Qed.

Lemma store_ok_init : store_ok OrderManager.init.
Proof. split; constructor. Qed.

Lemma run_call_ok (c : OrderCall) (om : OrderManager.t) :
  store_ok om -> fresh_uuid c om = true -> store_ok (run_call c om).
Proof.
  intros [Hnd Hexp] Hfresh.
  destruct (run_call_evolves c om Hfresh) as (news & Hev & Hnews).
  split.
  - rewrite (evolved_ids _ _ Hev), map_app.
    destruct Hnews as [->|(o & -> & _ & Hnew)].
    + cbn. rewrite app_nil_r. exact Hnd.
    + apply NoDup_app. split; [exact Hnd|]. split.
      * intros id Hin Hid. cbn in Hid.
        apply list_elem_of_In in Hid. destruct Hid as [<-|[]].
        apply (index_of_None _ _ Hnew). apply list_elem_of_In. exact Hin.
      * cbn. apply NoDup_singleton.
  - apply (evolved_not_expired _ _ Hev). apply List.Forall_app.
    split; [exact Hexp|].
    destruct Hnews as [->|(o & -> & Hst & _)]; [constructor|].
    constructor; [rewrite Hst; discriminate|constructor].
Qed.

(** A call leaves an order of a terminal status as it is. *)
Lemma run_call_keeps (c : OrderCall) (om : OrderManager.t) (i : nat)
    (o : Order) :
  store_ok om -> fresh_uuid c om = true ->
  orders om !! i = Some o -> terminal (status o) ->
  orders (run_call c om) !! i = Some o.
Proof.
  intros [_ Hexp] Hfresh Ho Hterm.
  destruct (run_call_evolves c om Hfresh) as (news & Hev & _).
  assert (Hlk : (orders om ++ news)%list !! i = Some o).
  { apply lookup_app_l_Some. exact Ho. }
  destruct (Forall2_lookup_l _ _ _ _ _ Hev Hlk) as (o' & Ho' & _ & Hoo).
  destruct Hoo as [->|[Hopen _]]; [exact Ho'|].
  exfalso. rewrite List.Forall_forall in Hexp.
  assert (Hne : status o <> EXPIRED).
  { apply Hexp. apply list_elem_of_In. eapply list_elem_of_lookup_2, Ho. }
  destruct Hterm as [H|[H|[H|H]]]; rewrite H in Hopen; try discriminate.
  congruence.
Qed.

Lemma run_calls_ok (calls : list OrderCall) :
  forall om om', store_ok om -> run_calls calls om = Some om' -> store_ok om'.
Proof.
  induction calls as [|c rest IH]; intros om om' Hok Hrun; cbn in Hrun.
  - injection Hrun as <-. exact Hok.
  - destruct (fresh_uuid c om) eqn:Hfresh; [|discriminate].
    apply (IH _ _ (run_call_ok c om Hok Hfresh) Hrun).
Qed.

Lemma run_calls_keeps (calls : list OrderCall) :
  forall om om' i o,
    store_ok om -> run_calls calls om = Some om' ->
    orders om !! i = Some o -> terminal (status o) ->
    orders om' !! i = Some o.
Proof.
  induction calls as [|c rest IH]; intros om om' i o Hok Hrun Ho Hterm;
    cbn in Hrun.
  - injection Hrun as <-. exact Ho.
  - destruct (fresh_uuid c om) eqn:Hfresh; [|discriminate].
    apply (IH _ _ i o (run_call_ok c om Hok Hfresh) Hrun); [|exact Hterm].
    apply run_call_keeps; assumption.
Qed.

(** C8. In every store that the calls of the order manager produce
    ([initialize], [place_order] with a fresh identifier, [cancel_order],
    [process_pending_orders], [shutdown], in any number and order), no
    order is EXPIRED, and an order whose status is terminal is final:
    after any further calls the same order object is still in its place,
    reached by its key, and exactly as it was, its status included. *)
Theorem terminal_status_is_final (calls later : list OrderCall)
    (om om' : OrderManager.t) (i : nat) (o : Order) :
  run_calls calls OrderManager.init = Some om ->
  run_calls later om = Some om' ->
  orders om !! i = Some o ->
  terminal (status o) ->
  status o <> EXPIRED /\
  orders om' !! i = Some o /\
  get_order_status (order_id o) om' = Some o.
Proof.
  intros Hrun Hlater Ho Hterm.
  pose proof (run_calls_ok calls _ _ store_ok_init Hrun) as Hok.
  pose proof (run_calls_ok later _ _ Hok Hlater) as [Hnd' _].
  pose proof (run_calls_keeps later _ _ i o Hok Hlater Ho Hterm) as Ho'.
  split; [|split; [exact Ho'|]].
  - destruct Hok as [_ Hexp]. rewrite List.Forall_forall in Hexp.
    apply Hexp. apply list_elem_of_In. eapply list_elem_of_lookup_2, Ho.
  - unfold get_order_status. rewrite (index_of_NoDup _ Hnd' i o Ho').
    exact Ho'.
Qed.

Lemma terminal_status_is_final_witness :
  status cancelled_order <> EXPIRED /\
  orders later_book !! 1%nat = Some cancelled_order /\
  get_order_status (order_id cancelled_order) later_book
    = Some cancelled_order.
Proof.
  apply (terminal_status_is_final day_calls later_calls day_book later_book
           1%nat cancelled_order);
    [reflexivity|reflexivity|reflexivity|].
  right. left. reflexivity.
Defined.

End OrderLifeCycle.
